(** * Twilio SMS with Google Sheets: a shallow embedding of the Apps Script
    sources and the properties the specification states about them.

    The development follows the source files one module at a time:
    - [Js]      the JavaScript values and string primitives the scripts use;
    - [Sms]     sms.js       (toE164_, sendSms_, logSms_);
    - [Send]    smsSend.js   (sendOneWithControls_, the preview renderer);
    - [Inbound] smsInbound.js (doPost, updateOptInByPhone_);
    - [Bulk]    smsBulkSend.js (processBatch, sendTwilioSMS, the cursor);
    - [Sync]    the student database synchronisation script
                (syncStudentDatabase, buildIndex_, mergeRecords_,
                hasAttendance_);
    - [Xml], [Journal]  the characters of a reply and the log sheet;
    - [Setup]   smsBulkSend.js (getColumnMapping, getTwilioCredentials,
                validateColumns, sendBulkSMS);
    - [Campaign] smsSend.js  (sendBulkToOptedIn_, sendToEventAttendees_,
                resolveAudience_);
    - [Roster]  the keys of the index of the roster;
    - [Attendance], [Layout]  the attendance facts and the cleanup of the
                preview, as the specification words them.

    Strings are byte sequences, with text outside ASCII in UTF-8.  Letter
    case and white space are those of the ASCII range: [trim],
    [toUpperCase] and [toLowerCase] agree with JavaScript on ASCII text and
    leave every other byte as it is.  Numbers are integers, printed in full.
    A spreadsheet keeps the value that was written to a cell, and a write to
    a cell succeeds. *)

From Stdlib Require Import ZArith String Ascii List Lia Bool DecimalString DecimalPos.
From stdpp Require Import gmap strings list fin_maps.

Local Open Scope Z_scope.

(* ===================================================================== *)
(** ** JavaScript values and string primitives                            *)
(* ===================================================================== *)

Module Js.

(** The values that travel through spreadsheet cells, form parameters and
    JSON bodies.  A [Date] is carried as the text [String(d)] gives for it. *)
Inductive value : Type :=
| VUndef
| VNull
| VBool (b : bool)
| VNum (z : Z)
| VStr (s : string)
| VDate (shown : string).

#[global] Instance value_eq_dec : EqDecision value.
Proof. solve_decision. Defined.

Definition is_empty_string (s : string) : bool :=
  match s with EmptyString => true | String _ _ => false end.

(** ToBoolean. *)
Definition truthy (v : value) : bool :=
  match v with
  | VUndef | VNull => false
  | VBool b => b
  | VNum z => negb (z =? 0)
  | VStr s => negb (is_empty_string s)
  | VDate _ => true
  end.

(** [a || b] *)
Definition or_else (a b : value) : value := if truthy a then a else b.

(** [a ?? b] *)
Definition nullish_else (a b : value) : value :=
  match a with VUndef | VNull => b | _ => a end.

Definition string_of_Z (z : Z) : string := NilZero.string_of_int (Z.to_int z).

(** [String(v)]; a number is an integer and is printed in full, as
    JavaScript prints the integers below 1e21. *)
Definition to_string (v : value) : string :=
  match v with
  | VUndef => "undefined"
  | VNull => "null"
  | VBool true => "true"
  | VBool false => "false"
  | VNum z => string_of_Z z
  | VStr s => s
  | VDate shown => shown
  end.

(** *** Character classes *)

Definition code (c : ascii) : nat := nat_of_ascii c.

(** [\d] *)
Definition is_digit (c : ascii) : bool :=
  (48 <=? code c)%nat && (code c <=? 57)%nat.

(** [\s], which is also what [trim] removes, in the ASCII range: TAB, LF,
    VT, FF, CR and SP. *)
Definition is_space (c : ascii) : bool :=
  ((9 <=? code c)%nat && (code c <=? 13)%nat) || (code c =? 32)%nat.

Definition is_upper (c : ascii) : bool :=
  (65 <=? code c)%nat && (code c <=? 90)%nat.

Definition is_lower (c : ascii) : bool :=
  (97 <=? code c)%nat && (code c <=? 122)%nat.

Definition lower_char (c : ascii) : ascii :=
  if is_upper c then ascii_of_nat (code c + 32) else c.

Definition upper_char (c : ascii) : ascii :=
  if is_lower c then ascii_of_nat (code c - 32) else c.

(** *** Strings *)

Fixpoint smap (f : ascii -> ascii) (s : string) : string :=
  match s with
  | EmptyString => EmptyString
  | String c r => String (f c) (smap f r)
  end.

Fixpoint sfilter (p : ascii -> bool) (s : string) : string :=
  match s with
  | EmptyString => EmptyString
  | String c r => if p c then String c (sfilter p r) else sfilter p r
  end.

(** [s.toLowerCase()] and [s.toUpperCase()], on the ASCII letters *)
Definition toLowerCase (s : string) : string := smap lower_char s.
Definition toUpperCase (s : string) : string := smap upper_char s.

(** [s.replace(/[^\d]/g, '')] *)
Definition digits_only (s : string) : string := sfilter is_digit s.

Fixpoint drop_space (s : string) : string :=
  match s with
  | EmptyString => EmptyString
  | String c r => if is_space c then drop_space r else s
  end.

Fixpoint drop_space_end (s : string) : string :=
  match s with
  | EmptyString => EmptyString
  | String c r =>
      let r' := drop_space_end r in
      if is_space c && is_empty_string r' then EmptyString else String c r'
  end.

(** A text that does not begin with white space. *)
Definition starts_clean (s : string) : Prop :=
  match s with
  | EmptyString => True
  | String c _ => is_space c = false
  end.

(** [s.trim()] *)
Definition trim (s : string) : string := drop_space_end (drop_space s).

(** The double quote character and the one-character string of it. *)
Definition dquote_char : ascii := ascii_of_nat 34.
Definition dquote : string := String dquote_char EmptyString.

(** [s.startsWith(p)] *)
Fixpoint startsWith (p s : string) : bool :=
  match p, s with
  | EmptyString, _ => true
  | String a p', String b s' => Ascii.eqb a b && startsWith p' s'
  | String _ _, EmptyString => false
  end.

(** [s.slice(1)] *)
Definition slice1 (s : string) : string :=
  match s with EmptyString => EmptyString | String _ r => r end.

(** *** Objects

    An object is its own enumerable properties in insertion order, which is
    the order [Object.keys] gives.  A missing property reads [undefined]. *)

Abbreviation obj := (list (string * value)).

Fixpoint get (o : obj) (k : string) : value :=
  match o with
  | [] => VUndef
  | (k', v) :: rest => if bool_decide (k' = k) then v else get rest k
  end.

(** [o[k] = v] *)
Fixpoint set (k : string) (v : value) (o : obj) : obj :=
  match o with
  | [] => [(k, v)]
  | (k', v') :: rest =>
      if bool_decide (k' = k) then (k, v) :: rest else (k', v') :: set k v rest
  end.

Definition keys (o : obj) : list string := map fst o.

End Js.

Import Js.

(* ===================================================================== *)
(** ** The Apps Script services: spreadsheet, script properties, clock     *)
(* ===================================================================== *)

Module Gas.

(** A sheet is its rows, top to bottom; a row is its cells, left to right.
    A cell that was never written reads as the empty string. *)
Abbreviation row := (list value).
Abbreviation sheet := (list (list value)).

Definition blank : value := VStr "".

(** [values[r][c]], both 0-based, of [getDataRange().getValues()] *)
Definition cell (sh : sheet) (r c : nat) : value :=
  match sh !! r with
  | Some cells => default blank (cells !! c)
  | None => blank
  end.

Definition pad {A} (n : nat) (d : A) (l : list A) : list A :=
  l ++ replicate (n - length l) d.

(** [getRange(r + 1, c + 1).setValue(v)]: the sheet grows when the cell lies
    outside it. *)
Definition setValue (r c : nat) (v : value) (sh : sheet) : sheet :=
  let sh' := pad (S r) [] sh in
  <[r := <[c := v]> (pad (S c) blank (default [] (sh' !! r)))]> sh'.

(** [getLastRow()] *)
Definition getLastRow (sh : sheet) : nat := length sh.

(** [appendRow(cells)] *)
Definition appendRow (cells : row) (sh : sheet) : sheet := sh ++ [cells].

Record world : Type := mkWorld {
  props : gmap string string;     (** script properties *)
  book : gmap string sheet;       (** the spreadsheet: sheet name to sheet *)
  clock : string;                 (** the text of [new Date()] *)
  outbox : list (string * string) (** [To] and [Body] of the requests posted
                                      to the vendor, oldest first *)
}.

Definition getProperty (w : world) (k : string) : option string := props w !! k.

(** A property read in a boolean test: [null] and [''] are falsy. *)
Definition truthy_prop (o : option string) : bool :=
  match o with
  | Some s => negb (is_empty_string s)
  | None => false
  end.

Definition setProperty (k v : string) (w : world) : world :=
  mkWorld (<[k := v]> (props w)) (book w) (clock w) (outbox w).

Definition deleteProperty (k : string) (w : world) : world :=
  mkWorld (delete k (props w)) (book w) (clock w) (outbox w).

Definition getSheetByName (w : world) (name : string) : option sheet :=
  book w !! name.

Definition putSheet (name : string) (sh : sheet) (w : world) : world :=
  mkWorld (props w) (<[name := sh]> (book w)) (clock w) (outbox w).

(** [UrlFetchApp.fetch] reaching for the vendor with a message. *)
Definition post (to body : string) (w : world) : world :=
  mkWorld (props w) (book w) (clock w) (outbox w ++ [(to, body)]).

(** [getDataRange().getValues()]: a rectangle; an empty sheet gives one
    blank cell. *)
Definition width (sh : sheet) : nat := foldr Nat.max 0%nat (map length sh).

Definition getValues (sh : sheet) : sheet :=
  match sh with
  | [] => [[blank]]
  | _ => map (pad (width sh) blank) sh
  end.

Definition new_Date (w : world) : value := VDate (clock w).

(** What the vendor's HTTP endpoint does with one request. *)
Record json : Type := mkJson {
  j_sid : value;
  j_code : value;
  j_message : value;
  j_error_message : value
}.

Definition empty_object : json := mkJson VUndef VUndef VUndef VUndef.

Inductive content : Type :=
| ContentEmpty                      (** [getContentText()] is [''] *)
| ContentBad (text err : string)    (** [JSON.parse] throws [err] *)
| ContentNull                       (** the text [null] *)
| ContentObject (j : json).

Inductive fetch_result : Type :=
| FetchThrows (err : string)        (** [UrlFetchApp.fetch] raises *)
| FetchResponse (status : Z) (body : content).

End Gas.

Import Gas.

(* ===================================================================== *)
(** ** sms.js                                                             *)
(* ===================================================================== *)

Module Sms.

(** [toE164_(digits)] *)
Definition toE164_ (digits : value) : string :=
  let d := digits_only (to_string (or_else digits (VStr ""))) in
  let d := if (String.length d =? 10)%nat then "1" +:+ d else d in
  let d := if negb (startsWith "1" d) then "1" +:+ d else d in
  "+" +:+ d.

Definition sms_log_name : string := "SMS Log".

Definition sms_log_header : row :=
  [VStr "Timestamp"; VStr "To"; VStr "Body"; VStr "Twilio SID";
   VStr "HTTP Code"; VStr "Error"].

(** [logSms_(to, body, sid, httpCode, err)] *)
Definition logSms_ (to body sid httpCode err : value) (w : world) : world :=
  let sh := default [] (getSheetByName w sms_log_name) in
  let sh := if (getLastRow sh =? 0)%nat then appendRow sms_log_header sh else sh in
  putSheet sms_log_name
    (appendRow [new_Date w; to; body; sid; httpCode; err] sh) w.

(** The object [sendSms_] returns; an absent field is [VUndef]. *)
Record send_result : Type := mkResult {
  success : bool;
  data : option json;
  error : value;
  errorCode : value
}.

Definition null_type_error : string :=
  "TypeError: Cannot read properties of null (reading 'sid')".

(** The [catch] block of [sendSms_]. *)
Definition sendSms_caught (toE164 body err : string) (w : world)
  : send_result * world :=
  (mkResult false None (VStr err) VUndef,
   logSms_ (VStr toE164) (VStr body) (VStr "") (VNum 0) (VStr err) w).

(** The statements of the [try] block after [JSON.parse] has returned [j]. *)
Definition sendSms_parsed (toE164 body : string) (status : Z) (j : json)
    (w : world) : send_result * world :=
  let w' := logSms_ (VStr toE164) (VStr body) (or_else (j_sid j) (VStr ""))
              (VNum status)
              (or_else (or_else (j_error_message j) (j_message j)) (VStr "")) w in
  if (200 <=? status) && (status <? 300)
  then (mkResult true (Some j) VUndef VUndef, w')
  else (mkResult false None
          (or_else (or_else (j_message j) (j_error_message j)) (VStr "Unknown error"))
          (or_else (j_code j) (VNum status)), w').

(** The two configuration checks at the head of [sendSms_]. *)
Definition missing_credentials (w : world) : bool :=
  negb (truthy_prop (getProperty w "TWILIO_ACCOUNT_SID"))
  || negb (truthy_prop (getProperty w "TWILIO_AUTH_TOKEN")).

Definition missing_sender (w : world) : bool :=
  negb (truthy_prop (getProperty w "TWILIO_MESSAGING_SERVICE_SID"))
  && negb (truthy_prop (getProperty w "TWILIO_FROM_NUMBER")).

(** [sendSms_(toE164, body)]; [fr] is what the vendor does with the request,
    should one be made. *)
Definition sendSms_ (fr : fetch_result) (toE164 body : string) (w : world)
  : send_result * world :=
  if missing_credentials w
  then (mkResult false None
          (VStr "Missing Twilio credentials (SID/TOKEN). Add Script Properties.")
          VUndef, w)
  else if missing_sender w
  then (mkResult false None
          (VStr "Provide TWILIO_MESSAGING_SERVICE_SID or TWILIO_FROM_NUMBER in Script Properties.")
          VUndef, w)
  else
    let w := post toE164 body w in
    match fr with
    | FetchThrows err => sendSms_caught toE164 body err w
    | FetchResponse status ContentEmpty =>
        sendSms_parsed toE164 body status empty_object w
    | FetchResponse status (ContentBad _ err) => sendSms_caught toE164 body err w
    | FetchResponse status ContentNull =>
        sendSms_caught toE164 body null_type_error w
    | FetchResponse status (ContentObject j) =>
        sendSms_parsed toE164 body status j w
    end.

(** The send-attempt records of the log sheet [SMS Log]: its rows that start
    with a time stamp (the header row starts with the text [Timestamp]). *)
Definition is_record (r : row) : bool :=
  match r with
  | VDate _ :: _ => true
  | _ => false
  end.

Definition log_records (w : world) : list row :=
  filter (fun r => is_record r = true) (default [] (getSheetByName w sms_log_name)).

End Sms.

(* ===================================================================== *)
(** ** smsSend.js: the send controller                                    *)
(* ===================================================================== *)

Module Send.

(** [getProp_(k, dft)] *)
Definition getProp_ (w : world) (k dft : string) : string :=
  match getProperty w k with
  | Some v => if is_empty_string v then dft else v
  | None => dft
  end.

(** [isDryRun_()] *)
Definition isDryRun_ (w : world) : bool :=
  bool_decide (toLowerCase (getProp_ w "SMS_DRY_RUN" "false") = "true").

(** [safeLogSms_]: [logSms_] inside a [try]. *)
Definition safeLogSms_ := Sms.logSms_.

(** [sendOneWithControls_(toPhoneE164, body)].  [requireAdmin_] and
    [requirePass_] raise unless the caller is [authorized]; [None] is that
    exception.  The pacing sleep that follows changes no state. *)
Definition sendOneWithControls_ (authorized : bool) (fr : fetch_result)
    (toPhoneE164 body : string) (w : world) : option world :=
  if negb authorized then None
  else if isDryRun_ w
  then Some (safeLogSms_ (VStr toPhoneE164) (VStr ("[DRY RUN] " +:+ body))
               (VStr "DRYRUN") (VNum 0) (VStr "") w)
  else Some (snd (Sms.sendSms_ fr toPhoneE164 body w)).

(** *** The preview renderer, [uiRenderPreview] *)

Definition LF : ascii := ascii_of_nat 10.
Definition CR : ascii := ascii_of_nat 13.
Definition TAB : ascii := ascii_of_nat 9.

(** [smsFooter_()] *)
Definition smsFooter_ : string := " Reply STOP to opt out. HELP for help.".

(** [s.replace(/pat/g, rep)] for a literal, non-empty [pat] and a replacement
    text without a dollar sign: [skip] counts the characters of an occurrence
    that are still to be passed over. *)
Fixpoint replace_from (pat rep : string) (skip : nat) (s : string) : string :=
  match s with
  | EmptyString => EmptyString
  | String c r =>
      match skip with
      | S k => replace_from pat rep k r
      | O =>
          if startsWith pat s
          then rep +:+ replace_from pat rep (String.length pat - 1) r
          else String c (replace_from pat rep 0 r)
      end
  end.

Definition replace_all (pat rep s : string) : string := replace_from pat rep 0 s.

(** The text that stands for a match when the replacement is a text that the
    caller does not choose: in it [$$] is a dollar sign, [$&] the match, [$`]
    the text before the match and [$'] the text after it; the pattern has no
    groups, so any other dollar sign stands for itself. *)
Fixpoint replacement (matched before after rep : string) : string :=
  match rep with
  | EmptyString => EmptyString
  | String d rest =>
      if bool_decide (d = "$"%char)
      then
        match rest with
        | String c r =>
            if bool_decide (c = "$"%char)
            then String "$" (replacement matched before after r)
            else if bool_decide (c = "&"%char)
            then matched +:+ replacement matched before after r
            else if bool_decide (c = "`"%char)
            then before +:+ replacement matched before after r
            else if bool_decide (c = "'"%char)
            then after +:+ replacement matched before after r
            else String "$" (replacement matched before after rest)
        | EmptyString => String "$" EmptyString
        end
      else String d (replacement matched before after rest)
  end.

(** [s.replace(/pat/g, rep)] for a literal, non-empty [pat] and any
    replacement text; [before] is the text that has been passed. *)
Fixpoint replace_value_from (pat rep : string) (skip : nat) (before s : string)
  : string :=
  match s with
  | EmptyString => EmptyString
  | String c r =>
      let passed := before +:+ String c EmptyString in
      match skip with
      | S k => replace_value_from pat rep k passed r
      | O =>
          if startsWith pat s
          then replacement pat before
                 (String.substring (String.length pat)
                    (String.length s - String.length pat) s) rep
               +:+ replace_value_from pat rep (String.length pat - 1) passed r
          else String c (replace_value_from pat rep 0 passed r)
      end
  end.

Definition replace_value (pat rep s : string) : string :=
  replace_value_from pat rep 0 EmptyString s.

(** [\w] *)
Definition is_word (c : ascii) : bool :=
  is_upper c || is_lower c || is_digit c || (code c =? 95)%nat.

Fixpoint take_while (p : ascii -> bool) (s : string) : string :=
  match s with
  | EmptyString => EmptyString
  | String c r => if p c then String c (take_while p r) else EmptyString
  end.

Fixpoint drop_while (p : ascii -> bool) (s : string) : string :=
  match s with
  | EmptyString => EmptyString
  | String c r => if p c then drop_while p r else s
  end.

Record context : Type := mkContext {
  title : string;
  date : string;
  location : string;
  footer : string
}.

(** The names every object inherits; [ctx[key]] is not a string for them. *)
Definition inherited : list string :=
  ["constructor"; "toString"; "toLocaleString"; "valueOf"; "hasOwnProperty";
   "isPrototypeOf"; "propertyIsEnumerable"; "__proto__"; "__defineGetter__";
   "__defineSetter__"; "__lookupGetter__"; "__lookupSetter__"].

(** [(ctx[key] || '').trim()]; [None] is the [TypeError] for an inherited
    name. *)
Definition ctx_value (ctx : context) (key : string) : option string :=
  if bool_decide (key = "title") then Some (trim (title ctx))
  else if bool_decide (key = "date") then Some (trim (date ctx))
  else if bool_decide (key = "location") then Some (trim (location ctx))
  else if bool_decide (key = "footer") then Some (trim (footer ctx))
  else if bool_decide (key ∈ inherited) then None
  else Some "".

(** A match of the optional-segment pattern at the head of [s]: an opening
    brace, one or more word characters (the key), a question mark, white
    space, the segment (everything up to the next closing brace) and that
    closing brace.  The result is the key, the segment and the length of the
    match. *)
Definition optional_at (s : string) : option (string * string * nat) :=
  match s with
  | String "{" s1 =>
      let key := take_while is_word s1 in
      match drop_while is_word s1 with
      | String "?" s2 =>
          let s3 := drop_while is_space s2 in
          let seg := take_while (fun c => negb (bool_decide (c = "}"%char))) s3 in
          match drop_while (fun c => negb (bool_decide (c = "}"%char))) s3 with
          | String "}" _ =>
              if is_empty_string key then None
              else Some (key, seg,
                         (String.length s - String.length s3 + String.length seg + 1)%nat)
          | _ => None
          end
      | _ => None
      end
  | _ => None
  end.

(** Step 2: the optional segments are expanded, left to right. *)
Fixpoint expand_from (ctx : context) (skip : nat) (s : string) : option string :=
  match s with
  | EmptyString => Some EmptyString
  | String c r =>
      match skip with
      | S k => expand_from ctx k r
      | O =>
          match optional_at s with
          | Some (key, seg, len) =>
              v ← ctx_value ctx key;
              rest ← expand_from ctx (len - 1) r;
              Some ((if is_empty_string v then "" else seg) +:+ rest)
          | None => String c <$> expand_from ctx 0 r
          end
      end
  end.

(** [/[^\S\n]+/g]: white space other than the line feed *)
Definition is_hspace (c : ascii) : bool :=
  is_space c && negb (bool_decide (c = LF)).

(** [/[ \t]/] *)
Definition is_blank (c : ascii) : bool :=
  bool_decide (c = " "%char) || bool_decide (c = TAB).

(** [/[!?.,;:]/] *)
Definition is_punct (c : ascii) : bool :=
  bool_decide (c ∈ ["!"; "?"; "."; ","; ";"; ":"]%char).

(** [.replace(/[^\S\n]+/g, ' ')]: [in_run] says that the character before
    belongs to the run that has already been replaced. *)
Fixpoint collapse_from (in_run : bool) (s : string) : string :=
  match s with
  | EmptyString => EmptyString
  | String c r =>
      if is_hspace c
      then if in_run then collapse_from true r else String " " (collapse_from true r)
      else String c (collapse_from false r)
  end.

Definition starts_with (p : ascii -> bool) (s : string) : bool :=
  match s with
  | EmptyString => false
  | String c _ => p c
  end.

(** [.replace(/[ \t]+([!?.,;:])/g, '$1')]: a blank goes exactly when the
    blanks from it on are followed by a punctuation mark. *)
Fixpoint tighten (s : string) : string :=
  match s with
  | EmptyString => EmptyString
  | String c r =>
      if is_blank c && starts_with is_punct (drop_while is_blank r)
      then tighten r
      else String c (tighten r)
  end.

(** [.split('\n')]: the first line and the lines after it. *)
Fixpoint split_lines (s : string) : string * list string :=
  match s with
  | EmptyString => (EmptyString, [])
  | String c r =>
      let '(l, ls) := split_lines r in
      if bool_decide (c = LF) then (EmptyString, l :: ls) else (String c l, ls)
  end.

Definition lines (s : string) : list string :=
  let '(l, ls) := split_lines s in l :: ls.

(** [.join('\n')] *)
Fixpoint join_lines (ls : list string) : string :=
  match ls with
  | [] => EmptyString
  | [l] => l
  | l :: rest => l +:+ String LF (join_lines rest)
  end.

Fixpoint drop_blank_end (s : string) : string :=
  match s with
  | EmptyString => EmptyString
  | String c r =>
      let r' := drop_blank_end r in
      if is_blank c && is_empty_string r' then EmptyString else String c r'
  end.

(** [line.replace(/^[ \t]+|[ \t]+$/g, '')] *)
Definition trim_line (l : string) : string :=
  drop_blank_end (drop_while is_blank l).

(** The line-wise part of step 4, before the final [trim]. *)
Definition tidy (s : string) : string :=
  join_lines (map trim_line (lines (tighten (collapse_from false s)))).

(** Step 4, the final cleanup. *)
Definition cleanup (s : string) : string := trim (tidy s).

(** Steps 0 to 3: line breaks normalised, placeholders protected, optional
    segments expanded, placeholders restored. *)
Definition substitute (body : string) (ctx : context) : option string :=
  let out := trim (replace_all (String CR (String LF EmptyString))
                     (String LF EmptyString) body) in
  let out :=
    replace_all "{footer}" "<<FOOTER>>"
      (replace_all "{location}" "<<LOCATION>>"
         (replace_all "{date}" "<<DATE>>"
            (replace_all "{title}" "<<TITLE>>" out))) in
  out ← expand_from ctx 0 out;
  Some (replace_value "<<FOOTER>>" (footer ctx)
          (replace_value "<<LOCATION>>" (location ctx)
             (replace_value "<<DATE>>" (date ctx)
                (replace_value "<<TITLE>>" (title ctx) out)))).

(** The context of [uiRenderPreview] for an event's title, date and location. *)
Definition preview_context (ev_title ev_date ev_location : string) : context :=
  mkContext (trim ev_title) (trim ev_date) (trim ev_location) smsFooter_.

(** [uiRenderPreview(body, eventId)] for an authorised caller; the event is
    given by what [getEventInfo_] found for it. *)
Definition uiRenderPreview (body : string) (ev_title ev_date ev_location : string)
  : option string :=
  cleanup <$> substitute body (preview_context ev_title ev_date ev_location).

Definition is_LF (c : ascii) : bool := bool_decide (c = LF).

Definition count_nl (s : string) : nat := String.length (sfilter is_LF s).

(** A text with its horizontal white space set aside: what is left are the
    line breaks and the characters that are no white space. *)
Definition without_hspace (s : string) : string :=
  sfilter (fun c => negb (is_hspace c)) s.

(** A text without the line breaks at its end. *)
Fixpoint drop_nl_end (s : string) : string :=
  match s with
  | EmptyString => EmptyString
  | String c r =>
      let r' := drop_nl_end r in
      if is_LF c && is_empty_string r' then EmptyString else String c r'
  end.

(** Whether two neighbouring characters of a text satisfy [p] and [q]. *)
Fixpoint adjacent (p q : ascii -> bool) (s : string) : bool :=
  match s with
  | EmptyString => false
  | String c r => (p c && starts_with q r) || adjacent p q r
  end.

(** Whether every character of a text satisfies [p]. *)
Fixpoint all_chars (p : ascii -> bool) (s : string) : bool :=
  match s with
  | EmptyString => true
  | String c r => p c && all_chars p r
  end.

(** Whether the last character of a text satisfies [p]. *)
Fixpoint ends_with (p : ascii -> bool) (s : string) : bool :=
  match s with
  | EmptyString => false
  | String c r => if is_empty_string r then p c else ends_with p r
  end.

End Send.

(* ===================================================================== *)
(** ** smsInbound.js                                                      *)
(* ===================================================================== *)

Module Inbound.

Definition db_name : string := "Student Database".
Definition log_name : string := "SMS Log".

(** The canonical opt-in values the handler writes. *)
Definition OPT_YES : string := "Yes".
Definition OPT_NO : string := "No".

Definition inbound_log_header : row :=
  [VStr "Timestamp"; VStr "Direction"; VStr "From"; VStr "Body";
   VStr "Status"; VStr "MessageSid"].

(** [logInbound_(from, body, status, sid)] *)
Definition logInbound_ (from body status sid : string) (w : world) : world :=
  let sh := default [] (getSheetByName w log_name) in
  let sh := if (getLastRow sh =? 0)%nat then appendRow inbound_log_header sh else sh in
  putSheet log_name
    (appendRow [new_Date w; VStr "IN"; VStr from; VStr body; VStr status; VStr sid] sh)
    w.

(** [s.replace(/c/g, by)] for a single character [c] *)
Fixpoint replace_char (c : ascii) (by_ : string) (s : string) : string :=
  match s with
  | EmptyString => EmptyString
  | String x r =>
      if bool_decide (x = c) then by_ +:+ replace_char c by_ r
      else String x (replace_char c by_ r)
  end.

(** [escapeXml_(s)] *)
Definition escapeXml_ (s : string) : string :=
  replace_char "'" "&apos;"
    (replace_char dquote_char "&quot;"
       (replace_char ">" "&gt;"
          (replace_char "<" "&lt;"
             (replace_char "&" "&amp;" s)))).

(** [twiml_(message)] *)
Definition twiml_ (message : string) : string :=
  "<?xml version=" +:+ dquote +:+ "1.0" +:+ dquote +:+ " encoding=" +:+ dquote +:+
  "UTF-8" +:+ dquote +:+ "?>" +:+ "<Response>" +:+
  (if is_empty_string message then ""
   else "<Message>" +:+ escapeXml_ message +:+ "</Message>") +:+
  "</Response>".

(** [normalizePhoneDigits_(v)] *)
Definition normalizePhoneDigits_ (v : value) : string :=
  let d := digits_only (to_string (or_else v (VStr ""))) in
  if (String.length d =? 11)%nat && startsWith "1" d then slice1 d else d.

(** [findCol(want)] of [updateOptInByPhone_]; [None] is [-1]. *)
Fixpoint findCol_from (headers : list string) (target : string) (i : nat)
  : option nat :=
  match headers with
  | [] => None
  | h :: rest =>
      if bool_decide (toLowerCase (trim h) = target) then Some i
      else findCol_from rest target (S i)
  end.

Definition findCol (headers : list string) (want : string) : option nat :=
  findCol_from headers (toLowerCase (trim want)) 0.

(** [vals[0].map(h => String(h || ''))] *)
Definition headers_of (vals : sheet) : list string :=
  map (fun h => to_string (or_else h (VStr ""))) (default [] (vals !! 0%nat)).

Definition show_col (c : option nat) : string :=
  match c with
  | Some i => string_of_Z (Z.of_nat i)
  | None => "-1"
  end.

Record scan : Type := mkScan {
  db : sheet;
  changed : bool;
  matches : nat
}.

(** The test [have && have === want] on a row of [vals]. *)
Definition phone_matches (cPhone : nat) (want : string) (cells : row) : bool :=
  let have := normalizePhoneDigits_ (default VUndef (cells !! cPhone)) in
  negb (is_empty_string have) && bool_decide (have = want).

(** The [for] loop of [updateOptInByPhone_]: [rows] are the rows of [vals]
    from index [r] on.  A write to the sheet is taken to succeed. *)
Fixpoint updateLoop (cPhone cOpt : nat) (want : string) (v : string)
    (updateAll : bool) (rows : list row) (r : nat) (s : scan) : scan :=
  match rows with
  | [] => s
  | cells :: rest =>
      if phone_matches cPhone want cells
      then
        let s' := mkScan (setValue r cOpt (VStr v) (db s)) true (S (matches s)) in
        if negb updateAll then s'
        else updateLoop cPhone cOpt want v updateAll rest (S r) s'
      else updateLoop cPhone cOpt want v updateAll rest (S r) s
  end.

(** [updateOptInByPhone_(fromNumber, value, opts)]; [updateAll] is
    [opts.updateAllMatches]. *)
Definition updateOptInByPhone_ (fromNumber : string) (v : string)
    (updateAll : bool) (w : world) : bool * world :=
  match getSheetByName w db_name with
  | None => (false, logInbound_ "SYSTEM" "No Student Database sheet" "" "" w)
  | Some vals =>
      if (length vals <? 2)%nat
      then (false, logInbound_ "SYSTEM" "Student Database is empty" "" "" w)
      else
        let headers := headers_of vals in
        match findCol headers "phone #", findCol headers "sms opt-in" with
        | Some cPhone, Some cOpt =>
            let want := normalizePhoneDigits_ (VStr fromNumber) in
            if is_empty_string want
            then (false,
                  logInbound_ "SYSTEM" ("Invalid inbound From: " +:+ fromNumber) "" "" w)
            else
              let s := updateLoop cPhone cOpt want v updateAll (drop 1 vals) 1
                         (mkScan vals false 0) in
              let w := putSheet db_name (db s) w in
              let w :=
                if (matches s =? 0)%nat
                then logInbound_ "SYSTEM"
                       ("STOP/START: no row matched phone=" +:+ want) "" "" w
                else if changed s
                then logInbound_ "SYSTEM"
                       ("STOP/START: updated " +:+
                        string_of_Z (Z.of_nat (if updateAll then matches s else 1)) +:+
                        " row(s) for phone=" +:+ want +:+ " -> " +:+ v) "" "" w
                else w in
              (changed s, w)
        | cPhone, cOpt =>
            (false,
             logInbound_ "SYSTEM"
               ("Missing headers. Found phone=" +:+ show_col cPhone +:+ ", opt=" +:+
                show_col cOpt +:+ ". Expected " +:+ dquote +:+ "Phone #" +:+ dquote +:+
                " & " +:+ dquote +:+ "SMS Opt-In" +:+ dquote +:+ ".") "" "" w)
        end
  end.

Definition STOP_WORDS : list string :=
  ["STOP"; "STOPALL"; "UNSUBSCRIBE"; "CANCEL"; "END"; "QUIT"].

(** [e.parameter]: the form parameters of the webhook request. *)
Definition param (p : gmap string string) (k : string) : string :=
  to_string (or_else (from_option VStr VUndef (p !! k)) (VStr "")).

(** [doPost(e)]: the reply text and the world it leaves. *)
Definition doPost (p : gmap string string) (w : world) : string * world :=
  let from := param p "From" in
  let body := trim (param p "Body") in
  let status := param p "MessageStatus" in
  let sid := param p "MessageSid" in
  let w := logInbound_ from body status sid w in
  if negb (is_empty_string status) then (twiml_ "", w)
  else
    let upper := toUpperCase body in
    if bool_decide (upper ∈ STOP_WORDS)
    then (twiml_ "", snd (updateOptInByPhone_ from OPT_NO true w))
    else if bool_decide (upper = "START")
    then (twiml_ "", snd (updateOptInByPhone_ from OPT_YES true w))
    else if bool_decide (upper = "HELP") then (twiml_ "", w)
    else if bool_decide (upper = "PING") then (twiml_ "PONG ✅", w)
    else (twiml_ "", w).

End Inbound.

(* ===================================================================== *)
(** ** smsBulkSend.js                                                     *)
(* ===================================================================== *)

Module Bulk.

Definition SHEET_NAME : string := "Student Database".
Definition BATCH_SIZE : nat := 50.
Definition RATE_LIMIT_MS : Z := 200.
Definition DEFAULT_MESSAGE : string := "Hello! This is a message from our system.".
Definition CURSOR_KEY : string := "BULK_SMS_CURSOR".

(** [columnMap]: script column name to 0-based column index. *)
Definition getColumnValue (rowData : row) (columnMap : gmap string nat)
    (scriptColumnName : string) : value :=
  match columnMap !! scriptColumnName with
  | None => VNull
  | Some colIndex => default VUndef (rowData !! colIndex)
  end.

(** The sheet the batch works on. *)
Definition database (w : world) : sheet := default [] (getSheetByName w SHEET_NAME).

(** [setColumnValue(sheet, rowNumber, columnMap, name, value)]; [rowNumber] is
    1-based, and an unmapped column is skipped with a warning. *)
Definition setColumnValue (rowNumber : nat) (columnMap : gmap string nat)
    (scriptColumnName : string) (v : value) (w : world) : world :=
  match columnMap !! scriptColumnName with
  | None => w
  | Some colIndex =>
      putSheet SHEET_NAME (setValue (rowNumber - 1) colIndex v (database w)) w
  end.

(** [isOptedIn(value)] *)
Definition isOptedIn (v : value) : bool :=
  if negb (truthy v) then false
  else
    let normalized := toUpperCase (trim (to_string v)) in
    bool_decide (normalized = "YES") || bool_decide (normalized = "TRUE")
    || bool_decide (normalized = "1") || bool_decide (normalized = "Y")
    || bool_decide (normalized = "✓")
    || bool_decide (normalized = "CHECKED").

Record credentials : Type := mkCredentials {
  accountSid : string;
  authToken : string;
  from : option string;
  messagingServiceSid : option string
}.

(** The object [sendTwilioSMS] returns; an absent field is [VUndef]. *)
Record bulk_result : Type := mkBulkResult {
  success : bool;
  messageSid : value;
  errorCode : value;
  errorMessage : value
}.

Definition failure (code message : value) : bulk_result :=
  mkBulkResult false VUndef code message.

Definition null_type_error (field : string) : string :=
  "TypeError: Cannot read properties of null (reading '" +:+ field +:+ "')".

(** [sendTwilioSMS(to, body, accountSid, authToken, from, messagingServiceSid)];
    [fr] is what the vendor does with the request, should one be made. *)
Definition sendTwilioSMS (fr : fetch_result) (to body : value)
    (cred : credentials) : bulk_result :=
  if negb (truthy_prop (messagingServiceSid cred)) && negb (truthy_prop (from cred))
  then failure (VStr "CONFIG_ERROR")
         (VStr "Neither TWILIO_FROM nor TWILIO_MESSAGING_SERVICE_SID is configured")
  else
    match fr with
    | FetchThrows err => failure (VStr "NETWORK_ERROR") (VStr err)
    | FetchResponse status ContentEmpty =>
        failure (VStr "JSON_PARSE_ERROR") (VStr "Failed to parse Twilio response: ")
    | FetchResponse status (ContentBad text _) =>
        failure (VStr "JSON_PARSE_ERROR")
          (VStr ("Failed to parse Twilio response: " +:+ String.substring 0 200 text))
    | FetchResponse status ContentNull =>
        failure (VStr "NETWORK_ERROR")
          (VStr (null_type_error
                   (if (status =? 201) || (status =? 200) then "sid" else "code")))
    | FetchResponse status (ContentObject j) =>
        if (status =? 201) || (status =? 200)
        then mkBulkResult true (j_sid j) VUndef VUndef
        else failure (or_else (j_code j) (VNum status))
               (or_else (or_else (j_message j) (j_error_message j))
                  (VStr "Unknown error"))
    end.

(** The request of [sendTwilioSMS] as the vendor sees it: none without a
    sender. *)
Definition request (to body : value) (cred : credentials) (w : world) : world :=
  if negb (truthy_prop (messagingServiceSid cred)) && negb (truthy_prop (from cred))
  then w
  else post (to_string to) (to_string body) w.

(** [updateRowSuccess] *)
Definition updateRowSuccess (rowNumber : nat) (columnMap : gmap string nat)
    (w : world) : world :=
  let now := new_Date w in
  let w := setColumnValue rowNumber columnMap "last_sent_at" now w in
  let w := setColumnValue rowNumber columnMap "last_send_status" (VStr "SENT") w in
  let w := setColumnValue rowNumber columnMap "last_error_code" (VStr "") w in
  setColumnValue rowNumber columnMap "last_error_message" (VStr "") w.

(** [updateRowOptOut] *)
Definition updateRowOptOut (rowNumber : nat) (columnMap : gmap string nat)
    (sendResult : bulk_result) (w : world) : world :=
  let now := new_Date w in
  let w := setColumnValue rowNumber columnMap "opt_in" (VStr "NO") w in
  let w := setColumnValue rowNumber columnMap "last_send_status" (VStr "OPTED_OUT") w in
  let w := setColumnValue rowNumber columnMap "last_error_code" (errorCode sendResult) w in
  let w := setColumnValue rowNumber columnMap "last_error_message" (errorMessage sendResult) w in
  setColumnValue rowNumber columnMap "last_sent_at" now w.

(** [updateRowError] *)
Definition updateRowError (rowNumber : nat) (columnMap : gmap string nat)
    (sendResult : bulk_result) (w : world) : world :=
  let now := new_Date w in
  let w := setColumnValue rowNumber columnMap "last_send_status" (VStr "FAILED") w in
  let w := setColumnValue rowNumber columnMap "last_error_code" (errorCode sendResult) w in
  let w := setColumnValue rowNumber columnMap "last_error_message" (errorMessage sendResult) w in
  setColumnValue rowNumber columnMap "last_sent_at" now w.

Record stats : Type := mkStats {
  processed : nat;
  sent : nat;
  skipped : nat;
  failed : nat;
  optedOut : nat;
  hasMore : bool;
  nextCursor : nat
}.

(** What one pass through the loop body did with a row; the source writes it
    to the execution log, with the 1-based sheet row number. *)
Inductive event : Type :=
| SkippedNoPhone (sheetRowNumber : nat)
| SkippedNotOptedIn (sheetRowNumber : nat)
| Sending (sheetRowNumber : nat) (to body : value)
| Succeeded (sheetRowNumber : nat)
| OptedOut (sheetRowNumber : nat)
| Failed (sheetRowNumber : nat)
| Slept (ms : Z).

(** The 0-based data row an event is about. *)
Definition event_row (e : event) : option nat :=
  match e with
  | SkippedNoPhone n | SkippedNotOptedIn n | Sending n _ _
  | Succeeded n | OptedOut n | Failed n => Some (n - 1)%nat
  | Slept _ => None
  end.

(** The data rows the loop body was entered for, in the order of the log:
    every pass through the body logs that it skips the row or that it sends
    to it. *)
Definition visited (es : list event) : list nat :=
  omap (fun e =>
          match e with
          | SkippedNoPhone n | SkippedNotOptedIn n | Sending n _ _ => Some (n - 1)%nat
          | _ => None
          end) es.

Record run : Type := mkRun {
  st : stats;
  wd : world;
  events : list event
}.

Definition bump (f : stats -> stats) (e : list event) (w : world) (r : run) : run :=
  mkRun (f (st r)) w (events r ++ e).

Definition count_processed (s : stats) : stats :=
  mkStats (S (processed s)) (sent s) (skipped s) (failed s) (optedOut s)
    (hasMore s) (nextCursor s).
Definition count_sent (s : stats) : stats :=
  mkStats (processed s) (S (sent s)) (skipped s) (failed s) (optedOut s)
    (hasMore s) (nextCursor s).
Definition count_skipped (s : stats) : stats :=
  mkStats (processed s) (sent s) (S (skipped s)) (failed s) (optedOut s)
    (hasMore s) (nextCursor s).
Definition count_failed (s : stats) : stats :=
  mkStats (processed s) (sent s) (skipped s) (S (failed s)) (optedOut s)
    (hasMore s) (nextCursor s).
Definition count_optedOut (s : stats) : stats :=
  mkStats (processed s) (sent s) (skipped s) (failed s) (S (optedOut s))
    (hasMore s) (nextCursor s).

(** The body of the [while] loop of [processBatch] for a data row (a row other
    than the header).  [fr] is the vendor's answer to this row's request. *)
Definition processRow (columnMap : gmap string nat) (cred : credentials)
    (fr : fetch_result) (rowIndex : nat) (rowData : row) (r : run) : run :=
  let sheetRowNumber := S rowIndex in
  let r := mkRun (count_processed (st r)) (wd r) (events r) in
  let phone := getColumnValue rowData columnMap "phone" in
  let optIn := getColumnValue rowData columnMap "opt_in" in
  let message :=
    or_else (getColumnValue rowData columnMap "message") (VStr DEFAULT_MESSAGE) in
  if negb (truthy phone) || is_empty_string (trim (to_string phone))
  then bump count_skipped [SkippedNoPhone sheetRowNumber] (wd r) r
  else if negb (isOptedIn optIn)
  then bump count_skipped [SkippedNotOptedIn sheetRowNumber] (wd r) r
  else
    let sendResult := sendTwilioSMS fr phone message cred in
    let r := bump id [Sending sheetRowNumber phone message]
               (request phone message cred (wd r)) r in
    let r :=
      if success sendResult
      then bump count_sent [Succeeded sheetRowNumber]
             (updateRowSuccess sheetRowNumber columnMap (wd r)) r
      else if bool_decide (errorCode sendResult = VNum 21610)
      then bump count_optedOut [OptedOut sheetRowNumber]
             (updateRowOptOut sheetRowNumber columnMap sendResult (wd r)) r
      else bump count_failed [Failed sheetRowNumber]
             (updateRowError sheetRowNumber columnMap sendResult (wd r)) r in
    if (processed (st r) <? BATCH_SIZE)%nat
    then bump id [Slept RATE_LIMIT_MS] (wd r) r
    else r.

(** The [while] loop of [processBatch]: [rows] are the rows of [allData] from
    [currentRow] on, so the loop test [currentRow < totalRows] is the test
    that [rows] is not empty. *)
Fixpoint processLoop (columnMap : gmap string nat) (cred : credentials)
    (vendor : nat -> fetch_result) (rows : list row) (currentRow : nat)
    (r : run) : nat * run :=
  match rows with
  | [] => (currentRow, r)
  | rowData :: rest =>
      if (processed (st r) <? BATCH_SIZE)%nat
      then
        if (currentRow =? 0)%nat
        then processLoop columnMap cred vendor rest (S currentRow) r
        else processLoop columnMap cred vendor rest (S currentRow)
               (processRow columnMap cred (vendor currentRow) currentRow rowData r)
      else (currentRow, r)
  end.

(** [saveCursor(position)] *)
Definition saveCursor (position : nat) (w : world) : world :=
  setProperty CURSOR_KEY (string_of_Z (Z.of_nat position)) w.

(** [resetCursor()] *)
Definition resetCursor (w : world) : world := deleteProperty CURSOR_KEY w.

Definition set_cursor (more : bool) (next : nat) (s : stats) : stats :=
  mkStats (processed s) (sent s) (skipped s) (failed s) (optedOut s) more next.

(** [processBatch(sheet, allData, columnMap, credentials, startCursor)];
    [vendor i] is the vendor's answer to the request made for row [i]. *)
Definition processBatch (vendor : nat -> fetch_result) (allData : sheet)
    (columnMap : gmap string nat) (cred : credentials) (startCursor : nat)
    (w : world) : run :=
  let totalRows := length allData in
  let '(currentRow, r) :=
    processLoop columnMap cred vendor (drop startCursor allData) startCursor
      (mkRun (mkStats 0 0 0 0 0 false startCursor) w []) in
  if (currentRow <? totalRows)%nat
  then mkRun (set_cursor true currentRow (st r)) (saveCursor currentRow (wd r))
         (events r)
  else mkRun (set_cursor false totalRows (st r)) (wd r) (events r).

(** [parseInt(s, 10)]; [None] is [NaN]. *)
Fixpoint digits_acc (s : string) (acc : Z) : Z :=
  match s with
  | EmptyString => acc
  | String c r =>
      if is_digit c then digits_acc r (10 * acc + (Z.of_nat (code c) - 48)) else acc
  end.

Definition parse_unsigned (s : string) : option Z :=
  match s with
  | EmptyString => None
  | String c _ => if is_digit c then Some (digits_acc s 0) else None
  end.

Definition parseInt (s : string) : option Z :=
  match drop_space s with
  | String "-" r => Z.opp <$> parse_unsigned r
  | String "+" r => parse_unsigned r
  | s' => parse_unsigned s'
  end.

(** [getCursor()] *)
Definition getCursor (w : world) : option Z :=
  match getProperty w CURSOR_KEY with
  | Some cursor => if is_empty_string cursor then Some 1 else parseInt cursor
  | None => Some 1
  end.


End Bulk.

(* ===================================================================== *)
(** ** The student database synchronisation script                        *)
(* ===================================================================== *)

Module Sync.

Definition databaseSheetName : string := "Student Database".
Definition attendanceSheetName : string := "Attendance".
Definition eventIdHeader : string := "Event ID Attended (Pre-Filled)".
Definition processedFlagColumn : string := "Processed".
Definition matchKeys : list string := ["Campus Email"; "Email"; "Phone #"].

(** [CONFIG.fieldAliases] of the alias-list draft *)
Definition fieldAliases : list (string * list string) :=
  [("Join Date", ["Timestamp"; "Join Date"]);
   ("Student Name", ["Full Name (First & Last)"; "Full Name"; "Name"; "Student Name"]);
   ("Role", ["Role"]);
   ("Panther ID", ["Panther ID"; "PantherID"]);
   ("Discord", ["Discord"; "Discord Handle"]);
   ("Email", ["Email"; "Personal Email"]);
   ("Campus Email", ["Campus Email"; "Campus Email Address"; "School Email"]);
   ("Phone #", ["Phone Number "; "Phone Number"; "Phone"; "Phone #"; "Mobile"]);
   ("SMS Opt-In", ["SMS Opt-In"; "SMS Opt In"; "Text Opt-In"; "Text Opt In"])].

(** [CONFIG.fieldMap] of the field-map draft: response header, database column *)
Definition fieldMap : list (string * string) :=
  [("Timestamp", "Join Date");
   ("Full Name (First & Last)", "Student Name");
   ("Role", "Role");
   ("Panther ID", "Panther ID");
   ("Discord", "Discord");
   ("Email", "Email");
   ("Campus Email", "Campus Email");
   ("Phone Number ", "Phone #");
   ("SMS Opt-In", "SMS Opt-In")].

Definition eventIdHeaders : list string :=
  [eventIdHeader; "EventID"; "Event Id"; "Event"; "Workshop"; "Workshop/Event"].

Definition welcome_text : string :=
  "Thanks for opting in to Progsu SMS alerts! Cool events are coming your way. Reply STOP to opt out. Reply HELP for help.".

Record table : Type := mkTable {
  headers : list string;
  rows : list obj;
  startRow : nat
}.

(** [readSheetAsObjects_(sheet)] *)
Definition readSheetAsObjects_ (sh : sheet) : table :=
  match getValues sh with
  | [] => mkTable [] [] 2
  | first :: rest =>
      let headers := map to_string first in
      mkTable headers
        (map (fun cells =>
                foldl (fun o hv => set (fst hv) (snd hv) o) [] (zip headers cells))
           rest)
        2
  end.

(** [l.indexOf(x)]; [None] is [-1]. *)
Fixpoint indexOf_from (x : string) (l : list string) (i : nat) : option nat :=
  match l with
  | [] => None
  | y :: rest => if bool_decide (y = x) then Some i else indexOf_from x rest (S i)
  end.

Definition indexOf (x : string) (l : list string) : option nat := indexOf_from x l 0.

(** [ensureProcessedColumn_(sheet, colName)] *)
Definition ensureProcessedColumn_ (colName : string) (sh : sheet) : sheet :=
  let data := readSheetAsObjects_ sh in
  if bool_decide (colName ∈ headers data) then sh
  else setValue 0 (length (headers data)) (VStr colName) sh.

(** [firstNonEmpty_(arr)] *)
Fixpoint firstNonEmpty_ (arr : list value) : value :=
  match arr with
  | [] => VStr ""
  | v :: rest =>
      if truthy v && negb (is_empty_string (trim (to_string v))) then v
      else firstNonEmpty_ rest
  end.

(** [inferMatchKey_(obj, keys)]; [None] is [null]. *)
Fixpoint inferMatchKey_ (o : obj) (ks : list string) : option string :=
  match ks with
  | [] => None
  | k :: rest =>
      let v := get o k in
      if truthy v && negb (is_empty_string (trim (to_string v))) then Some k
      else inferMatchKey_ o rest
  end.

(** [makeIndexKey_(keyName, keyVal)] *)
Definition makeIndexKey_ (keyName : string) (keyVal : value) : string :=
  keyName +:+ "::" +:+ toLowerCase (to_string keyVal).

(** [normalizeFieldValue_(dbKey, value)] *)
Definition normalizeFieldValue_ (dbKey : string) (v : value) : value :=
  if negb (truthy v) then VStr ""
  else
    let v :=
      if bool_decide (dbKey = "Email") || bool_decide (dbKey = "Campus Email")
      then VStr (toLowerCase (trim (to_string v))) else v in
    let v :=
      if bool_decide (dbKey = "Phone #")
      then
        let d := digits_only (to_string v) in
        VStr (if (String.length d =? 11)%nat && startsWith "1" d then slice1 d else d)
      else v in
    if bool_decide (dbKey = "SMS Opt-In") then VStr "Yes" else v.

(** [buildIndex_(rows, matchKeys)]: index key to sheet row number and record. *)
Definition index_row (idx : gmap string (nat * obj)) (io : nat * obj)
  : gmap string (nat * obj) :=
  let '(i, o) := io in
  let keyName := inferMatchKey_ o matchKeys in
  let keyVal :=
    firstNonEmpty_ [get o "Campus Email"; get o "Email";
                    normalizeFieldValue_ "Phone #" (get o "Phone #")] in
  match keyName with
  | Some k => if truthy keyVal then <[makeIndexKey_ k keyVal := (i + 2, o)%nat]> idx else idx
  | None => idx
  end.

Definition buildIndex_ (rows : list obj) : gmap string (nat * obj) :=
  foldl index_row ∅ (imap (fun i o => (i, o)) rows).

(** The test [newVal !== '' && newVal !== null && newVal !== undefined] *)
Definition supplied (v : value) : bool :=
  match v with
  | VUndef | VNull => false
  | VStr s => negb (is_empty_string s)
  | _ => true
  end.

(** [mergeRecords_(existing, incoming)] *)
Definition merge_key (incoming : obj) (merged : obj) (k : string) : obj :=
  if bool_decide (k = "Join Date") then merged
  else
    let newVal := get incoming k in
    if supplied newVal then set k newVal merged else merged.

Definition mergeRecords_ (existing incoming : obj) : obj :=
  foldl (merge_key incoming) existing (keys incoming).

(** [headers.map(h => obj[h] ?? '')] *)
Definition row_of (hs : list string) (o : obj) : row :=
  map (fun h => nullish_else (get o h) (VStr "")) hs.

(** [writeBackRow_(sheet, headers, rowNumber, obj)]; [rowNumber] is 1-based. *)
Definition writeBackRow_ (hs : list string) (rowNumber : nat) (o : obj)
    (sh : sheet) : sheet :=
  let sh' := pad rowNumber [] sh in
  <[(rowNumber - 1)%nat :=
      row_of hs o ++ drop (length hs) (default [] (sh' !! (rowNumber - 1)%nat))]> sh'.

(** [appendRow_(sheet, headers, obj)] *)
Definition appendRow_ (hs : list string) (o : obj) (sh : sheet) : sheet :=
  appendRow (row_of hs o) sh.

(** [getValueByHeader_(rowObj, headers)] *)
Fixpoint value_under (rowObj : obj) (ks : list string) (h : string) : option string :=
  match ks with
  | [] => None
  | key :: rest =>
      if bool_decide (toLowerCase (trim key) = toLowerCase (trim h))
      then
        match get rowObj key with
        | VUndef | VNull => value_under rowObj rest h
        | v =>
            if negb (is_empty_string (trim (to_string v)))
            then Some (trim (to_string v))
            else value_under rowObj rest h
        end
      else value_under rowObj rest h
  end.

Fixpoint getValueByHeader_ (rowObj : obj) (hs : list string) : string :=
  match hs with
  | [] => ""
  | h :: rest =>
      match value_under rowObj (keys rowObj) h with
      | Some v => v
      | None => getValueByHeader_ rowObj rest
      end
  end.

(** The lower-cased, trimmed header row of the attendance sheet. *)
Definition headersLC (sh : sheet) : list string :=
  map (fun h => toLowerCase (trim (to_string h))) (default [] (getValues sh !! 0%nat)).

(** [(student['Campus Email'] || '').toLowerCase().trim()]; [None] is the
    TypeError of a value that is truthy and not text: a number, a date or
    [true] has no [toLowerCase]. *)
Definition campusEmailOf (student : obj) : option string :=
  match or_else (get student "Campus Email") (VStr "") with
  | VStr s => Some (trim (toLowerCase s))
  | _ => None
  end.

(** [appendAttendanceRow_(sheet, eventId, student)]; [None] is an exception:
    the one thrown for a sheet without the two headers, or the TypeError of
    [campusEmailOf]. *)
Definition appendAttendanceRow_ (eventId : string) (student : obj) (sh : sheet)
  : option sheet :=
  match indexOf "event id" (headersLC sh), indexOf "campus email" (headersLC sh) with
  | Some colEventId, Some colCampusEmail =>
      let nextRow := getLastRow sh in   (* 0-based index of the row after the last *)
      match campusEmailOf student with
      | None => None
      | Some campusEmailVal =>
          let sh := if negb (is_empty_string eventId)
                    then setValue nextRow colEventId (VStr eventId) sh else sh in
          let sh := if negb (is_empty_string campusEmailVal)
                    then setValue nextRow colCampusEmail (VStr campusEmailVal) sh
                    else sh in
          Some sh
      end
  | _, _ => None
  end.

(** The row that the two writes of [appendAttendanceRow_] leave after the
    last row: the event id in its column, the email in its column. *)
Definition attendance_row (colEventId colCampusEmail : nat)
    (eventId campusEmailVal : string) : row :=
  <[colCampusEmail := VStr campusEmailVal]>
    (pad (S colCampusEmail) blank (replicate colEventId blank ++ [VStr eventId])).

(** [hasAttendance_(sheet, eventId, campusEmailLower)] *)
Definition attendance_match (colEventId colCampusEmail : nat)
    (eventId campusEmailLower : string) (cells : row) : bool :=
  let existingEventId :=
    trim (to_string (or_else (default VUndef (cells !! colEventId)) (VStr ""))) in
  let existingCampusEmail :=
    toLowerCase
      (trim (to_string (or_else (default VUndef (cells !! colCampusEmail)) (VStr "")))) in
  bool_decide (existingEventId = eventId)
  && bool_decide (existingCampusEmail = campusEmailLower).

Definition hasAttendance_ (sh : sheet) (eventId campusEmailLower : string) : bool :=
  if is_empty_string eventId || is_empty_string campusEmailLower then false
  else
    match indexOf "event id" (headersLC sh), indexOf "campus email" (headersLC sh) with
    | Some colEventId, Some colCampusEmail =>
        existsb (attendance_match colEventId colCampusEmail eventId campusEmailLower)
          (drop 1 (getValues sh))
    | _, _ => false
    end.

(** The attendance block of the loop body: [None] is an exception, that of
    [campusEmailOf] or of [appendAttendanceRow_]. *)
Definition recordAttendance (row : obj) (studentSaved : obj) (sh : sheet)
  : option sheet :=
  let eventId := getValueByHeader_ row eventIdHeaders in
  match campusEmailOf studentSaved with
  | None => None
  | Some campusEmailKey =>
      if negb (is_empty_string eventId) && negb (is_empty_string campusEmailKey)
         && negb (hasAttendance_ sh eventId campusEmailKey)
      then appendAttendanceRow_ eventId studentSaved sh
      else Some sh
  end.

(** The attendance blocks of a sequence of processed submissions, each given
    by its response row and the student record saved for it. *)
Fixpoint recordAll (subs : list (obj * obj)) (sh : sheet) : option sheet :=
  match subs with
  | [] => Some sh
  | (row, studentSaved) :: rest =>
      match recordAttendance row studentSaved sh with
      | Some sh' => recordAll rest sh'
      | None => None
      end
  end.

(** The two columns of the attendance sheet, when its header row has them. *)
Definition attendance_columns (sh : sheet) : option (nat * nat) :=
  match indexOf "event id" (headersLC sh), indexOf "campus email" (headersLC sh) with
  | Some colEventId, Some colCampusEmail => Some (colEventId, colCampusEmail)
  | _, _ => None
  end.

(** The number of attendance facts for an event id and an identity email, read
    the way [hasAttendance_] reads the sheet. *)
Definition attendance_count (sh : sheet) (eventId campusEmailLower : string) : nat :=
  match attendance_columns sh with
  | Some (colEventId, colCampusEmail) =>
      length (List.filter
                (attendance_match colEventId colCampusEmail eventId campusEmailLower)
                (drop 1 (getValues sh)))
  | None => 0
  end.

(** The test of the attendance block: an event id, an identity email and
    no fact for the two yet. *)
Definition appends (sh : sheet) (eventId campusEmailKey : string) : bool :=
  negb (is_empty_string eventId) && negb (is_empty_string campusEmailKey)
  && (attendance_count sh eventId campusEmailKey =? 0)%nat.

(** How a response row becomes the incoming field set: by header aliases in
    the one draft, by the field map in the other. *)
Definition incoming_by_aliases (row : obj) : obj :=
  foldl (fun incoming kv =>
           set (fst kv) (normalizeFieldValue_ (fst kv) (VStr (getValueByHeader_ row (snd kv))))
             incoming)
    [] fieldAliases.

Definition incoming_by_fieldMap (row : obj) : obj :=
  foldl (fun incoming kv =>
           set (snd kv)
             (normalizeFieldValue_ (snd kv) (nullish_else (get row (fst kv)) (VStr "")))
             incoming)
    [] fieldMap.

Inductive outcome : Type :=
| Done (w : world)
| Threw (w : world).

Definition updateSheet (name : string) (f : sheet -> sheet) (w : world) : world :=
  putSheet name (f (default [] (getSheetByName w name))) w.

(** The welcome message of both branches. *)
Definition welcome (fr : fetch_result) (saved : obj) (w : world) : world :=
  let phone := get saved "Phone #" in
  if truthy phone
  then snd (Sms.sendSms_ fr (Sms.toE164_ phone) welcome_text w)
  else w.

(** The branch [if (existingRowEntry)] of the loop body. *)
Definition updateExisting (fr : fetch_result) (dbHeaders : list string)
    (rowNumber : nat) (o incoming : obj) (w : world) : obj * world :=
  let prevOpt := toLowerCase (to_string (or_else (get o "SMS Opt-In") (VStr ""))) in
  let incomingOptYes := bool_decide (get incoming "SMS Opt-In" = VStr "Yes") in
  let updated := mergeRecords_ o incoming in
  let updated := if incomingOptYes then set "SMS Opt-In" (VStr "Yes") updated else updated in
  let w := updateSheet databaseSheetName (writeBackRow_ dbHeaders rowNumber updated) w in
  let w := if incomingOptYes && negb (bool_decide (prevOpt = "yes"))
           then welcome fr updated w else w in
  (updated, w).

(** [Utilities.formatDate(new Date(), Session.getScriptTimeZone(), 'M/d/yyyy')]:
    the month, the day and the year that the text of [new Date()] names, in
    the time zone of the script: [Mon Nov 02 2026 09:10:00] gives
    [11/2/2026]. *)
Definition month_number (name : string) : string :=
  default ""
    ((list_to_map
        [("Jan", "1"); ("Feb", "2"); ("Mar", "3"); ("Apr", "4"); ("May", "5");
         ("Jun", "6"); ("Jul", "7"); ("Aug", "8"); ("Sep", "9"); ("Oct", "10");
         ("Nov", "11"); ("Dec", "12")] : gmap string string) !! name).

Definition formatDate (clock : string) : string :=
  let day := String.substring 8 2 clock in
  month_number (String.substring 4 3 clock) +:+ "/"
  +:+ (if startsWith "0" day then slice1 day else day) +:+ "/"
  +:+ String.substring 11 4 clock.

(** The branch [else] of the loop body. *)
Definition insertNew (fr : fetch_result) (dbHeaders : list string)
    (incoming : obj) (w : world) : obj * world :=
  let newObj := foldl (fun o h => set h (VStr "") o) [] dbHeaders in
  let newObj := foldl (fun o k => set k (get incoming k) o) newObj (keys incoming) in
  let newObj := if negb (truthy (get newObj "Join Date"))
                then set "Join Date" (VStr (formatDate (clock w))) newObj else newObj in
  let incomingOptYes := bool_decide (get incoming "SMS Opt-In" = VStr "Yes") in
  let newObj :=
    if incomingOptYes then set "SMS Opt-In" (VStr "Yes") newObj
    else if negb (truthy (get newObj "SMS Opt-In"))
    then set "SMS Opt-In" (VStr "?") newObj else newObj in
  let w := updateSheet databaseSheetName (appendRow_ dbHeaders newObj) w in
  let w := if incomingOptYes then welcome fr newObj w else w in
  (newObj, w).

Record pass : Type := mkPass {
  incoming_of : obj -> obj;               (** the draft's way to read a row *)
  dbHeaders : list string;                (** [dbData.headers] *)
  dbIndex : gmap string (nat * obj)       (** built once, before the loops *)
}.

(** The body of the [for] loop over the rows of one response sheet, for a
    row that is not flagged as processed.  [r] is the 0-based position of the
    row among the data rows; [fr] answers the welcome message, if one goes
    out.  The calls of [debug_] in the attendance block, which write to the
    logger and to the sheet [Debug Log], are left out: the world holds the
    other sheets. *)
Definition processRow (ps : pass) (fr : fetch_result) (name : string)
    (processedColIdx : nat) (r : nat) (row : obj) (w : world) : outcome :=
  let mark := updateSheet name (setValue (2 + r - 1) processedColIdx (VStr "YES")) in
  let incoming := incoming_of ps row in
  let keyValue :=
    firstNonEmpty_ [get incoming "Campus Email"; get incoming "Email";
                    get incoming "Phone #"] in
  let matchKey := if truthy keyValue then inferMatchKey_ incoming matchKeys else None in
  match matchKey with
  | None => Done (mark w)
  | Some matchKey =>
      if negb (truthy keyValue) then Done (mark w)
      else
        let idxKey := makeIndexKey_ matchKey keyValue in
        let '(studentSaved, w) :=
          match dbIndex ps !! idxKey with
          | Some (rowNumber, o) => updateExisting fr (dbHeaders ps) rowNumber o incoming w
          | None => insertNew fr (dbHeaders ps) incoming w
          end in
        match getSheetByName w attendanceSheetName with
        | None => Done (mark w)
        | Some att =>
            match recordAttendance row studentSaved att with
            | None => Threw w
            | Some att' => Done (mark (putSheet attendanceSheetName att' w))
            end
        end
  end.

(** [(row['Processed'] || '').toString().toLowerCase() === 'yes'] *)
Definition is_processed (row : obj) : bool :=
  bool_decide
    (toLowerCase (to_string (or_else (get row processedFlagColumn) (VStr ""))) = "yes").

(** The [for] loop over [resp.rows] from position [r] on. *)
Fixpoint processRows (ps : pass) (vendor : nat -> fetch_result) (name : string)
    (processedColIdx : nat) (rows : list obj) (r : nat) (w : world) : outcome :=
  match rows with
  | [] => Done w
  | row :: rest =>
      if is_processed row
      then processRows ps vendor name processedColIdx rest (S r) w
      else
        match processRow ps (vendor r) name processedColIdx r row w with
        | Done w => processRows ps vendor name processedColIdx rest (S r) w
        | Threw w => Threw w
        end
  end.

(** The callback of [CONFIG.responseSheetNames.forEach]. *)
Definition processSheet (ps : pass) (vendor : nat -> fetch_result) (name : string)
    (w : world) : outcome :=
  match getSheetByName w name with
  | None => Done w
  | Some sh =>
      let sh := ensureProcessedColumn_ processedFlagColumn sh in
      let w := putSheet name sh w in
      let resp := readSheetAsObjects_ sh in
      match indexOf processedFlagColumn (headers resp) with
      | None => Threw w      (* a range in column 0 *)
      | Some processedColIdx =>
          processRows ps vendor name processedColIdx (rows resp) 0 w
      end
  end.

Fixpoint processSheets (ps : pass) (vendor : nat -> fetch_result)
    (names : list string) (w : world) : outcome :=
  match names with
  | [] => Done w
  | name :: rest =>
      match processSheet ps vendor name w with
      | Done w => processSheets ps vendor rest w
      | Threw w => Threw w
      end
  end.

(** [syncStudentDatabase()], for a draft given by its way to read a row and
    its response sheets.  [vendor r] answers the welcome message sent for
    the response row at position [r]. *)
Definition syncWith (read : obj -> obj) (responseSheetNames : list string)
    (vendor : nat -> fetch_result) (w : world) : outcome :=
  match getSheetByName w databaseSheetName with
  | None => Threw w
  | Some db =>
      let dbData := readSheetAsObjects_ db in
      let ps := mkPass read (headers dbData) (buildIndex_ (rows dbData)) in
      processSheets ps vendor responseSheetNames w
  end.

(** The alias-list draft. *)
Definition syncStudentDatabase : (nat -> fetch_result) -> world -> outcome :=
  syncWith incoming_by_aliases ["Raw Attendance Data"; "Interest Form Raw Data"].

(** The field-map draft. *)
Definition syncStudentDatabase_fieldMap : (nat -> fetch_result) -> world -> outcome :=
  syncWith incoming_by_fieldMap ["Raw Attendance Data"].

(** The rows of the Student Database sheet below the header. *)
Definition roster (w : world) : list obj :=
  rows (readSheetAsObjects_ (default [] (getSheetByName w databaseSheetName))).

Definition world_of (o : outcome) : world :=
  match o with Done w | Threw w => w end.

End Sync.

(* ===================================================================== *)
(** ** Sample worlds and inputs                                           *)
(* ===================================================================== *)

Module Sample.

(** A world with nothing configured and an empty spreadsheet. *)
Definition bare_world : world := mkWorld ∅ ∅ "Mon Nov 02 2026 09:00:00" [].

(** The script properties of a project with the Twilio account and a sender
    number. *)
Definition twilio_props : gmap string string :=
  <["TWILIO_ACCOUNT_SID" := "AC00"]>
    (<["TWILIO_AUTH_TOKEN" := "secret"]>
       (<["TWILIO_FROM_NUMBER" := "+15550100"]> ∅)).

(** A world with the Twilio account, a sender number and an empty log. *)
Definition configured_world : world :=
  mkWorld twilio_props ∅ "Mon Nov 02 2026 09:00:00" [].

Definition texts (l : list string) : row := map VStr l.

Definition database_header : row :=
  texts ["Join Date"; "Student Name"; "Role"; "Panther ID"; "Discord"; "Email";
         "Campus Email"; "Phone #"; "SMS Opt-In"].

Definition response_header : row :=
  texts ["Timestamp"; "Full Name (First & Last)"; "Campus Email"; "Phone Number ";
         "SMS Opt-In"; "Event ID Attended (Pre-Filled)"].

Definition attendance_header : row := texts ["Event ID"; "Campus Email"].

(** Two submissions of the attendance form by one student, both ticking the
    opt-in box, for the same event. *)
Definition ada_first : row :=
  texts ["11/2/2026 9:00:00"; "Ada Lovelace"; "ada@gsu.edu"; "(816) 237-9012";
         "Yes, text me"; "EVT-1"].

Definition ada_second : row :=
  texts ["11/2/2026 9:05:00"; "Ada Lovelace"; "Ada@GSU.edu "; "816-237-9012";
         "Yes, text me"; "EVT-1"].

Definition book_of (database responses attendance : sheet) : gmap string sheet :=
  <["Student Database" := database]>
    (<["Raw Attendance Data" := responses]>
       (<["Attendance" := attendance]> ∅)).

(** The roster is empty and both submissions wait to be processed. *)
Definition two_new_submissions : world :=
  mkWorld twilio_props
    (book_of [database_header] [response_header; ada_first; ada_second]
       [attendance_header])
    "Mon Nov 02 2026 09:10:00" [].

(** The student is on the roster, not yet asked about messages, and both
    submissions wait to be processed. *)
Definition ada_on_roster : row :=
  texts ["1/15/2026"; "Ada Lovelace"; "Member"; ""; ""; ""; "ada@gsu.edu";
         "8162379012"; "?"].

Definition two_submissions_known_student : world :=
  mkWorld twilio_props
    (book_of [database_header; ada_on_roster]
       [response_header; ada_first; ada_second] [attendance_header])
    "Mon Nov 02 2026 09:10:00" [].

(** The roster is empty and the first submission waits to be processed. *)
Definition one_new_submission : world :=
  mkWorld twilio_props
    (book_of [database_header] [response_header; ada_first] [attendance_header])
    "Mon Nov 02 2026 09:10:00" [].

(** The form adds a submission to its response sheet. *)
Definition submit (cells : row) (w : world) : world :=
  Sync.updateSheet "Raw Attendance Data" (appendRow cells) w.

(** A vendor that accepts every message. *)
Definition accepting : nat -> fetch_result :=
  fun _ => FetchResponse 201 (ContentObject (mkJson (VStr "SM01") VUndef VUndef VUndef)).

(** The two submissions as [readSheetAsObjects_] hands them to the loop, and
    the student record saved for both. *)
Definition ada_first_obj : obj := zip (map to_string response_header) ada_first.
Definition ada_second_obj : obj := zip (map to_string response_header) ada_second.
Definition ada_saved : obj := zip (map to_string database_header) ada_on_roster.

(** A roster with a row that has no phone number, and a request to stop
    that carries no sender number. *)
Definition roster_with_blank_phone : world :=
  mkWorld ∅
    (<["Student Database" :=
         [texts ["Student Name"; "Phone #"; "SMS Opt-In"];
          texts ["Grace Hopper"; ""; "Yes"]]]> ∅)
    "Mon Nov 02 2026 09:10:00" [].

Definition stop_without_sender : gmap string string := {["Body" := "stop"]}.

(** A roster with two rows for one phone number, and a request to stop from
    that number. *)
Definition roster_with_duplicates : world :=
  mkWorld ∅
    (<["Student Database" :=
         [texts ["Student Name"; "Phone #"; "SMS Opt-In"];
          texts ["Ada Lovelace"; "(816) 237-9012"; "Yes"];
          texts ["Grace Hopper"; "555-0100"; "Yes"];
          texts ["Ada L."; "18162379012"; "Yes"]]]> ∅)
    "Mon Nov 02 2026 09:10:00" [].

Definition stop_from_ada : gmap string string :=
  <["From" := "+18162379012"]> {["Body" := "Stop"]}.

(** A roster of three students for a bulk run; the vendor reports the
    second as unsubscribed. *)
Definition bulk_header : row :=
  texts ["Student Name"; "Phone #"; "SMS Opt-In"; "Last Sent At"; "Last Error Code";
         "Last Error"; "Send Status"].

Definition bulk_roster : sheet :=
  [bulk_header;
   texts ["Ada Lovelace"; "+18162379012"; "Yes"];
   texts ["Grace Hopper"; "+15550100"; "Yes"];
   texts ["Alan Turing"; "+15550101"; "Yes"]].

Definition bulk_columns : gmap string nat :=
  <["phone" := 1%nat]>
    (<["opt_in" := 2%nat]>
       (<["last_sent_at" := 3%nat]>
          (<["last_error_code" := 4%nat]>
             (<["last_error_message" := 5%nat]>
                (<["last_send_status" := 6%nat]> ∅))))).

Definition bulk_credentials : Bulk.credentials :=
  Bulk.mkCredentials "AC00" "secret" (Some "+15550199") None.

Definition unsubscribed : fetch_result :=
  FetchResponse 400
    (ContentObject
       (mkJson VUndef (VNum 21610)
          (VStr "Attempt to send to unsubscribed recipient") VUndef)).

Definition second_unsubscribed : nat -> fetch_result :=
  fun i => if (i =? 2)%nat then unsubscribed else accepting i.

Definition bulk_world (cursor : option string) : world :=
  mkWorld
    (match cursor with
     | Some c => <["BULK_SMS_CURSOR" := c]> twilio_props
     | None => twilio_props
     end)
    (<["Student Database" := bulk_roster]> ∅)
    "Mon Nov 02 2026 09:10:00" [].

End Sample.

Import Sample.

(* ===================================================================== *)
(** ** smsInbound.js: the characters of a reply                           *)
(* ===================================================================== *)

Module Xml.

(** The characters [escapeXml_] replaces. *)
Definition special (c : ascii) : bool :=
  bool_decide (c ∈ ["&"; "<"; ">"; dquote_char; "'"]%char).

(** Those of them that open or close a tag or a quoted attribute. *)
Definition delimiter (c : ascii) : bool :=
  bool_decide (c ∈ ["<"; ">"; dquote_char; "'"]%char).

(** A text of ASCII characters: on such a text [trim], [toUpperCase] and
    [toLowerCase] are those of JavaScript. *)
Definition ascii_text (s : string) : bool :=
  Send.all_chars (fun c => (code c <? 128)%nat) s.

End Xml.

(* ===================================================================== *)
(** ** The sheet [SMS Log], which sms.js and smsInbound.js both write      *)
(* ===================================================================== *)

Module Journal.

Definition rows (w : world) : sheet :=
  default [] (getSheetByName w Inbound.log_name).

(** The row [logInbound_] appends. *)
Definition inbound_row (w : world) (from body status sid : string) : row :=
  [new_Date w; VStr "IN"; VStr from; VStr body; VStr status; VStr sid].

End Journal.

(* ===================================================================== *)
(** ** smsBulkSend.js: the setup of a run and the requests of a batch     *)
(* ===================================================================== *)

Module Setup.

(** [BULK_SMS_CONFIG.COLUMN_MAPPINGS]: script name, column name of the sheet *)
Definition COLUMN_MAPPINGS : list (string * string) :=
  [("phone", "Phone #");
   ("opt_in", "SMS Opt-In");
   ("message", "Message");
   ("last_sent_at", "Last Sent At");
   ("last_error_code", "Last Error Code");
   ("last_error_message", "Last Error");
   ("last_send_status", "Send Status")].

(** [v.toString()]; [None] is the TypeError for [null] and [undefined]. *)
Definition toString (v : value) : option string :=
  match v with
  | VUndef | VNull => None
  | _ => Some (to_string v)
  end.

(** [sheet.getLastColumn()] *)
Definition getLastColumn (sh : sheet) : nat := width sh.

(** [sheet.getRange(1, 1, 1, sheet.getLastColumn()).getValues()[0]]; [None]
    is the exception for a range without columns. *)
Definition headerRow (sh : sheet) : option row :=
  if (getLastColumn sh =? 0)%nat then None
  else Some (default [] (getValues sh !! 0%nat)).

(** The [forEach] that fills [actualColumns], from column [index] on. *)
Fixpoint actualColumns_from (headers : row) (index : nat) (actualColumns : gmap string nat)
  : option (gmap string nat) :=
  match headers with
  | [] => Some actualColumns
  | header :: rest =>
      match toString header with
      | None => None
      | Some text =>
          let normalized := toLowerCase (trim text) in
          actualColumns_from rest (S index)
            (if is_empty_string normalized then actualColumns
             else <[normalized := index]> actualColumns)
      end
  end.

(** The [forEach] over the script names. *)
Definition map_column (actualColumns : gmap string nat) (columnMap : gmap string nat)
    (entry : string * string) : gmap string nat :=
  let '(scriptName, actualName) := entry in
  match actualColumns !! toLowerCase actualName with
  | Some index => <[scriptName := index]> columnMap
  | None => columnMap
  end.

(** [getColumnMapping(sheet)] *)
Definition getColumnMapping (sh : sheet) : option (gmap string nat) :=
  match headerRow sh with
  | None => None
  | Some headers =>
      match actualColumns_from headers 0 ∅ with
      | None => None
      | Some actualColumns => Some (foldl (map_column actualColumns) ∅ COLUMN_MAPPINGS)
      end
  end.

(** The text a header cell is compared by, and the columns it names. *)
Definition normalized (h : value) : string := toLowerCase (trim (to_string h)).

Definition names (headers : row) (k : nat) (name : string) : Prop :=
  normalized <$> headers !! k = Some name.

(** The object [getTwilioCredentials] returns. *)
Inductive checked : Type :=
| Invalid (error : string)
| Valid (cred : Bulk.credentials).

(** [getTwilioCredentials()] *)
Definition getTwilioCredentials (w : world) : checked :=
  let accountSid := getProperty w "TWILIO_ACCOUNT_SID" in
  let authToken := getProperty w "TWILIO_AUTH_TOKEN" in
  let from := getProperty w "TWILIO_FROM_NUMBER" in
  let messagingServiceSid := getProperty w "TWILIO_MESSAGING_SERVICE_SID" in
  if negb (truthy_prop accountSid) || negb (truthy_prop authToken)
  then Invalid "TWILIO_ACCOUNT_SID and TWILIO_AUTH_TOKEN are required in Script Properties"
  else if negb (truthy_prop from) && negb (truthy_prop messagingServiceSid)
  then Invalid "Either TWILIO_FROM_NUMBER or TWILIO_MESSAGING_SERVICE_SID must be set in Script Properties"
  else Valid (Bulk.mkCredentials (default "" accountSid) (default "" authToken)
                from messagingServiceSid).

(** The requests a list of loop events stands for: one for every row the
    loop sent to. *)
Definition requests (es : list Bulk.event) : list (string * string) :=
  omap (fun e =>
          match e with
          | Bulk.Sending _ to body => Some (to_string to, to_string body)
          | _ => None
          end) es.

(** Whether [sendTwilioSMS] has a sender to put in the payload. *)
Definition has_sender (cred : Bulk.credentials) : bool :=
  truthy_prop (Bulk.messagingServiceSid cred) || truthy_prop (Bulk.from cred).

(** The counters of a run add up, and they count the requests. *)
Definition balanced (r : Bulk.run) : Prop :=
  Bulk.processed (Bulk.st r)
  = (Bulk.sent (Bulk.st r) + Bulk.skipped (Bulk.st r) + Bulk.failed (Bulk.st r)
     + Bulk.optedOut (Bulk.st r))%nat
  /\ length (requests (Bulk.events r))
     = (Bulk.sent (Bulk.st r) + Bulk.failed (Bulk.st r) + Bulk.optedOut (Bulk.st r))%nat
  /\ (Bulk.processed (Bulk.st r) <= Bulk.BATCH_SIZE)%nat.

(** A row whose phone and opt-in the loop body reads as JavaScript does:
    both are ASCII text, on which [trim] and [toUpperCase] are JavaScript's,
    or the opt-in is the check mark. *)
Definition plain_row (columnMap : gmap string nat) (cells : row) : bool :=
  let optIn := to_string (Bulk.getColumnValue cells columnMap "opt_in") in
  Xml.ascii_text (to_string (Bulk.getColumnValue cells columnMap "phone"))
  && (Xml.ascii_text optIn || bool_decide (trim optIn = "✓")).

(** What the loop body has read from a row it sends to. *)
Definition eligible (columnMap : gmap string nat) (cells : row) (to body : value) : Prop :=
  to = Bulk.getColumnValue cells columnMap "phone"
  /\ body = or_else (Bulk.getColumnValue cells columnMap "message")
              (VStr Bulk.DEFAULT_MESSAGE)
  /\ truthy to = true
  /\ trim (to_string to) <> ""
  /\ Bulk.isOptedIn (Bulk.getColumnValue cells columnMap "opt_in") = true.

(** [CONFIG.SHEET_NAME], which [validateColumns] reads: the configuration
    of this file is [BULK_SMS_CONFIG], and the [CONFIG] of the sources, that
    of the synchronisation script, has no field of this name. *)
Definition CONFIG_SHEET_NAME : value := VUndef.

(** [getSheetByName(name)] for a name that need not be text: [null] for a
    name that is none. *)
Definition sheetNamed (w : world) (name : value) : option (string * sheet) :=
  match name with
  | VStr n => (fun sh => (n, sh)) <$> getSheetByName w n
  | _ => None
  end.

(** [BULK_SMS_CONFIG.COLUMN_MAPPINGS[colName]] *)
Definition actualName (colName : string) : string :=
  default "" ((list_to_map COLUMN_MAPPINGS : gmap string string) !! colName).

Definition requiredBase : list string := ["phone"; "opt_in"].

Definition trackingCols : list string :=
  ["last_sent_at"; "last_error_code"; "last_error_message"; "last_send_status"].

(** The [forEach] over the tracking columns: one that is not mapped is added
    after the last column of the sheet and mapped. *)
Definition add_tracking (acc : gmap string nat * sheet) (colName : string)
  : gmap string nat * sheet :=
  let '(columnMap, sh) := acc in
  match columnMap !! colName with
  | Some _ => acc
  | None =>
      let newColIndex := S (getLastColumn sh) in
      (<[colName := (newColIndex - 1)%nat]> columnMap,
       setValue 0 (newColIndex - 1) (VStr (actualName colName)) sh)
  end.

(** [validateColumns(columnMap)]: the column map with the tracking columns
    and the world with the sheet they were added to.  [None] is an exception:
    the error for a missing required column, or the TypeError of
    [sheet.getLastColumn()] for a sheet that is [null]. *)
Definition validateColumns (columnMap : gmap string nat) (w : world)
  : option (gmap string nat * world) :=
  let sheet := sheetNamed w CONFIG_SHEET_NAME in
  let missing :=
    List.filter (fun colName => negb (bool_decide (is_Some (columnMap !! colName))))
      requiredBase in
  if (0 <? length missing)%nat then None
  else
    match sheet with
    | None => None
    | Some (name, sh) =>
        let '(columnMap, sh) := foldl add_tracking (columnMap, sh) trackingCols in
        Some (columnMap, putSheet name sh w)
    end.

(** How a run of the entry point ends: it returns, with the counters of the
    batch, or it raises an exception. *)
Inductive ended : Type :=
| Returned (r : Bulk.run)
| Raised (w : world).

(** [sendBulkSMS()]; [vendor i] is the vendor's answer to the request made
    for row [i].  The [catch] logs the error and raises it again. *)
Definition sendBulkSMS (vendor : nat -> fetch_result) (w : world) : ended :=
  match getTwilioCredentials w with
  | Invalid _ => Raised w
  | Valid cred =>
      match getSheetByName w Bulk.SHEET_NAME with
      | None => Raised w
      | Some sheet =>
          match getColumnMapping sheet with
          | None => Raised w
          | Some columnMap =>
              match validateColumns columnMap w with
              | None => Raised w
              | Some (columnMap, w) =>
                  let sheet := Bulk.database w in
                  let idle := Bulk.mkRun (Bulk.mkStats 0 0 0 0 0 false 0) w [] in
                  let allData := if (length sheet =? 0)%nat then [[blank]] else sheet in
                  match Bulk.getCursor w with
                  | None =>
                      (* NaN: every comparison with it is false, no row is visited *)
                      if (length allData <=? 1)%nat then Returned idle
                      else Returned
                             (Bulk.mkRun
                                (Bulk.set_cursor false (length allData) (Bulk.st idle))
                                (Bulk.resetCursor w) [])
                  | Some cursor =>
                      if (length allData <=? 1)%nat then Returned idle
                      else if cursor <? 0 then Raised w  (* allData[cursor] is undefined *)
                      else
                        let r := Bulk.processBatch vendor allData columnMap cred
                                   (Z.to_nat cursor) w in
                        if Bulk.hasMore (Bulk.st r) then Returned r
                        else Returned (Bulk.mkRun (Bulk.st r) (Bulk.resetCursor (Bulk.wd r))
                                         (Bulk.events r))
                  end
              end
          end
      end
  end.

End Setup.

(* ===================================================================== *)
(** ** smsSend.js: the senders to the roster and the audience             *)
(* ===================================================================== *)

Module Campaign.

Definition db_name : string := "Student Database".
Definition attendance_name : string := "Attendance".

(** [row[col]] for a column that may be [undefined] or [-1]: both read
    [undefined]. *)
Definition cellAt (cells : row) (col : option nat) : value :=
  match col with
  | Some c => default VUndef (cells !! c)
  | None => VUndef
  end.

(** [Object.fromEntries(vals[0].map((h, i) => [String(h), i]))]: a header
    text leads to the last column it heads. *)
Definition hdr (headers : row) : gmap string nat :=
  foldl (fun m ih => <[to_string (snd ih) := fst ih]> m) ∅
    (imap (fun i h => (i, h)) headers).

(** [String(row[col] || '').toLowerCase()] *)
Definition optOf (cells : row) (col : option nat) : string :=
  toLowerCase (to_string (or_else (cellAt cells col) (VStr ""))).

(** [String(row[col] || '').trim().toLowerCase()] *)
Definition campusOf (cells : row) (col : option nat) : string :=
  toLowerCase (trim (to_string (or_else (cellAt cells col) (VStr "")))).

(** The [for] loop of [sendBulkToOptedIn_], from row [r] of [vals] on.
    [authorized r] says whether [requireAdmin_] and [requirePass_] pass when
    [sendOneWithControls_] is called for row [r]: the session of the pass
    code may run out during a run.  [Threw] is that exception, with the
    world as the rows before have left it. *)
Fixpoint sendLoop (authorized : nat -> bool) (vendor : nat -> fetch_result)
    (cOpt cPhone : option nat) (message : string) (rows : list row) (r : nat)
    (w : world) : Sync.outcome :=
  match rows with
  | [] => Sync.Done w
  | cells :: rest =>
      let opt := optOf cells cOpt in
      let phone := cellAt cells cPhone in
      if bool_decide (opt = "yes") && truthy phone
      then
        match Send.sendOneWithControls_ (authorized r) (vendor r) (Sms.toE164_ phone)
                (message +:+ Send.smsFooter_) w with
        | None => Sync.Threw w
        | Some w' => sendLoop authorized vendor cOpt cPhone message rest (S r) w'
        end
      else sendLoop authorized vendor cOpt cPhone message rest (S r) w
  end.

(** [sendBulkToOptedIn_(message)]; [authorized 0] is the check at its
    entry. *)
Definition sendBulkToOptedIn_ (authorized : nat -> bool) (vendor : nat -> fetch_result)
    (message : string) (w : world) : Sync.outcome :=
  if negb (authorized 0%nat) then Sync.Threw w
  else
    match getSheetByName w db_name with
    | None => Sync.Threw w
    | Some db =>
        let vals := getValues db in
        let hdr := hdr (default [] (vals !! 0%nat)) in
        sendLoop authorized vendor (hdr !! "SMS Opt-In") (hdr !! "Phone #") message
          (drop 1 vals) 1 w
    end.

(** Whether [sendOneWithControls_] reaches the vendor in this world. *)
Definition live (w : world) : bool :=
  negb (Send.isDryRun_ w) && negb (Sms.missing_credentials w)
  && negb (Sms.missing_sender w).

(** An entry of [people]. *)
Record person : Type := mkPerson {
  campusEmail : string;
  phone : string;
  firstName : string
}.

(** [byCampus]: the last row of the roster for every campus email. *)
Definition byCampus (dCampus : option nat) (rows : list row) : gmap string row :=
  foldl (fun m cells =>
           let ce := campusOf cells dCampus in
           if is_empty_string ce then m else <[ce := cells]> m)
    ∅ rows.

(** [emails.add(ce)]: a [Set] keeps the order of the first insertions. *)
Definition add (ce : string) (emails : list string) : list string :=
  if bool_decide (ce ∈ emails) then emails else emails ++ [ce].

(** The loop over the attendance rows. *)
Definition attendees (aId aCE : option nat) (eventId : value) (rows : list row)
  : list string :=
  foldl (fun emails cells =>
           if negb (bool_decide (trim (to_string (cellAt cells aId))
                                 = trim (to_string eventId)))
           then emails
           else
             let ce := campusOf cells aCE in
             if is_empty_string ce then emails else add ce emails)
    [] rows.

(** The loop over the roster for the audience of all who opted in. *)
Definition allOptedIn (dOpt dCampus : option nat) (rows : list row) : list string :=
  foldl (fun emails cells =>
           let opt := optOf cells dOpt in
           let ce := campusOf cells dCampus in
           if bool_decide (opt = "yes") && negb (is_empty_string ce)
           then add ce emails else emails)
    [] rows.

(** [name.split(/\s+/)[0]] of a trimmed name that is not empty *)
Definition firstWord (name : string) : string :=
  Send.take_while (fun c => negb (is_space c)) name.

(** The last loop: the people of the emails. *)
Definition personOf (by_campus : gmap string row) (dOpt dPhone dName : option nat)
    (ce : string) : option person :=
  match by_campus !! ce with
  | None => None
  | Some cells =>
      let opt := optOf cells dOpt in
      let phone := cellAt cells dPhone in
      if bool_decide (opt = "yes") && truthy phone
      then
        let name := trim (to_string (or_else (cellAt cells dName) (VStr ""))) in
        let firstName := if is_empty_string name then "" else firstWord name in
        Some (mkPerson ce (to_string phone) firstName)
      else None
  end.

(** [resolveAudience_(eventId, audienceKey)], its [people]. *)
Definition resolveAudience_ (eventId : value) (audienceKey : string) (w : world)
  : list person :=
  match getSheetByName w db_name with
  | None => []
  | Some db =>
      let dVals := getValues db in
      let dh := map to_string (default [] (dVals !! 0%nat)) in
      let dCampus := Sync.indexOf "Campus Email" dh in
      let dPhone := Sync.indexOf "Phone #" dh in
      let dOpt := Sync.indexOf "SMS Opt-In" dh in
      let dName := Sync.indexOf "Student Name" dh in
      let by_campus := byCampus dCampus (drop 1 dVals) in
      let people emails := omap (personOf by_campus dOpt dPhone dName) emails in
      if bool_decide (audienceKey = "attendees")
      then
        match getSheetByName w attendance_name with
        | None => []
        | Some att =>
            let aVals := getValues att in
            let ah := map to_string (default [] (aVals !! 0%nat)) in
            let aId := Sync.indexOf "Event ID" ah in
            let aCE := Sync.indexOf "Campus Email" ah in
            people (attendees aId aCE eventId (drop 1 aVals))
        end
      else if bool_decide (audienceKey = "alloptedin")
      then people (allOptedIn dOpt dCampus (drop 1 dVals))
      else people []
  end.

(** [uiGetAudienceInfo(eventId, audienceKey)] for an authorised caller, its
    [count]. *)
Definition uiGetAudienceInfo (eventId : value) (audienceKey : string) (w : world) : nat :=
  length (resolveAudience_ eventId audienceKey w).

(** The loop of [sendToEventAttendees_] over the attendance rows, from row
    [r] on; [seen] holds the emails the loop has come to before. *)
Fixpoint attendeeLoop (authorized : nat -> bool) (vendor : nat -> fetch_result)
    (aColEvent aColCampus : nat) (by_campus : gmap string row)
    (dColOpt dColPhone : option nat) (eventId body : string) (rows : list row)
    (r : nat) (seen : list string) (w : world) : Sync.outcome :=
  match rows with
  | [] => Sync.Done w
  | cells :: rest =>
      let next := attendeeLoop authorized vendor aColEvent aColCampus by_campus
                    dColOpt dColPhone eventId body rest (S r) in
      if negb (bool_decide (trim (to_string (cellAt cells (Some aColEvent))) = eventId))
      then next seen w
      else
        let ce := campusOf cells (Some aColCampus) in
        if is_empty_string ce || bool_decide (ce ∈ seen) then next seen w
        else
          let seen := seen ++ [ce] in
          match by_campus !! ce with
          | None => next seen w
          | Some row =>
              let opt := optOf row dColOpt in
              let phone := cellAt row dColPhone in
              if bool_decide (opt = "yes") && truthy phone
              then
                match Send.sendOneWithControls_ (authorized r) (vendor r)
                        (Sms.toE164_ phone) body w with
                | None => Sync.Threw w
                | Some w' => next seen w'
                end
              else next seen w
          end
  end.

(** [sendToEventAttendees_(eventId, body)] *)
Definition sendToEventAttendees_ (authorized : nat -> bool)
    (vendor : nat -> fetch_result) (eventId body : string) (w : world) : Sync.outcome :=
  match getSheetByName w attendance_name, getSheetByName w db_name with
  | Some att, Some db =>
      let aVals := getValues att in
      let aHdrs := map to_string (default [] (aVals !! 0%nat)) in
      match Sync.indexOf "Event ID" aHdrs, Sync.indexOf "Campus Email" aHdrs with
      | Some aColEvent, Some aColCampus =>
          let dVals := getValues db in
          let dHdrs := map to_string (default [] (dVals !! 0%nat)) in
          let dColCampus := Sync.indexOf "Campus Email" dHdrs in
          let dColPhone := Sync.indexOf "Phone #" dHdrs in
          let dColOpt := Sync.indexOf "SMS Opt-In" dHdrs in
          attendeeLoop authorized vendor aColEvent aColCampus
            (byCampus dColCampus (drop 1 dVals)) dColOpt dColPhone eventId body
            (drop 1 aVals) 1 [] w
      | _, _ => Sync.Threw w
      end
  | _, _ => Sync.Threw w
  end.

End Campaign.

(* ===================================================================== *)
(** ** The index of the roster (the synchronisation script)               *)
(* ===================================================================== *)

Module Roster.

(** The key under which the callback of [buildIndex_] files a record:
    [makeIndexKey_(keyName, keyVal)] when [keyName && keyVal], and none
    otherwise. *)
Definition index_key (o : obj) : option string :=
  let keyName := Sync.inferMatchKey_ o Sync.matchKeys in
  let keyVal :=
    Sync.firstNonEmpty_ [get o "Campus Email"; get o "Email";
                         Sync.normalizeFieldValue_ "Phone #" (get o "Phone #")] in
  match keyName with
  | Some k => if truthy keyVal then Some (Sync.makeIndexKey_ k keyVal) else None
  | None => None
  end.

(** Every response sheet that exists has the flag column and only rows
    flagged as processed. *)
Definition all_flagged (names : list string) (w : world) : Prop :=
  forall name sh,
    name ∈ names -> getSheetByName w name = Some sh ->
    Sync.processedFlagColumn ∈ Sync.headers (Sync.readSheetAsObjects_ sh)
    /\ Forall (fun row => Sync.is_processed row = true)
         (Sync.rows (Sync.readSheetAsObjects_ sh)).

End Roster.

(* ===================================================================== *)
(** ** The attendance facts (the synchronisation script)                  *)
(* ===================================================================== *)

Module Attendance.

(** The campus email a saved student is known by on the attendance sheet:
    the text of the field, in lower case and trimmed; none for a field that
    is empty or absent. *)
Definition email_of (student : obj) : string :=
  match get student "Campus Email" with
  | VStr s => trim (toLowerCase s)
  | _ => ""
  end.

(** The pair of a processed submission, given by its response row and the
    student record saved for it: the event id of the row and the campus
    email of the student. *)
Definition pair_of (sub : obj * obj) : string * string :=
  (Sync.getValueByHeader_ sub.1 Sync.eventIdHeaders, email_of sub.2).

(** A pair with an event id and a campus email. *)
Definition proper (p : string * string) : bool :=
  negb (is_empty_string p.1) && negb (is_empty_string p.2).

(** The fact a row of the attendance sheet states: the event id as written,
    and the campus email without regard to letter case. *)
Definition fact_of (a b : nat) (cells : row) : string * string :=
  (trim (to_string (or_else (default VUndef (cells !! a)) (VStr ""))),
   toLowerCase (trim (to_string (or_else (default VUndef (cells !! b)) (VStr ""))))).

(** The facts of an attendance sheet, one for every row below the header. *)
Definition facts (sh : sheet) : list (string * string) :=
  match Sync.attendance_columns sh with
  | Some (a, b) => map (fact_of a b) (drop 1 (getValues sh))
  | None => []
  end.

(** How often a pair is among the facts. *)
Definition times (p : string * string) (fs : list (string * string)) : nat :=
  length (List.filter (fun q => bool_decide (q = p)) fs).

(** The invariant as the specification words it: of the pairs submitted, in
    their order, every pair with an event id and a campus email becomes a
    fact once, unless it is a fact already. *)
Fixpoint once_each (known ps : list (string * string)) : list (string * string) :=
  match ps with
  | [] => []
  | p :: rest =>
      if proper p && negb (bool_decide (p ∈ known))
      then p :: once_each (known ++ [p]) rest
      else once_each known rest
  end.

(** The rows that state a list of facts. *)
Definition rows_of (a b : nat) (fs : list (string * string)) : list row :=
  map (fun p => Sync.attendance_row a b p.1 p.2) fs.

(** Data in ASCII text, on which [trim] and [toLowerCase] are JavaScript's:
    the cells of a sheet, and the keys and values of an object. *)
Definition ascii_value (v : value) : bool := Xml.ascii_text (to_string v).

Definition ascii_sheet (sh : sheet) : bool := forallb (forallb ascii_value) sh.

Definition ascii_obj (o : obj) : bool :=
  forallb (fun kv => Xml.ascii_text kv.1 && ascii_value kv.2) o.

End Attendance.

(* ===================================================================== *)
(** ** smsSend.js: the cleanup as the specification words it              *)
(* ===================================================================== *)

Module Layout.

(** The pieces of a line between its horizontal white space characters: the
    first piece, and the pieces after it. *)
Fixpoint split_words (s : string) : string * list string :=
  match s with
  | EmptyString => (EmptyString, [])
  | String c r =>
      let '(w, ws) := split_words r in
      if Send.is_hspace c then (EmptyString, w :: ws) else (String c w, ws)
  end.

Definition nonempty (s : string) : bool := negb (is_empty_string s).

(** The words of a line: what stands between its runs of horizontal white
    space. *)
Definition words (s : string) : list string :=
  List.filter nonempty (fst (split_words s) :: snd (split_words s)).

(** A word after another: one space before it, and none when it begins with
    a punctuation mark. *)
Definition spaced (w : string) : string :=
  if Send.starts_with Send.is_punct w then w else String " " w.

Fixpoint concat_all (ws : list string) : string :=
  match ws with
  | [] => EmptyString
  | w :: rest => w +:+ concat_all rest
  end.

(** A line as the cleanup leaves it, in the words of the specification: its
    words, a single space between them, no space before punctuation and none
    at the two ends. *)
Definition squeeze (line : string) : string :=
  match words line with
  | [] => EmptyString
  | w :: rest => w +:+ concat_all (map spaced rest)
  end.

(** The lines of a message without the empty lines at its two ends. *)
Fixpoint drop_empty_start (ls : list string) : list string :=
  match ls with
  | [] => []
  | l :: rest => if is_empty_string l then drop_empty_start rest else ls
  end.

Fixpoint drop_empty_end (ls : list string) : list string :=
  match ls with
  | [] => []
  | l :: rest =>
      match drop_empty_end rest with
      | [] => if is_empty_string l then [] else [l]
      | rest' => l :: rest'
      end
  end.

(** The cleanup in the words of the specification: every line squeezed, the
    line breaks between the lines kept, the empty lines at the two ends of
    the message gone. *)
Definition cleanup (s : string) : string :=
  Send.join_lines (drop_empty_end (drop_empty_start (map squeeze (Send.lines s)))).

(** A line that neither begins nor ends with white space. *)
Definition tight (l : string) : Prop :=
  Send.starts_with is_space l = false /\ drop_space_end l = l.

(** A word without white space, and a line without a line break. *)
Definition ink (w : string) : bool := Send.all_chars (fun c => negb (is_space c)) w.

Definition one_line (l : string) : bool := Send.all_chars (fun c => negb (Send.is_LF c)) l.

End Layout.

(* ===================================================================== *)
(** ** Further sample worlds and inputs                                   *)
(* ===================================================================== *)

Module Cases.

(** A request to start again from the number of the two duplicate rows. *)
Definition start_from_ada : gmap string string :=
  <["From" := "+18162379012"]> {["Body" := " start"]}.

(** The roster after that number has asked to stop. *)
Definition roster_after_stop : world :=
  mkWorld ∅
    (<["Student Database" :=
         [texts ["Student Name"; "Phone #"; "SMS Opt-In"];
          texts ["Ada Lovelace"; "(816) 237-9012"; "No"];
          texts ["Grace Hopper"; "555-0100"; "Yes"];
          texts ["Ada L."; "18162379012"; "No"]]]> ∅)
    "Mon Nov 02 2026 09:20:00" [].

(** A delivery report for a message to that number. *)
Definition delivery_report : gmap string string :=
  <["From" := "+18162379012"]>
    (<["Body" := "STOP"]> (<["MessageStatus" := "delivered"]> {["MessageSid" := "SM01"]})).

(** The roster of the duplicates in a project that is set to dry runs. *)
Definition dry_run_roster : world :=
  mkWorld (<["SMS_DRY_RUN" := "TRUE"]> twilio_props) (book roster_with_duplicates)
    "Mon Nov 02 2026 09:30:00" [].

(** A project whose one submission has been processed. *)
Definition processed_submission : world :=
  mkWorld twilio_props
    (book_of [database_header; ada_on_roster]
       [response_header ++ texts ["Processed"]; ada_first ++ texts ["YES"]]
       [attendance_header; texts ["EVT-1"; "ada@gsu.edu"]])
    "Mon Nov 02 2026 09:40:00" [].

(** Two submissions of the attendance form by a student who gives a phone
    number and no campus email, for the same event. *)
Definition grace_by_phone (stamp : string) : row :=
  texts [stamp; "Grace Hopper"; ""; "(404) 555-0100"; ""; "EVT-1"].

Definition two_submissions_by_phone : world :=
  mkWorld twilio_props
    (book_of [database_header]
       [response_header; grace_by_phone "11/2/2026 9:00:00";
        grace_by_phone "11/2/2026 9:05:00"]
       [attendance_header])
    "Mon Nov 02 2026 09:10:00" [].

(** A request that is no keyword. *)
Definition greeting : gmap string string :=
  <["From" := "+18162379012"]> {["Body" := "Hello there"]}.

End Cases.

Import Cases.

(* ===================================================================== *)
(** * Properties                                                          *)
(* ===================================================================== *)

(** ** Tactics *)

Ltac leb_props :=
  repeat match goal with
         | H : (_ <=? _)%nat = true |- _ => apply Nat.leb_le in H
         | H : (_ <=? _)%nat = false |- _ => apply Nat.leb_gt in H
         end.

(** ** Strings *)

Lemma prefix_one (d : string) :
  startsWith "1" d = true -> exists r, d = String "1" r.
Proof.
  destruct d as [|c r]; [done|].
  unfold startsWith. destruct (Ascii.eqb_spec "1" c) as [<-|]; [eauto|done].
Qed.

Lemma is_empty_string_false (s : string) : s <> "" -> is_empty_string s = false.
Proof. destruct s; [contradiction|reflexivity]. Qed.

Lemma drop_space_clean (s : string) : starts_clean (drop_space s).
Proof.
  induction s as [|c r IH]; simpl; [exact I|].
  destruct (is_space c) eqn:Hc; [exact IH|exact Hc].
Qed.

Lemma drop_space_of_clean (s : string) : starts_clean s -> drop_space s = s.
Proof. destruct s as [|c r]; simpl; [reflexivity|]. intros ->. reflexivity. Qed.

Lemma drop_space_end_clean (s : string) :
  starts_clean s -> starts_clean (drop_space_end s).
Proof.
  destruct s as [|c r]; simpl; [trivial|]. intros Hc. rewrite Hc. simpl. exact Hc.
Qed.

Lemma drop_space_end_idem (s : string) :
  drop_space_end (drop_space_end s) = drop_space_end s.
Proof.
  induction s as [|c r IH]; simpl; [reflexivity|].
  destruct (is_space c && is_empty_string (drop_space_end r)) eqn:Hb; simpl;
    [reflexivity|].
  rewrite IH, Hb. reflexivity.
Qed.

Lemma trim_idem (s : string) : trim (trim s) = trim s.
Proof.
  unfold trim.
  rewrite (drop_space_of_clean (drop_space_end (drop_space s))).
  - apply drop_space_end_idem.
  - apply drop_space_end_clean, drop_space_clean.
Qed.

Lemma is_space_lower_char (c : ascii) : is_space (lower_char c) = is_space c.
Proof. destruct c as [[] [] [] [] [] [] [] []]; reflexivity. Qed.

Lemma lower_char_idem (c : ascii) : lower_char (lower_char c) = lower_char c.
Proof. destruct c as [[] [] [] [] [] [] [] []]; reflexivity. Qed.

Lemma toLowerCase_idem (s : string) : toLowerCase (toLowerCase s) = toLowerCase s.
Proof.
  unfold toLowerCase. induction s as [|c r IH]; simpl; [reflexivity|].
  rewrite lower_char_idem, IH. reflexivity.
Qed.

Lemma is_empty_smap (f : ascii -> ascii) (s : string) :
  is_empty_string (smap f s) = is_empty_string s.
Proof. destruct s; reflexivity. Qed.

Lemma drop_space_toLowerCase (s : string) :
  drop_space (toLowerCase s) = toLowerCase (drop_space s).
Proof.
  unfold toLowerCase. induction s as [|c r IH]; simpl; [reflexivity|].
  rewrite is_space_lower_char. destruct (is_space c); [exact IH|reflexivity].
Qed.

Lemma drop_space_end_toLowerCase (s : string) :
  drop_space_end (toLowerCase s) = toLowerCase (drop_space_end s).
Proof.
  unfold toLowerCase. induction s as [|c r IH]; simpl; [reflexivity|].
  rewrite is_space_lower_char, IH, is_empty_smap.
  destruct (is_space c && is_empty_string (drop_space_end r)); reflexivity.
Qed.

Lemma trim_toLowerCase (s : string) : trim (toLowerCase s) = toLowerCase (trim s).
Proof.
  unfold trim. rewrite drop_space_toLowerCase. apply drop_space_end_toLowerCase.
Qed.

(** A letter that lower-cases to a small letter is that letter, small or
    capital, and no white space. *)
Lemma lower_char_small (c : ascii) :
  is_lower (lower_char c) = true ->
  upper_char c = upper_char (lower_char c) /\ is_space c = false.
Proof.
  destruct c as [[] [] [] [] [] [] [] []]; vm_compute; intros H;
    try discriminate H; split; reflexivity.
Qed.

(** ** Objects *)

Lemma get_set_eq (k : string) (v : value) (o : obj) : get (set k v o) k = v.
Proof.
  induction o as [|[k' v'] o IH]; simpl.
  - rewrite bool_decide_true; reflexivity.
  - destruct (decide (k' = k)) as [->|Hne].
    + rewrite bool_decide_true by reflexivity. simpl.
      rewrite bool_decide_true; reflexivity.
    + rewrite bool_decide_false by assumption. simpl.
      rewrite bool_decide_false by assumption. exact IH.
Qed.

Lemma get_set_ne (k k' : string) (v : value) (o : obj) :
  k' <> k -> get (set k' v o) k = get o k.
Proof.
  intros Hne. induction o as [|[k0 v0] o IH]; simpl.
  - rewrite bool_decide_false by assumption. reflexivity.
  - destruct (decide (k0 = k')) as [->|Hne0].
    + rewrite bool_decide_true by reflexivity. simpl.
      rewrite !bool_decide_false by assumption. reflexivity.
    + rewrite bool_decide_false by assumption. simpl.
      destruct (bool_decide (k0 = k)); [reflexivity|exact IH].
Qed.

Lemma get_set (k k' : string) (v : value) (o : obj) :
  get (set k' v o) k = if bool_decide (k' = k) then v else get o k.
Proof.
  case_bool_decide as H.
  - subst. apply get_set_eq.
  - apply get_set_ne. exact H.
Qed.

Lemma get_outside_keys (o : obj) (k : string) : k ∉ keys o -> get o k = VUndef.
Proof.
  induction o as [|[k' v'] o IH]; simpl; intros Hk; [reflexivity|].
  apply not_elem_of_cons in Hk as [Hne Hk].
  rewrite bool_decide_false by congruence. apply IH, Hk.
Qed.

(** ** Lists *)

Lemma length_pad {A} (n : nat) (d : A) (l : list A) :
  length (pad n d l) = Nat.max n (length l).
Proof. unfold pad. rewrite length_app, length_replicate. lia. Qed.

Lemma pad_full {A} (n : nat) (d : A) (l : list A) :
  (n <= length l)%nat -> pad n d l = l.
Proof.
  intros Hn. unfold pad. replace (n - length l)%nat with 0%nat by lia.
  apply app_nil_r.
Qed.

Lemma filter_map_same {A} (P : A -> bool) (f : A -> A) (l : list A) :
  (forall x, P (f x) = P x) ->
  length (List.filter P (map f l)) = length (List.filter P l).
Proof.
  intros HP. induction l as [|x l IH]; simpl; [reflexivity|].
  rewrite HP. destruct (P x); simpl; rewrite IH; reflexivity.
Qed.

Lemma existsb_map_same {A} (P : A -> bool) (f : A -> A) (l : list A) :
  (forall x, P (f x) = P x) -> existsb P (map f l) = existsb P l.
Proof.
  intros HP. induction l as [|x l IH]; simpl; [reflexivity|].
  rewrite HP, IH. reflexivity.
Qed.

Lemma existsb_filter_length {A} (P : A -> bool) (l : list A) :
  existsb P l = negb (length (List.filter P l) =? 0)%nat.
Proof.
  induction l as [|x l IH]; simpl; [reflexivity|].
  destruct (P x); simpl; [reflexivity|exact IH].
Qed.

Lemma NoDup_five (a b c d e : nat) :
  NoDup [a; b; c; d; e] ->
  a <> b /\ a <> c /\ a <> d /\ a <> e /\ b <> c /\ b <> d /\ b <> e
  /\ c <> d /\ c <> e /\ d <> e.
Proof.
  rewrite !NoDup_cons, !not_elem_of_cons. intros H. repeat split; intros ->; tauto.
Qed.

(** ** Sheets and worlds *)

Lemma default_pad_blank (n c : nat) (cells : row) :
  default blank (pad n blank cells !! c) = default blank (cells !! c).
Proof.
  unfold pad. destruct (decide (c < length cells)%nat) as [Hlt|Hge].
  - rewrite lookup_app_l by exact Hlt. reflexivity.
  - rewrite lookup_app_r by lia. rewrite (lookup_ge_None_2 cells c) by lia.
    destruct (replicate (n - length cells) blank !! (c - length cells)%nat) eqn:Hr.
    + apply lookup_replicate in Hr as [-> _]. reflexivity.
    + reflexivity.
Qed.

Lemma cell_pad_rows (n r c : nat) (sh : sheet) : cell (pad n [] sh) r c = cell sh r c.
Proof.
  unfold cell, pad. destruct (decide (r < length sh)%nat) as [Hlt|Hge].
  - rewrite lookup_app_l by exact Hlt. reflexivity.
  - rewrite lookup_app_r by lia. rewrite (lookup_ge_None_2 sh r) by lia.
    destruct (replicate (n - length sh) [] !! (r - length sh)%nat) eqn:Hr.
    + apply lookup_replicate in Hr as [-> _]. reflexivity.
    + reflexivity.
Qed.

(** A write changes the cell it is made to and no other. *)
Lemma cell_setValue (r c r' c' : nat) (v : value) (sh : sheet) :
  cell (setValue r c v sh) r' c'
  = if bool_decide (r' = r) && bool_decide (c' = c) then v else cell sh r' c'.
Proof.
  unfold setValue.
  assert (Hr : (r < length (pad (S r) [] sh))%nat) by (rewrite length_pad; lia).
  destruct (decide (r' = r)) as [->|Hne].
  - rewrite bool_decide_true by reflexivity. simpl andb.
    unfold cell at 1. rewrite list_lookup_insert_eq by exact Hr.
    rewrite <- (cell_pad_rows (S r) r c' sh). unfold cell.
    destruct (pad (S r) [] sh !! r) as [cells|] eqn:Hcells;
      [|apply lookup_ge_None in Hcells; lia].
    simpl default. destruct (decide (c' = c)) as [->|Hc].
    + rewrite bool_decide_true by reflexivity.
      rewrite list_lookup_insert_eq by (rewrite length_pad; lia). reflexivity.
    + rewrite bool_decide_false by exact Hc.
      rewrite list_lookup_insert_ne by congruence. apply default_pad_blank.
  - rewrite bool_decide_false by exact Hne. simpl andb.
    unfold cell at 1. rewrite list_lookup_insert_ne by congruence.
    apply (cell_pad_rows (S r) r' c' sh).
Qed.

Lemma setValue_after_last (c : nat) (v : value) (sh : sheet) :
  setValue (length sh) c v sh = sh ++ [replicate c blank ++ [v]].
Proof.
  unfold setValue, pad.
  replace (S (length sh) - length sh)%nat with 1%nat by lia. simpl replicate.
  rewrite (lookup_app_r sh) by lia. rewrite Nat.sub_diag. simpl.
  replace (length sh) with (length sh + 0)%nat at 1 by lia.
  rewrite insert_app_r. simpl. f_equal. f_equal.
  induction c as [|c IH]; simpl; [reflexivity|]. f_equal. exact IH.
Qed.

Lemma setValue_last_row (c : nat) (v : value) (sh : sheet) (r : row) :
  setValue (length sh) c v (sh ++ [r]) = sh ++ [<[c := v]> (pad (S c) blank r)].
Proof.
  unfold setValue.
  rewrite (pad_full (S (length sh)) [] (sh ++ [r])) by (rewrite length_app; simpl; lia).
  rewrite (lookup_app_r sh) by lia. rewrite Nat.sub_diag. simpl.
  replace (length sh) with (length sh + 0)%nat at 1 by lia.
  rewrite insert_app_r. reflexivity.
Qed.

Lemma getValues_rows (sh : sheet) :
  sh <> [] -> getValues sh = map (pad (width sh) blank) sh.
Proof. destruct sh; [contradiction|reflexivity]. Qed.

Lemma width_app (sh : sheet) (r : row) :
  width (sh ++ [r]) = Nat.max (width sh) (length r).
Proof.
  unfold width. induction sh as [|x sh IH]; simpl; [lia|]. rewrite IH. lia.
Qed.

Lemma width_bound (sh : sheet) (r : row) : r ∈ sh -> (length r <= width sh)%nat.
Proof.
  unfold width. induction sh as [|x sh IH]; intros Hr.
  - apply elem_of_nil in Hr. contradiction.
  - apply elem_of_cons in Hr as [->|Hr]; simpl; [lia|]. specialize (IH Hr). lia.
Qed.

Lemma getSheet_putSheet (name : string) (sh : sheet) (w : world) :
  getSheetByName (putSheet name sh w) name = Some sh.
Proof. unfold getSheetByName, putSheet. simpl. apply lookup_insert_eq. Qed.

(** ** sms.js: the dialing form *)

Example toE164_ten : Sms.toE164_ (VStr "(816) 237-9012") = "+18162379012".
Proof. reflexivity. Qed.

Example toE164_eleven : Sms.toE164_ (VNum 18162379012) = "+18162379012".
Proof. reflexivity. Qed.

Example toE164_short : Sms.toE164_ (VStr "555-0100") = "+15550100".
Proof. reflexivity. Qed.

(** C10.  Whatever [toE164_] is given, a string or a number, with digits or
    without, its result begins with [+1]; an input without digits gives
    exactly [+1]; and a digit string that is not 10 long and does not begin
    with [1] comes back with a [1] put in front of it. *)
Theorem toE164_begins_plus_one (v : value) :
  let d := digits_only (to_string (or_else v (VStr ""))) in
  startsWith "+1" (Sms.toE164_ v) = true
  /\ (d = "" -> Sms.toE164_ v = "+1")
  /\ (String.length d <> 10%nat -> startsWith "1" d = false ->
      Sms.toE164_ v = "+1" +:+ d).
Proof.
  intros d. unfold Sms.toE164_. fold d. clearbody d.
  destruct (String.length d =? 10)%nat eqn:Hlen.
  - apply Nat.eqb_eq in Hlen. split; [reflexivity|split].
    + intros ->. discriminate.
    + intros Hne. contradiction.
  - destruct (startsWith "1" d) eqn:Hone; simpl.
    + destruct (prefix_one d Hone) as [r ->].
      split; [reflexivity|split; discriminate].
    + split; [reflexivity|split].
      * intros ->. reflexivity.
      * reflexivity.
Qed.

Lemma toE164_begins_plus_one_witness : Sms.toE164_ (VStr "call 555") = "+1555".
Proof.
  apply (proj2 (proj2 (toE164_begins_plus_one (VStr "call 555")))).
  - vm_compute. lia.
  - reflexivity.
Defined.

(** ** sms.js: the log of send attempts *)

Lemma log_records_logSms_ (to body sid httpCode err : value) (w : world) :
  Sms.log_records (Sms.logSms_ to body sid httpCode err w)
  = Sms.log_records w ++ [[new_Date w; to; body; sid; httpCode; err]].
Proof.
  unfold Sms.log_records, Sms.logSms_, getSheetByName, putSheet. simpl.
  rewrite lookup_insert_eq. simpl.
  destruct (book w !! Sms.sms_log_name) as [[|r sh]|]; simpl; try reflexivity.
  unfold appendRow. rewrite (filter_app _ (r :: sh)). reflexivity.
Qed.

Lemma log_records_post (to body : string) (w : world) :
  Sms.log_records (post to body w) = Sms.log_records w.
Proof. reflexivity. Qed.

Lemma sendSms_logs_once (fr : fetch_result) (to body : string) (w : world) :
  Sms.missing_credentials w = false -> Sms.missing_sender w = false ->
  exists record,
    Sms.log_records (snd (Sms.sendSms_ fr to body w)) = Sms.log_records w ++ [record].
Proof.
  intros Hc Hs. unfold Sms.sendSms_. rewrite Hc, Hs.
  destruct fr as [err|status [|text err| |j]];
    unfold Sms.sendSms_caught, Sms.sendSms_parsed; simpl;
    try destruct ((200 <=? status) && (status <? 300)); simpl;
    rewrite log_records_logSms_, log_records_post; eauto.
Qed.

(** ** smsInbound.js: the request to stop *)

Lemma cell_updateLoop_all (cPhone cOpt : nat) (want v : string) (rows : list row)
    (r : nat) (s : Inbound.scan) (r' c' : nat) :
  cell (Inbound.db (Inbound.updateLoop cPhone cOpt want v true rows r s)) r' c'
  = if bool_decide (c' = cOpt) && (r <=? r')%nat
       && from_option (Inbound.phone_matches cPhone want) false (rows !! (r' - r)%nat)
    then VStr v else cell (Inbound.db s) r' c'.
Proof.
  revert r s. induction rows as [|cells rest IH]; intros r s; cbn [Inbound.updateLoop].
  - rewrite lookup_nil. simpl. rewrite andb_false_r. reflexivity.
  - assert (Hlook : (cells :: rest) !! (r' - r)%nat
                    = if (r' <=? r)%nat then Some cells else rest !! (r' - S r)%nat).
    { destruct (r' <=? r)%nat eqn:H; leb_props.
      - replace (r' - r)%nat with 0%nat by lia. reflexivity.
      - replace (r' - r)%nat with (S (r' - S r)) by lia. reflexivity. }
    rewrite Hlook. clear Hlook.
    destruct (Inbound.phone_matches cPhone want cells) eqn:Hm; cbn [negb];
      rewrite IH; cbn [Inbound.db]; rewrite ?cell_setValue;
      destruct (r' <=? r)%nat eqn:H1; destruct (r <=? r')%nat eqn:H2;
      destruct (S r <=? r')%nat eqn:H3; leb_props;
      repeat case_bool_decide; simpl; rewrite ?Hm; simpl;
      try reflexivity; try lia;
      destruct (from_option _ _ _); reflexivity.
Qed.

Lemma getSheet_logInbound (from body status sid : string) (w : world) :
  getSheetByName (Inbound.logInbound_ from body status sid w) Inbound.db_name
  = getSheetByName w Inbound.db_name.
Proof.
  unfold Inbound.logInbound_, getSheetByName, putSheet. simpl.
  apply lookup_insert_ne. discriminate.
Qed.

Lemma stop_any_case (body : string) :
  toLowerCase body = "stop" -> toUpperCase (trim body) = "STOP".
Proof.
  destruct body as [|c1 [|c2 [|c3 [|c4 [|c5 rest]]]]]; try discriminate.
  intros H. injection H as H1 H2 H3 H4.
  destruct (lower_char_small c1) as [U1 S1]; [rewrite H1; reflexivity|].
  destruct (lower_char_small c2) as [U2 S2]; [rewrite H2; reflexivity|].
  destruct (lower_char_small c3) as [U3 S3]; [rewrite H3; reflexivity|].
  destruct (lower_char_small c4) as [U4 S4]; [rewrite H4; reflexivity|].
  unfold trim. cbn [drop_space]. rewrite S1. cbn [drop_space_end].
  rewrite S1, S2, S3, S4. cbn [andb toUpperCase smap].
  rewrite U1, U2, U3, U4, H1, H2, H3, H4. reflexivity.
Qed.

Lemma updateOptInByPhone_all (from v : string) (w : world) (vals : sheet)
    (cPhone cOpt : nat) :
  getSheetByName w Inbound.db_name = Some vals ->
  Inbound.findCol (Inbound.headers_of vals) "phone #" = Some cPhone ->
  Inbound.findCol (Inbound.headers_of vals) "sms opt-in" = Some cOpt ->
  exists db',
    getSheetByName (snd (Inbound.updateOptInByPhone_ from v true w)) Inbound.db_name
    = Some db'
    /\ forall r cells,
         (1 <= r)%nat -> vals !! r = Some cells ->
         Inbound.phone_matches cPhone (Inbound.normalizePhoneDigits_ (VStr from)) cells
         = true ->
         cell db' r cOpt = VStr v.
Proof.
  intros Hdb Hp Ho. unfold Inbound.updateOptInByPhone_. rewrite Hdb.
  destruct (length vals <? 2)%nat eqn:Hlen.
  { exists vals. simpl. rewrite getSheet_logInbound. split; [exact Hdb|].
    intros r cells Hr Hcells _. apply lookup_lt_Some in Hcells. leb_props.
    apply Nat.ltb_lt in Hlen. lia. }
  rewrite Hp, Ho.
  destruct (is_empty_string (Inbound.normalizePhoneDigits_ (VStr from))) eqn:Hwant.
  { exists vals. simpl. rewrite getSheet_logInbound. split; [exact Hdb|].
    intros r cells _ _ Hm. unfold Inbound.phone_matches in Hm.
    apply andb_prop in Hm as [Hne Heq]. apply bool_decide_eq_true in Heq.
    rewrite Heq, Hwant in Hne. discriminate Hne. }
  eexists. split.
  - cbn [snd].
    destruct (Inbound.matches _ =? 0)%nat; [|destruct (Inbound.changed _)];
      rewrite ?getSheet_logInbound; apply getSheet_putSheet.
  - intros r cells Hr Hcells Hm. rewrite cell_updateLoop_all.
    rewrite bool_decide_true by reflexivity.
    replace (1 <=? r)%nat with true by (symmetry; apply Nat.leb_le; exact Hr).
    rewrite lookup_drop. replace (1 + (r - 1))%nat with r by lia.
    rewrite Hcells. cbn [from_option andb]. rewrite Hm. reflexivity.
Qed.

Example empty_envelope :
  Inbound.twiml_ ""
  = "<?xml version=" +:+ dquote +:+ "1.0" +:+ dquote +:+ " encoding=" +:+ dquote
    +:+ "UTF-8" +:+ dquote +:+ "?><Response></Response>".
Proof. reflexivity. Qed.

Example stop_updates_duplicates :
  getSheetByName (snd (Inbound.doPost stop_from_ada roster_with_duplicates))
    Inbound.db_name
  = Some [texts ["Student Name"; "Phone #"; "SMS Opt-In"];
          texts ["Ada Lovelace"; "(816) 237-9012"; "No"];
          texts ["Grace Hopper"; "555-0100"; "Yes"];
          texts ["Ada L."; "18162379012"; "No"]].
Proof. vm_compute. reflexivity. Qed.

(** C7, as the claim states it, fails: a request to stop whose sender number
    has no digit changes no row, also not the row whose phone number has no
    digit either and so has the sender's normalised digits. *)
Lemma stop_without_sender_digits :
  let w' := snd (Inbound.doPost stop_without_sender roster_with_blank_phone) in
  let db := default [] (getSheetByName roster_with_blank_phone Inbound.db_name) in
  let db' := default [] (getSheetByName w' Inbound.db_name) in
  Inbound.normalizePhoneDigits_ (cell db 1 1)
  = Inbound.normalizePhoneDigits_ (VStr (Inbound.param stop_without_sender "From"))
  /\ cell db' 1 2 = VStr "Yes"
  /\ cell db' 1 2 <> VStr Inbound.OPT_NO.
Proof.
  vm_compute. split; [reflexivity|]. split; [reflexivity|].
  intros H. discriminate H.
Qed.

(** C7, amended.  For a webhook request without a delivery status whose body
    is the word stop in any letter case, on a Student Database with the phone
    and the opt-in column, the reply is the empty TwiML envelope and the
    opt-in column holds [No] in every row whose normalised phone digits are
    not empty and equal the sender's normalised digits.  (A sender number
    without digits changes no row.) *)
Theorem stop_opts_out_every_match (p : gmap string string) (w : world)
    (vals : sheet) (cPhone cOpt : nat) :
  Inbound.param p "MessageStatus" = "" ->
  toLowerCase (Inbound.param p "Body") = "stop" ->
  getSheetByName w Inbound.db_name = Some vals ->
  Inbound.findCol (Inbound.headers_of vals) "phone #" = Some cPhone ->
  Inbound.findCol (Inbound.headers_of vals) "sms opt-in" = Some cOpt ->
  fst (Inbound.doPost p w) = Inbound.twiml_ ""
  /\ exists db',
       getSheetByName (snd (Inbound.doPost p w)) Inbound.db_name = Some db'
       /\ forall r cells,
            (1 <= r)%nat -> vals !! r = Some cells ->
            let have := Inbound.normalizePhoneDigits_ (default VUndef (cells !! cPhone)) in
            have <> "" ->
            have = Inbound.normalizePhoneDigits_ (VStr (Inbound.param p "From")) ->
            cell db' r cOpt = VStr Inbound.OPT_NO.
Proof.
  intros Hstatus Hbody Hdb Hp Ho. unfold Inbound.doPost.
  rewrite Hstatus. cbn [is_empty_string negb].
  rewrite (stop_any_case _ Hbody).
  rewrite (bool_decide_true ("STOP" ∈ Inbound.STOP_WORDS)) by apply list_elem_of_here.
  cbn [fst snd]. split; [reflexivity|].
  set (w1 := Inbound.logInbound_ _ _ _ _ w).
  assert (Hdb1 : getSheetByName w1 Inbound.db_name = Some vals).
  { unfold w1. rewrite getSheet_logInbound. exact Hdb. }
  destruct (updateOptInByPhone_all (Inbound.param p "From") Inbound.OPT_NO w1 vals
              cPhone cOpt Hdb1 Hp Ho) as (db' & Hdb' & Hcells).
  exists db'. split; [exact Hdb'|].
  intros r cells Hr Hrow Hne Heq. apply (Hcells r cells Hr Hrow).
  unfold Inbound.phone_matches.
  rewrite (is_empty_string_false _ Hne). cbn [negb andb].
  apply bool_decide_eq_true. exact Heq.
Qed.

Lemma stop_opts_out_every_match_witness :
  exists db',
    getSheetByName (snd (Inbound.doPost stop_from_ada roster_with_duplicates))
      Inbound.db_name = Some db'
    /\ cell db' 3 2 = VStr Inbound.OPT_NO.
Proof.
  destruct (stop_opts_out_every_match stop_from_ada roster_with_duplicates
              [texts ["Student Name"; "Phone #"; "SMS Opt-In"];
               texts ["Ada Lovelace"; "(816) 237-9012"; "Yes"];
               texts ["Grace Hopper"; "555-0100"; "Yes"];
               texts ["Ada L."; "18162379012"; "Yes"]] 1 2
              eq_refl eq_refl eq_refl eq_refl eq_refl) as [_ (db' & Hdb' & Hcells)].
  exists db'. split; [exact Hdb'|].
  apply (Hcells 3%nat (texts ["Ada L."; "18162379012"; "Yes"])).
  - lia.
  - reflexivity.
  - vm_compute. discriminate.
  - reflexivity.
Defined.

(** ** smsBulkSend.js: what a pass through the loop body leaves *)


Lemma clock_setColumnValue (n : nat) (cm : gmap string nat) (name : string)
    (v : value) (w : world) :
  new_Date (Bulk.setColumnValue n cm name v w) = new_Date w.
Proof. unfold Bulk.setColumnValue. destruct (cm !! name); reflexivity. Qed.

Lemma cell_setColumnValue (n : nat) (cm : gmap string nat) (name : string)
    (v : value) (w : world) (col r c : nat) :
  cm !! name = Some col ->
  cell (Bulk.database (Bulk.setColumnValue n cm name v w)) r c
  = if bool_decide (r = (n - 1)%nat) && bool_decide (c = col) then v
    else cell (Bulk.database w) r c.
Proof.
  intros Hcol. unfold Bulk.setColumnValue. rewrite Hcol.
  unfold Bulk.database at 1. rewrite getSheet_putSheet. simpl default.
  apply cell_setValue.
Qed.

Lemma log_records_setColumnValue (n : nat) (cm : gmap string nat)
    (name : string) (v : value) (w : world) :
  Sms.log_records (Bulk.setColumnValue n cm name v w) = Sms.log_records w.
Proof.
  unfold Bulk.setColumnValue. destruct (cm !! name); [|reflexivity].
  unfold Sms.log_records, getSheetByName, putSheet. simpl.
  rewrite lookup_insert_ne; [reflexivity|discriminate].
Qed.


Lemma database_request (to body : value) (cred : Bulk.credentials) (w : world) :
  Bulk.database (Bulk.request to body cred w) = Bulk.database w.
Proof. unfold Bulk.request. destruct (_ && _); reflexivity. Qed.

Lemma log_records_request (to body : value) (cred : Bulk.credentials) (w : world) :
  Sms.log_records (Bulk.request to body cred w) = Sms.log_records w.
Proof. unfold Bulk.request. destruct (_ && _); reflexivity. Qed.

Section LoopBody.

Context (cm : gmap string nat) (cred : Bulk.credentials).

Lemma processRow_processed (fr : fetch_result) (i : nat) (cells : row) (r : Bulk.run) :
  Bulk.processed (Bulk.st (Bulk.processRow cm cred fr i cells r))
  = S (Bulk.processed (Bulk.st r)).
Proof.
  unfold Bulk.processRow.
  repeat match goal with
         | |- context [if ?b then _ else _] => destruct b
         end; reflexivity.
Qed.



Lemma log_records_processRow (fr : fetch_result) (i : nat) (cells : row) (r : Bulk.run) :
  Sms.log_records (Bulk.wd (Bulk.processRow cm cred fr i cells r))
  = Sms.log_records (Bulk.wd r).
Proof.
  unfold Bulk.processRow.
  repeat match goal with
         | |- context [if ?b then _ else _] => destruct b
         end;
    simpl;
    unfold Bulk.updateRowSuccess, Bulk.updateRowOptOut, Bulk.updateRowError;
    rewrite ?log_records_setColumnValue, ?log_records_request; reflexivity.
Qed.


(** Where the loop stops does not depend on what the vendor answers. *)
Lemma processLoop_reach (vendor vendor' : nat -> fetch_result) (rows : list row)
    (cur : nat) (r r' : Bulk.run) :
  Bulk.processed (Bulk.st r) = Bulk.processed (Bulk.st r') ->
  fst (Bulk.processLoop cm cred vendor rows cur r)
  = fst (Bulk.processLoop cm cred vendor' rows cur r')
  /\ Bulk.processed (Bulk.st (snd (Bulk.processLoop cm cred vendor rows cur r)))
     = Bulk.processed (Bulk.st (snd (Bulk.processLoop cm cred vendor' rows cur r'))).
Proof.
  revert cur r r'. induction rows as [|cells rest IH]; intros cur r r' Hp;
    cbn [Bulk.processLoop].
  - split; [reflexivity|exact Hp].
  - rewrite <- Hp. destruct (Bulk.processed (Bulk.st r) <? Bulk.BATCH_SIZE)%nat.
    + destruct (cur =? 0)%nat.
      * apply IH, Hp.
      * apply IH. rewrite !processRow_processed. f_equal. exact Hp.
    + split; [reflexivity|exact Hp].
Qed.

End LoopBody.

Lemma processBatch_reach (vendor vendor' : nat -> fetch_result) (allData : sheet)
    (cm : gmap string nat) (cred : Bulk.credentials) (N : nat) (w : world) :
  let r := Bulk.processBatch vendor allData cm cred N w in
  let r' := Bulk.processBatch vendor' allData cm cred N w in
  Bulk.nextCursor (Bulk.st r) = Bulk.nextCursor (Bulk.st r')
  /\ Bulk.hasMore (Bulk.st r) = Bulk.hasMore (Bulk.st r')
  /\ Bulk.processed (Bulk.st r) = Bulk.processed (Bulk.st r').
Proof.
  unfold Bulk.processBatch.
  destruct (processLoop_reach cm cred vendor vendor' (drop N allData) N
              (Bulk.mkRun (Bulk.mkStats 0 0 0 0 0 false N) w [])
              (Bulk.mkRun (Bulk.mkStats 0 0 0 0 0 false N) w []) eq_refl) as [Hc Hp].
  destruct (Bulk.processLoop cm cred vendor (drop N allData) N _) as [cur r].
  destruct (Bulk.processLoop cm cred vendor' (drop N allData) N _) as [cur' r'].
  cbn [fst snd] in Hc, Hp. subst cur'.
  destruct (cur <? length allData)%nat; cbn; repeat split; exact Hp.
Qed.

(** ** smsBulkSend.js: the cursor *)






Example resume_from_two :
  (fun r => (Bulk.visited (Bulk.events r), Bulk.hasMore (Bulk.st r),
             Bulk.nextCursor (Bulk.st r), Bulk.getCursor (Bulk.wd r)))
    (Bulk.processBatch second_unsubscribed bulk_roster bulk_columns bulk_credentials 2
       (bulk_world (Some "2")))
  = ([2; 3]%nat, false, 4%nat, Some 2).
Proof. vm_compute. reflexivity. Qed.



(** ** smsBulkSend.js: the unsubscribed recipient *)

Example bulk_run_with_unsubscribed :
  (fun r => (Bulk.database (Bulk.wd r) !! 2%nat, Bulk.optedOut (Bulk.st r),
             Bulk.visited (Bulk.events r)))
    (Bulk.processBatch second_unsubscribed bulk_roster bulk_columns bulk_credentials 1
       (bulk_world None))
  = (Some [VStr "Grace Hopper"; VStr "+15550100"; VStr "NO";
           VDate "Mon Nov 02 2026 09:10:00"; VNum 21610;
           VStr "Attempt to send to unsubscribed recipient"; VStr "OPTED_OUT"],
     1%nat, [1; 2; 3]%nat).
Proof. vm_compute. reflexivity. Qed.

(** C2, as the claim states it, fails in one point: the value the bulk sender
    writes to the opt-in field of the unsubscribed recipient is [NO], which
    is not the canonical negative value [No] of the person record. *)
Lemma opt_out_written_in_capitals :
  let r := Bulk.processBatch second_unsubscribed bulk_roster bulk_columns
             bulk_credentials 1 (bulk_world None) in
  cell (Bulk.database (Bulk.wd r)) 2 2 = VStr "NO"
  /\ cell (Bulk.database (Bulk.wd r)) 2 2 <> VStr Inbound.OPT_NO.
Proof. vm_compute. split; [reflexivity|]. intros H. discriminate H. Qed.

(** C2, amended.  When the vendor answers the request for a row with a status
    other than 200 and 201 and an error body whose code is 21610, the loop
    body writes [NO] to the opt-in field of that row (capitals, not the [No]
    of the inbound handler; read without regard to case it is that value,
    and [isOptedIn] takes it as not opted in), writes [OPTED_OUT] to the
    send status together with the vendor's code and message, counts the row
    as opted out, and the loop goes on with the next row; the rows a batch
    reaches do not depend on the vendor's answers. *)
Theorem unsubscribed_recipient_opted_out (cm : gmap string nat)
    (cred : Bulk.credentials) (status : Z) (j : json) (i : nat) (cells : row)
    (r : Bulk.run) (cOpt cStatus cCode cMsg cSent : nat) :
  negb (truthy_prop (Bulk.messagingServiceSid cred))
  && negb (truthy_prop (Bulk.from cred)) = false ->
  (status =? 201) || (status =? 200) = false ->
  j_code j = VNum 21610 ->
  truthy (Bulk.getColumnValue cells cm "phone") = true ->
  is_empty_string (trim (to_string (Bulk.getColumnValue cells cm "phone"))) = false ->
  Bulk.isOptedIn (Bulk.getColumnValue cells cm "opt_in") = true ->
  cm !! "opt_in" = Some cOpt ->
  cm !! "last_send_status" = Some cStatus ->
  cm !! "last_error_code" = Some cCode ->
  cm !! "last_error_message" = Some cMsg ->
  cm !! "last_sent_at" = Some cSent ->
  NoDup [cOpt; cStatus; cCode; cMsg; cSent] ->
  let answer := FetchResponse status (ContentObject j) in
  let r' := Bulk.processRow cm cred answer i cells r in
  let db' := Bulk.database (Bulk.wd r') in
  cell db' i cOpt = VStr "NO"
  /\ toLowerCase "NO" = toLowerCase Inbound.OPT_NO
  /\ Bulk.isOptedIn (cell db' i cOpt) = false
  /\ cell db' i cStatus = VStr "OPTED_OUT"
  /\ cell db' i cCode = VNum 21610
  /\ cell db' i cMsg
     = or_else (or_else (j_message j) (j_error_message j)) (VStr "Unknown error")
  /\ Bulk.optedOut (Bulk.st r') = S (Bulk.optedOut (Bulk.st r))
  /\ (forall vendor rest,
        vendor i = answer -> i <> 0%nat ->
        (Bulk.processed (Bulk.st r) < Bulk.BATCH_SIZE)%nat ->
        Bulk.processLoop cm cred vendor (cells :: rest) i r
        = Bulk.processLoop cm cred vendor rest (S i) r')
  /\ (forall vendor vendor' allData N w,
        Bulk.nextCursor (Bulk.st (Bulk.processBatch vendor allData cm cred N w))
        = Bulk.nextCursor (Bulk.st (Bulk.processBatch vendor' allData cm cred N w))).
Proof.
  intros Hsender Hstatus Hcode Hphone Hphone' Hopt HcOpt HcStatus HcCode HcMsg HcSent Hnd
         answer r' db'.
  apply NoDup_five in Hnd as (? & ? & ? & ? & ? & ? & ? & ? & ? & ?).
  set (w0 := Bulk.request (Bulk.getColumnValue cells cm "phone")
               (or_else (Bulk.getColumnValue cells cm "message")
                  (VStr Bulk.DEFAULT_MESSAGE)) cred (Bulk.wd r)).
  assert (Hr' : r' = let w := Bulk.updateRowOptOut (S i) cm
                         (Bulk.failure (VNum 21610)
                            (or_else (or_else (j_message j) (j_error_message j))
                               (VStr "Unknown error"))) w0 in
                     let s := Bulk.count_optedOut (Bulk.count_processed (Bulk.st r)) in
                     let es := Bulk.events r
                               ++ [Bulk.Sending (S i) (Bulk.getColumnValue cells cm "phone")
                                     (or_else (Bulk.getColumnValue cells cm "message")
                                        (VStr Bulk.DEFAULT_MESSAGE))]
                               ++ [Bulk.OptedOut (S i)] in
                     if (S (Bulk.processed (Bulk.st r)) <? Bulk.BATCH_SIZE)%nat
                     then Bulk.mkRun s w (es ++ [Bulk.Slept Bulk.RATE_LIMIT_MS])
                     else Bulk.mkRun s w es).
  { unfold r', Bulk.processRow. rewrite Hphone, Hphone', Hopt. cbn [negb orb].
    unfold answer, Bulk.sendTwilioSMS. rewrite Hsender, Hstatus, Hcode.
    cbn [or_else truthy Z.eqb negb Bulk.failure Bulk.success Bulk.errorCode].
    rewrite bool_decide_true by reflexivity.
    unfold Bulk.bump. cbn [Bulk.st Bulk.wd Bulk.events Bulk.count_processed
                           Bulk.count_optedOut Bulk.processed id].
    destruct (S (Bulk.processed (Bulk.st r)) <? Bulk.BATCH_SIZE)%nat;
      cbn [Bulk.st Bulk.wd Bulk.events]; rewrite <- ?app_assoc; reflexivity. }
  assert (Hdb : db' = Bulk.database
                        (Bulk.updateRowOptOut (S i) cm
                           (Bulk.failure (VNum 21610)
                              (or_else (or_else (j_message j) (j_error_message j))
                                 (VStr "Unknown error"))) w0)).
  { unfold db'. rewrite Hr'. cbv zeta.
    destruct (S (Bulk.processed (Bulk.st r)) <? Bulk.BATCH_SIZE)%nat; reflexivity. }
  assert (Hcell : forall c,
             cell db' i c
             = if bool_decide (c = cSent) then new_Date w0
               else if bool_decide (c = cMsg)
               then or_else (or_else (j_message j) (j_error_message j))
                      (VStr "Unknown error")
               else if bool_decide (c = cCode) then VNum 21610
               else if bool_decide (c = cStatus) then VStr "OPTED_OUT"
               else if bool_decide (c = cOpt) then VStr "NO"
               else cell (Bulk.database w0) i c).
  { intros c. rewrite Hdb. unfold Bulk.updateRowOptOut.
    rewrite (cell_setColumnValue _ _ _ _ _ cSent) by exact HcSent.
    rewrite (cell_setColumnValue _ _ _ _ _ cMsg) by exact HcMsg.
    rewrite (cell_setColumnValue _ _ _ _ _ cCode) by exact HcCode.
    rewrite (cell_setColumnValue _ _ _ _ _ cStatus) by exact HcStatus.
    rewrite (cell_setColumnValue _ _ _ _ _ cOpt) by exact HcOpt.
    rewrite (bool_decide_true (i = (S i - 1)%nat)) by lia. cbn [andb Bulk.failure
      Bulk.errorCode Bulk.errorMessage]. reflexivity. }
  assert (HOpt : cell db' i cOpt = VStr "NO").
  { rewrite Hcell. rewrite !bool_decide_false by congruence.
    rewrite bool_decide_true by reflexivity. reflexivity. }
  split; [exact HOpt|]. split; [reflexivity|]. split; [rewrite HOpt; reflexivity|].
  split.
  { rewrite Hcell. rewrite !bool_decide_false by congruence.
    rewrite bool_decide_true by reflexivity. reflexivity. }
  split.
  { rewrite Hcell. rewrite !bool_decide_false by congruence.
    rewrite bool_decide_true by reflexivity. reflexivity. }
  split.
  { rewrite Hcell. rewrite !bool_decide_false by congruence.
    rewrite bool_decide_true by reflexivity. reflexivity. }
  split.
  { rewrite Hr'. cbv zeta.
    destruct (S (Bulk.processed (Bulk.st r)) <? Bulk.BATCH_SIZE)%nat; reflexivity. }
  split.
  { intros vendor rest Hv Hi Hroom. cbn [Bulk.processLoop].
    replace (Bulk.processed (Bulk.st r) <? Bulk.BATCH_SIZE)%nat with true
      by (symmetry; apply Nat.ltb_lt; exact Hroom).
    replace (i =? 0)%nat with false by (symmetry; apply Nat.eqb_neq; exact Hi).
    rewrite Hv. reflexivity. }
  intros vendor vendor' allData N w.
  apply (processBatch_reach vendor vendor' allData cm cred N w).
Qed.

Lemma unsubscribed_recipient_opted_out_witness :
  cell (Bulk.database
          (Bulk.wd
             (Bulk.processRow bulk_columns bulk_credentials unsubscribed 2
                (texts ["Grace Hopper"; "+15550100"; "Yes"])
                (Bulk.mkRun (Bulk.mkStats 0 0 0 0 0 false 1) (bulk_world None) []))))
    2 2
  = VStr "NO".
Proof.
  apply (unsubscribed_recipient_opted_out bulk_columns bulk_credentials 400
           (mkJson VUndef (VNum 21610)
              (VStr "Attempt to send to unsubscribed recipient") VUndef)
           2 (texts ["Grace Hopper"; "+15550100"; "Yes"])
           (Bulk.mkRun (Bulk.mkStats 0 0 0 0 0 false 1) (bulk_world None) [])
           2 6 4 5 3);
    try reflexivity.
  repeat (apply NoDup_cons_2;
          [rewrite ?not_elem_of_cons; repeat split; try lia; apply not_elem_of_nil|]).
  apply NoDup_nil_2.
Defined.

(** ** The send attempts and the log *)

(** C3, as the claim states it, fails: a call of [sendSms_] in a project whose
    Twilio credentials are not set returns its failure object and the log
    has no record more than before. *)
Lemma sendSms_unconfigured_not_logged :
  let out := Sms.sendSms_ (FetchResponse 201 (ContentObject empty_object))
               "+18162379012" "Hello" bare_world in
  Sms.success (fst out) = false
  /\ Sms.log_records (snd out) = Sms.log_records bare_world
  /\ length (Sms.log_records (snd out)) <> S (length (Sms.log_records bare_world)).
Proof. vm_compute. repeat split; discriminate. Qed.

(** C3, amended.  A call of [sendSms_] that passes its two configuration
    checks appends exactly one record to the send-attempt log, whatever the
    vendor does: success, rejection, network failure or an unreadable
    answer.  A dry run of [sendOneWithControls_] appends exactly one record
    and posts nothing.  A call that fails a configuration check returns
    before the request and leaves the world, and with it the log, as it was.
    The bulk sender writes the outcome of a row to that row of the Student
    Database; the log keeps the records it had. *)
Theorem send_attempt_logged (fr : fetch_result) (to body : string) (w : world) :
  (Sms.missing_credentials w = false -> Sms.missing_sender w = false ->
   exists record,
     Sms.log_records (snd (Sms.sendSms_ fr to body w))
     = Sms.log_records w ++ [record])
  /\ (Send.isDryRun_ w = true ->
      exists w' record,
        Send.sendOneWithControls_ true fr to body w = Some w'
        /\ Sms.log_records w' = Sms.log_records w ++ [record]
        /\ outbox w' = outbox w)
  /\ (Sms.missing_credentials w || Sms.missing_sender w = true ->
      snd (Sms.sendSms_ fr to body w) = w)
  /\ (forall cm cred i cells r,
        Sms.log_records (Bulk.wd (Bulk.processRow cm cred fr i cells r))
        = Sms.log_records (Bulk.wd r)).
Proof.
  split; [|split; [|split]].
  - apply sendSms_logs_once.
  - intros Hdry. unfold Send.sendOneWithControls_. rewrite Hdry. simpl.
    eexists. eexists. split; [reflexivity|]. split; [|reflexivity].
    unfold Send.safeLogSms_. apply log_records_logSms_.
  - unfold Sms.sendSms_.
    destruct (Sms.missing_credentials w); [reflexivity|].
    destruct (Sms.missing_sender w); [reflexivity|discriminate].
  - intros. apply log_records_processRow.
Qed.

Lemma send_attempt_logged_witness :
  exists record,
    Sms.log_records
      (snd (Sms.sendSms_ (FetchThrows "Exception: DNS error") "+18162379012" "Hello"
              configured_world))
    = Sms.log_records configured_world ++ [record].
Proof.
  apply (proj1 (send_attempt_logged (FetchThrows "Exception: DNS error")
                  "+18162379012" "Hello" configured_world)); reflexivity.
Defined.

(** ** smsSend.js: the cleanup of the preview renderer *)

Lemma is_blank_hspace (c : ascii) : Send.is_blank c = true -> Send.is_hspace c = true.
Proof.
  unfold Send.is_blank. intros H. apply orb_prop in H as [H|H];
    apply bool_decide_eq_true in H; subst c; reflexivity.
Qed.

Lemma is_hspace_space (c : ascii) : Send.is_hspace c = true -> is_space c = true.
Proof. unfold Send.is_hspace. intros H. apply andb_prop in H as [H _]. exact H. Qed.

Lemma is_LF_hspace (c : ascii) : Send.is_LF c = true -> Send.is_hspace c = false.
Proof.
  unfold Send.is_LF, Send.is_hspace. intros H. rewrite H. apply andb_false_r.
Qed.

Lemma space_cases (c : ascii) :
  is_space c = true -> Send.is_LF c = false -> Send.is_hspace c = true.
Proof. unfold Send.is_hspace, Send.is_LF. intros -> ->. reflexivity. Qed.

Lemma is_LF_space (c : ascii) : Send.is_LF c = true -> is_space c = true.
Proof. unfold Send.is_LF. intros H. apply bool_decide_eq_true in H. subst c. reflexivity. Qed.

Lemma is_blank_not_punct (c : ascii) : Send.is_blank c = true -> Send.is_punct c = false.
Proof.
  unfold Send.is_blank. intros H. apply orb_prop in H as [H|H];
    apply bool_decide_eq_true in H; subst c; reflexivity.
Qed.

(** *** The text without its horizontal white space *)

Lemma without_hspace_cons (c : ascii) (r : string) :
  Send.without_hspace (String c r)
  = if Send.is_hspace c then Send.without_hspace r
    else String c (Send.without_hspace r).
Proof. unfold Send.without_hspace. simpl. destruct (Send.is_hspace c); reflexivity. Qed.

Lemma without_hspace_app (a b : string) :
  Send.without_hspace (a +:+ b) = Send.without_hspace a +:+ Send.without_hspace b.
Proof.
  induction a as [|c a IH]; [reflexivity|].
  change (String c a +:+ b) with (String c (a +:+ b)).
  rewrite !without_hspace_cons, IH.
  destruct (Send.is_hspace c); reflexivity.
Qed.

Lemma without_hspace_collapse (b : bool) (s : string) :
  Send.without_hspace (Send.collapse_from b s) = Send.without_hspace s.
Proof.
  revert b. induction s as [|c r IH]; intros b; [reflexivity|].
  cbn [Send.collapse_from]. rewrite (without_hspace_cons c r).
  destruct (Send.is_hspace c) eqn:Hc.
  - destruct b; [apply IH|]. rewrite without_hspace_cons. change (Send.is_hspace " ") with true.
    apply IH.
  - rewrite without_hspace_cons, Hc, IH. reflexivity.
Qed.

Lemma without_hspace_tighten (s : string) :
  Send.without_hspace (Send.tighten s) = Send.without_hspace s.
Proof.
  induction s as [|c r IH]; [reflexivity|].
  cbn [Send.tighten]. rewrite (without_hspace_cons c r).
  destruct (Send.is_blank c) eqn:Hb.
  - rewrite (is_blank_hspace c Hb).
    destruct (Send.starts_with Send.is_punct (Send.drop_while Send.is_blank r)); cbn [andb].
    + exact IH.
    + rewrite without_hspace_cons, (is_blank_hspace c Hb). exact IH.
  - cbn [andb]. rewrite without_hspace_cons, IH. reflexivity.
Qed.

Lemma without_hspace_drop_blank (s : string) :
  Send.without_hspace (Send.drop_while Send.is_blank s) = Send.without_hspace s.
Proof.
  induction s as [|c r IH]; [reflexivity|].
  cbn [Send.drop_while]. destruct (Send.is_blank c) eqn:Hb; [|reflexivity].
  rewrite (without_hspace_cons c r), (is_blank_hspace c Hb). exact IH.
Qed.

Lemma without_hspace_drop_blank_end (s : string) :
  Send.without_hspace (Send.drop_blank_end s) = Send.without_hspace s.
Proof.
  induction s as [|c r IH]; [reflexivity|].
  cbn [Send.drop_blank_end]. rewrite (without_hspace_cons c r).
  destruct (Send.is_blank c) eqn:Hb; cbn [andb].
  - rewrite (is_blank_hspace c Hb).
    destruct (is_empty_string (Send.drop_blank_end r)) eqn:He.
    + rewrite <- IH. destruct (Send.drop_blank_end r); [reflexivity|discriminate He].
    + rewrite without_hspace_cons, (is_blank_hspace c Hb). exact IH.
  - rewrite without_hspace_cons, IH. reflexivity.
Qed.

Create Rewrite HintDb ink.
#[local] Hint Rewrite without_hspace_collapse without_hspace_tighten
  without_hspace_drop_blank without_hspace_drop_blank_end : ink.

Lemma without_hspace_trim_line (l : string) :
  Send.without_hspace (Send.trim_line l) = Send.without_hspace l.
Proof. unfold Send.trim_line. autorewrite with ink. reflexivity. Qed.

(** The join of a first line with the lines after it. *)
Lemma join_lines_cons (l : string) (ls : list string) :
  Send.join_lines (l :: ls)
  = match ls with
    | [] => l
    | _ => l +:+ String Send.LF (Send.join_lines ls)
    end.
Proof. destruct ls; reflexivity. Qed.

Lemma join_lines_more (l : string) (ls : list string) :
  ls <> [] -> Send.join_lines (l :: ls) = l +:+ String Send.LF (Send.join_lines ls).
Proof. destruct ls; [contradiction|reflexivity]. Qed.

Lemma lines_cons (c : ascii) (r : string) :
  Send.lines (String c r)
  = if Send.is_LF c then EmptyString :: Send.lines r
    else match Send.lines r with
         | l :: ls => String c l :: ls
         | [] => [String c EmptyString]
         end.
Proof.
  unfold Send.lines, Send.is_LF. cbn [Send.split_lines].
  destruct (Send.split_lines r) as [l ls].
  destruct (bool_decide (c = Send.LF)); reflexivity.
Qed.

Lemma lines_nonempty (s : string) : Send.lines s <> [].
Proof. unfold Send.lines. destruct (Send.split_lines s). discriminate. Qed.

(** The line-wise map of a text, put together again, differs from the text
    in horizontal white space only, if every line does. *)
Lemma without_hspace_linewise (f : string -> string) (s : string) :
  (forall l, Send.without_hspace (f l) = Send.without_hspace l) ->
  Send.without_hspace (Send.join_lines (map f (Send.lines s))) = Send.without_hspace s.
Proof.
  intros Hf. induction s as [|c r IH]; [apply Hf|].
  rewrite lines_cons. pose proof (lines_nonempty r) as Hne.
  rewrite (without_hspace_cons c r).
  destruct (Send.is_LF c) eqn:Hc.
  - cbn [map]. rewrite join_lines_more
      by (destruct (Send.lines r); [contradiction|discriminate]).
    rewrite without_hspace_app, Hf, without_hspace_cons.
    change (Send.is_hspace Send.LF) with false. cbv iota. rewrite IH.
    rewrite (is_LF_hspace c Hc).
    unfold Send.is_LF in Hc. apply bool_decide_eq_true in Hc. subst c. reflexivity.
  - destruct (Send.lines r) as [|l ls]; [contradiction|].
    cbn [map] in *. destruct ls as [|l' ls].
    + cbn [map Send.join_lines] in *. rewrite Hf in *. rewrite without_hspace_cons.
      rewrite IH. reflexivity.
    + rewrite join_lines_more in * by discriminate.
      rewrite without_hspace_app in *. rewrite Hf in *.
      rewrite (without_hspace_cons c l).
      destruct (Send.is_hspace c); [exact IH|].
      change (String c (Send.without_hspace l) +:+ ?x)
        with (String c (Send.without_hspace l +:+ x)).
      rewrite IH. reflexivity.
Qed.

Lemma without_hspace_tidy (s : string) :
  Send.without_hspace (Send.tidy s) = Send.without_hspace s.
Proof.
  unfold Send.tidy.
  rewrite (without_hspace_linewise Send.trim_line) by apply without_hspace_trim_line.
  autorewrite with ink. reflexivity.
Qed.

(** The final [trim] takes line breaks from the two ends only. *)
Lemma without_hspace_drop_space (t : string) :
  Send.without_hspace (drop_space t)
  = Send.drop_while Send.is_LF (Send.without_hspace t).
Proof.
  induction t as [|c r IH]; [reflexivity|].
  cbn [drop_space]. rewrite (without_hspace_cons c r).
  destruct (is_space c) eqn:Hs.
  - destruct (Send.is_LF c) eqn:Hl.
    + rewrite (is_LF_hspace c Hl). cbn [Send.drop_while]. rewrite Hl. exact IH.
    + rewrite (space_cases c Hs Hl). exact IH.
  - assert (Hh : Send.is_hspace c = false).
    { destruct (Send.is_hspace c) eqn:Hh; [|reflexivity].
      apply is_hspace_space in Hh. congruence. }
    assert (Hl : Send.is_LF c = false).
    { destruct (Send.is_LF c) eqn:Hl; [|reflexivity].
      apply is_LF_space in Hl. congruence. }
    rewrite without_hspace_cons, Hh. cbn [Send.drop_while]. rewrite Hl. reflexivity.
Qed.

Lemma drop_space_end_ink (r : string) :
  is_empty_string (Send.without_hspace (drop_space_end r))
  = is_empty_string (drop_space_end r).
Proof.
  induction r as [|c r IH]; [reflexivity|].
  cbn [drop_space_end].
  destruct (is_space c && is_empty_string (drop_space_end r)) eqn:Hb; [reflexivity|].
  rewrite without_hspace_cons. destruct (Send.is_hspace c) eqn:Hh; [|reflexivity].
  rewrite (is_hspace_space c Hh) in Hb. cbn [andb] in Hb. rewrite IH, Hb. reflexivity.
Qed.

Lemma without_hspace_drop_space_end (t : string) :
  Send.without_hspace (drop_space_end t) = Send.drop_nl_end (Send.without_hspace t).
Proof.
  induction t as [|c r IH]; [reflexivity|].
  cbn [drop_space_end]. rewrite (without_hspace_cons c r).
  pose proof (drop_space_end_ink r) as Hink.
  destruct (Send.is_LF c) eqn:Hl.
  - rewrite (is_LF_space c Hl), (is_LF_hspace c Hl). cbn [andb Send.drop_nl_end].
    rewrite Hl, <- IH, Hink. cbn [andb].
    destruct (is_empty_string (drop_space_end r)); [reflexivity|].
    rewrite without_hspace_cons, (is_LF_hspace c Hl). reflexivity.
  - destruct (Send.is_hspace c) eqn:Hh.
    + rewrite (is_hspace_space c Hh). cbn [andb].
      destruct (is_empty_string (drop_space_end r)) eqn:He.
      * rewrite <- IH. destruct (drop_space_end r); [reflexivity|discriminate He].
      * rewrite without_hspace_cons, Hh. exact IH.
    + assert (Hs : is_space c = false).
      { destruct (is_space c) eqn:Hs; [|reflexivity].
        rewrite (space_cases c Hs Hl) in Hh. discriminate Hh. }
      rewrite Hs. cbn [andb Send.drop_nl_end]. rewrite Hl. cbn [andb].
      rewrite without_hspace_cons, Hh, IH. reflexivity.
Qed.

Lemma without_hspace_cleanup (s : string) :
  Send.without_hspace (Send.cleanup s)
  = Send.drop_nl_end (Send.drop_while Send.is_LF (Send.without_hspace s)).
Proof.
  unfold Send.cleanup, trim.
  rewrite without_hspace_drop_space_end, without_hspace_drop_space, without_hspace_tidy.
  reflexivity.
Qed.

(** *** Counting line breaks *)

Lemma count_nl_cons (c : ascii) (r : string) :
  Send.count_nl (String c r)
  = if Send.is_LF c then S (Send.count_nl r) else Send.count_nl r.
Proof. unfold Send.count_nl. simpl. destruct (Send.is_LF c); reflexivity. Qed.

Lemma count_nl_without_hspace (s : string) :
  Send.count_nl (Send.without_hspace s) = Send.count_nl s.
Proof.
  induction s as [|c r IH]; [reflexivity|].
  rewrite without_hspace_cons, (count_nl_cons c r).
  destruct (Send.is_hspace c) eqn:Hh.
  - rewrite IH. destruct (Send.is_LF c) eqn:Hl; [|reflexivity].
    rewrite (is_LF_hspace c Hl) in Hh. discriminate Hh.
  - rewrite count_nl_cons, IH. reflexivity.
Qed.

Lemma count_nl_drop_while (p : ascii -> bool) (s : string) :
  (Send.count_nl (Send.drop_while p s) <= Send.count_nl s)%nat.
Proof.
  induction s as [|c r IH]; [reflexivity|].
  cbn [Send.drop_while]. destruct (p c); [|reflexivity].
  rewrite (count_nl_cons c r). destruct (Send.is_LF c); lia.
Qed.

Lemma count_nl_drop_nl_end (s : string) :
  (Send.count_nl (Send.drop_nl_end s) <= Send.count_nl s)%nat.
Proof.
  induction s as [|c r IH]; [reflexivity|].
  cbn [Send.drop_nl_end]. rewrite (count_nl_cons c r).
  destruct (Send.is_LF c && is_empty_string (Send.drop_nl_end r)).
  - unfold Send.count_nl at 1. simpl. lia.
  - rewrite count_nl_cons. destruct (Send.is_LF c); lia.
Qed.

Lemma drop_while_idle (p : ascii -> bool) (s : string) :
  Send.starts_with p s = false -> Send.drop_while p s = s.
Proof. destruct s as [|c r]; [reflexivity|]. simpl. intros ->. reflexivity. Qed.

Lemma drop_nl_end_idle (s : string) :
  Send.ends_with Send.is_LF s = false -> Send.drop_nl_end s = s.
Proof.
  induction s as [|c r IH]; [reflexivity|].
  cbn [Send.ends_with Send.drop_nl_end]. destruct r as [|c' r'].
  - cbn [is_empty_string Send.drop_nl_end]. intros ->. reflexivity.
  - cbn [is_empty_string]. intros H. rewrite (IH H). cbn [is_empty_string].
    rewrite andb_false_r. reflexivity.
Qed.

(** *** The three passes before the final trim *)

Lemma collapse_run_head (s : string) :
  Send.starts_with Send.is_hspace (Send.collapse_from true s) = false.
Proof.
  induction s as [|c r IH]; [reflexivity|].
  cbn [Send.collapse_from]. destruct (Send.is_hspace c) eqn:Hc; [exact IH|].
  cbn [Send.starts_with]. exact Hc.
Qed.

Lemma collapse_single (b : bool) (s : string) :
  Send.adjacent Send.is_hspace Send.is_hspace (Send.collapse_from b s) = false.
Proof.
  revert b. induction s as [|c r IH]; intros b; [reflexivity|].
  cbn [Send.collapse_from]. destruct (Send.is_hspace c) eqn:Hc.
  - destruct b; [apply IH|]. cbn [Send.adjacent].
    rewrite collapse_run_head, andb_false_r. apply IH.
  - cbn [Send.adjacent]. rewrite Hc. apply IH.
Qed.

Lemma collapse_to_space (b : bool) (s : string) :
  Send.all_chars (fun c => implb (Send.is_hspace c) (Ascii.eqb c " "))
    (Send.collapse_from b s) = true.
Proof.
  revert b. induction s as [|c r IH]; intros b; [reflexivity|].
  cbn [Send.collapse_from]. destruct (Send.is_hspace c) eqn:Hc.
  - destruct b; [apply IH|]. cbn [Send.all_chars]. rewrite IH. reflexivity.
  - cbn [Send.all_chars]. rewrite Hc, IH. reflexivity.
Qed.

Lemma tighten_head (r : string) :
  Send.starts_with Send.is_punct (Send.drop_while Send.is_blank r) = false ->
  Send.starts_with Send.is_punct (Send.tighten r) = false.
Proof.
  destruct r as [|c r]; [reflexivity|].
  cbn [Send.drop_while Send.tighten]. destruct (Send.is_blank c) eqn:Hb.
  - intros ->. cbn [andb Send.starts_with]. apply is_blank_not_punct, Hb.
  - cbn [andb Send.starts_with]. trivial.
Qed.

Lemma tighten_no_blank_before_punct (s : string) :
  Send.adjacent Send.is_blank Send.is_punct (Send.tighten s) = false.
Proof.
  induction s as [|c r IH]; [reflexivity|].
  cbn [Send.tighten].
  destruct (Send.is_blank c) eqn:Hb; cbn [andb].
  - destruct (Send.starts_with Send.is_punct (Send.drop_while Send.is_blank r)) eqn:Hp;
      [exact IH|].
    cbn [Send.adjacent]. rewrite (tighten_head r Hp), andb_false_r. exact IH.
  - cbn [Send.adjacent]. rewrite Hb. exact IH.
Qed.

Lemma drop_blank_head (l : string) :
  Send.starts_with Send.is_blank (Send.drop_while Send.is_blank l) = false.
Proof.
  induction l as [|c r IH]; [reflexivity|].
  cbn [Send.drop_while]. destruct (Send.is_blank c) eqn:Hb; [exact IH|exact Hb].
Qed.

Lemma drop_blank_end_head (l : string) :
  Send.starts_with Send.is_blank l = false ->
  Send.starts_with Send.is_blank (Send.drop_blank_end l) = false.
Proof.
  destruct l as [|c r]; [reflexivity|].
  cbn [Send.starts_with Send.drop_blank_end]. intros Hb. rewrite Hb. exact Hb.
Qed.

Lemma drop_blank_end_last (l : string) :
  Send.ends_with Send.is_blank (Send.drop_blank_end l) = false.
Proof.
  induction l as [|c r IH]; [reflexivity|].
  cbn [Send.drop_blank_end].
  destruct (Send.is_blank c) eqn:Hb; cbn [andb].
  - destruct (is_empty_string (Send.drop_blank_end r)) eqn:He; [reflexivity|].
    cbn [Send.ends_with]. rewrite He. exact IH.
  - cbn [Send.ends_with].
    destruct (is_empty_string (Send.drop_blank_end r)); [exact Hb|exact IH].
Qed.

Lemma trim_line_ends (l : string) :
  Send.starts_with Send.is_blank (Send.trim_line l) = false
  /\ Send.ends_with Send.is_blank (Send.trim_line l) = false.
Proof.
  unfold Send.trim_line. split.
  - apply drop_blank_end_head, drop_blank_head.
  - apply drop_blank_end_last.
Qed.

(** *** The newline count *)

Example preview_with_dollars :
  Send.uiRenderPreview "At {title}." "Pay $$5 & $&" "" ""
  = Some "At Pay $5 & <<TITLE>>.".
Proof. vm_compute. reflexivity. Qed.

Example preview_of_the_specification :
  Send.uiRenderPreview "{title} {date? on {date}}" "Demo" "" "" = Some "Demo".
Proof. reflexivity. Qed.

Example preview_with_date :
  Send.uiRenderPreview "{title} {date? on {date}} !{footer}" "Demo" " 5/1 " ""
  = Some "Demo on 5/1! Reply STOP to opt out. HELP for help.".
Proof. reflexivity. Qed.

(** C8, as the claim states it, fails: a template whose first line is an
    optional segment for an event without a date is substituted to a text
    that begins with a line break, and the cleanup removes that line break. *)
Lemma cleanup_drops_first_line_break :
  let template := "{date? on {date}}" +:+ String Send.LF "See you at {title}" in
  let substituted := String Send.LF "See you at Demo" in
  Send.substitute template (Send.preview_context "Demo" "" "") = Some substituted
  /\ Send.count_nl substituted = 1%nat
  /\ Send.count_nl (Send.cleanup substituted) = 0%nat
  /\ Send.count_nl (Send.cleanup substituted) <> Send.count_nl substituted.
Proof. vm_compute. repeat split. intros H. discriminate H. Qed.

(** *** The cleanup, line by line *)

Lemma split_lines_collapse (i : bool) (s : string) :
  Send.split_lines (Send.collapse_from i s)
  = (Send.collapse_from i (fst (Send.split_lines s)),
     map (Send.collapse_from false) (snd (Send.split_lines s))).
Proof.
  revert i. induction s as [|c r IH]; intros i; [reflexivity|].
  cbn [Send.collapse_from Send.split_lines].
  destruct (Send.split_lines r) as [l ls] eqn:Hr. cbn [fst snd] in IH.
  destruct (Send.is_hspace c) eqn:Hh.
  - assert (Hl : bool_decide (c = Send.LF) = false).
    { destruct (bool_decide (c = Send.LF)) eqn:Hl; [|reflexivity].
      pose proof (is_LF_hspace c Hl). congruence. }
    rewrite Hl. cbn [fst snd Send.collapse_from]. rewrite Hh.
    destruct i.
    + apply IH.
    + cbn [Send.split_lines]. rewrite IH. reflexivity.
  - cbn [Send.split_lines]. rewrite IH.
    destruct (bool_decide (c = Send.LF)) eqn:Hl; cbn [fst snd map Send.collapse_from].
    + reflexivity.
    + rewrite Hh. reflexivity.
Qed.

Lemma punct_after_blanks_first_line (r : string) :
  Send.starts_with Send.is_punct
    (Send.drop_while Send.is_blank (fst (Send.split_lines r)))
  = Send.starts_with Send.is_punct (Send.drop_while Send.is_blank r).
Proof.
  induction r as [|c r IH]; [reflexivity|].
  cbn [Send.split_lines]. destruct (Send.split_lines r) as [l ls]. cbn [fst] in IH.
  destruct (bool_decide (c = Send.LF)) eqn:Hl; cbn [fst Send.drop_while].
  - apply bool_decide_eq_true in Hl. subst c. reflexivity.
  - destruct (Send.is_blank c); [exact IH|reflexivity].
Qed.

Lemma split_lines_tighten (s : string) :
  Send.split_lines (Send.tighten s)
  = (Send.tighten (fst (Send.split_lines s)),
     map Send.tighten (snd (Send.split_lines s))).
Proof.
  induction s as [|c r IH]; [reflexivity|].
  cbn [Send.tighten Send.split_lines].
  pose proof (punct_after_blanks_first_line r) as Hp.
  destruct (Send.split_lines r) as [l ls] eqn:Hr. cbn [fst snd] in IH, Hp.
  destruct (bool_decide (c = Send.LF)) eqn:Hl.
  - assert (Hb : Send.is_blank c = false).
    { apply bool_decide_eq_true in Hl. subst c. reflexivity. }
    rewrite Hb. cbn [andb Send.split_lines]. rewrite IH, Hl. reflexivity.
  - cbn [fst snd Send.tighten]. rewrite Hp.
    destruct (Send.is_blank c && _); [exact IH|].
    cbn [Send.split_lines]. rewrite IH, Hl. reflexivity.
Qed.

Lemma lines_split (s : string) :
  Send.lines s = fst (Send.split_lines s) :: snd (Send.split_lines s).
Proof. unfold Send.lines. destruct (Send.split_lines s). reflexivity. Qed.

Lemma tidy_linewise (s : string) :
  Send.tidy s
  = Send.join_lines
      (map (fun l => Send.trim_line (Send.tighten (Send.collapse_from false l)))
         (Send.lines s)).
Proof.
  unfold Send.tidy. f_equal.
  rewrite !lines_split, split_lines_tighten, split_lines_collapse.
  cbn [fst snd map]. rewrite !map_map. reflexivity.
Qed.

(** *** One line: the three passes give the words, spaced *)

Lemma is_hspace_not_blank (c : ascii) : Send.is_hspace c = false -> Send.is_blank c = false.
Proof.
  intros Hh. destruct (Send.is_blank c) eqn:Hb; [|reflexivity].
  rewrite (is_blank_hspace c Hb) in Hh. discriminate Hh.
Qed.

Lemma words_cons (c : ascii) (r : string) :
  Layout.words (String c r)
  = if Send.is_hspace c then Layout.words r
    else String c (fst (Layout.split_words r))
         :: List.filter Layout.nonempty (snd (Layout.split_words r)).
Proof.
  unfold Layout.words. cbn [Layout.split_words].
  destruct (Layout.split_words r) as [w ws]. cbn [fst snd].
  destruct (Send.is_hspace c); reflexivity.
Qed.

Lemma squeeze_cons (c : ascii) (r : string) :
  Layout.squeeze (String c r)
  = if Send.is_hspace c then Layout.squeeze r
    else String c (fst (Layout.split_words r)
                   +:+ Layout.concat_all
                         (map Layout.spaced
                            (List.filter Layout.nonempty (snd (Layout.split_words r))))).
Proof.
  unfold Layout.squeeze. rewrite words_cons.
  destruct (Send.is_hspace c); reflexivity.
Qed.

Lemma starts_with_nonempty_app (p : ascii -> bool) (w x : string) :
  Layout.nonempty w = true -> Send.starts_with p (w +:+ x) = Send.starts_with p w.
Proof. destruct w; [discriminate|reflexivity]. Qed.

Lemma words_nonempty (s : string) : Forall (fun w => Layout.nonempty w = true) (Layout.words s).
Proof.
  unfold Layout.words. apply Forall_forall. intros w Hw.
  apply list_elem_of_In, List.filter_In in Hw. apply Hw.
Qed.

(** The first character after a collapsed run is that of the first word. *)
Lemma collapse_head_word (p : ascii -> bool) (r : string) :
  (forall c, Send.is_hspace c = true -> p c = false) ->
  Send.starts_with p (Send.collapse_from true r)
  = Send.starts_with p (Layout.squeeze r).
Proof.
  intros Hp. induction r as [|c r IH]; [reflexivity|].
  rewrite squeeze_cons. cbn [Send.collapse_from].
  destruct (Send.is_hspace c) eqn:Hh; [exact IH|reflexivity].
Qed.

Lemma drop_blank_end_keep (c : ascii) (r : string) :
  Send.is_blank c = false ->
  Send.drop_blank_end (String c r) = String c (Send.drop_blank_end r).
Proof. intros Hb. cbn [Send.drop_blank_end]. rewrite Hb. reflexivity. Qed.

Lemma tighten_keep (c : ascii) (r : string) :
  Send.is_blank c = false -> Send.tighten (String c r) = String c (Send.tighten r).
Proof. intros Hb. cbn [Send.tighten]. rewrite Hb. reflexivity. Qed.

(** The line after the collapse and the tightening, without the blanks at
    its end: from inside a run of white space, and from outside of one. *)
Lemma passes_words (r : string) :
  Send.drop_blank_end (Send.tighten (Send.collapse_from true r)) = Layout.squeeze r
  /\ Send.drop_blank_end (Send.tighten (Send.collapse_from false r))
     = fst (Layout.split_words r)
       +:+ Layout.concat_all
             (map Layout.spaced
                (List.filter Layout.nonempty (snd (Layout.split_words r)))).
Proof.
  induction r as [|c r [IHt IHf]]; [split; reflexivity|].
  rewrite squeeze_cons. cbn [Send.collapse_from Layout.split_words].
  destruct (Send.is_hspace c) eqn:Hh.
  - split; [exact IHt|].
    destruct (Layout.split_words r) as [w ws] eqn:Hr. cbn [fst snd] in *.
    assert (Hw : List.filter Layout.nonempty (w :: ws) = Layout.words r)
      by (unfold Layout.words; rewrite Hr; reflexivity).
    rewrite Hw.
    cbn [Send.tighten].
    change (Send.is_blank " ") with true. cbn [andb].
    pose proof (collapse_run_head r) as Hhead.
    assert (Hblank : Send.starts_with Send.is_blank (Send.collapse_from true r) = false).
    { destruct (Send.collapse_from true r) as [|c' y]; [reflexivity|].
      cbn [Send.starts_with] in *. apply is_hspace_not_blank, Hhead. }
    rewrite (drop_while_idle _ _ Hblank).
    rewrite (collapse_head_word Send.is_punct r)
      by (intros c' Hc'; destruct (Send.is_punct c') eqn:Hp; [|reflexivity];
          unfold Send.is_punct in Hp; apply bool_decide_eq_true in Hp;
          repeat (apply elem_of_cons in Hp as [->|Hp]; [discriminate Hc'|]);
          apply elem_of_nil in Hp; destruct Hp).
    unfold Layout.squeeze in *.
    pose proof (words_nonempty r) as Hne.
    destruct (Layout.words r) as [|w1 rest].
    + cbn [Send.starts_with]. cbn [Send.drop_blank_end]. rewrite IHt. reflexivity.
    + apply Forall_cons in Hne as [Hw1 _]. cbn [map Layout.concat_all].
      rewrite (starts_with_nonempty_app _ _ _ Hw1). unfold Layout.spaced at 1.
      destruct (Send.starts_with Send.is_punct w1).
      * exact IHt.
      * cbn [Send.drop_blank_end]. rewrite IHt.
        destruct w1; [discriminate Hw1|]. reflexivity.
  - pose proof (is_hspace_not_blank c Hh) as Hb.
    destruct (Layout.split_words r) as [w ws] eqn:Hr. cbn [fst snd] in *.
    rewrite !(tighten_keep c _ Hb), !(drop_blank_end_keep c _ Hb), IHf.
    split; reflexivity.
Qed.

Lemma squeeze_passes (l : string) :
  Send.trim_line (Send.tighten (Send.collapse_from false l)) = Layout.squeeze l.
Proof.
  unfold Send.trim_line. destruct l as [|c r]; [reflexivity|].
  rewrite squeeze_cons. cbn [Send.collapse_from].
  destruct (Send.is_hspace c) eqn:Hh.
  - assert (Hblank : Send.starts_with Send.is_blank (Send.collapse_from true r) = false).
    { pose proof (collapse_run_head r) as Hhead.
      destruct (Send.collapse_from true r) as [|c' y]; [reflexivity|].
      cbn [Send.starts_with] in *. apply is_hspace_not_blank, Hhead. }
    assert (Htight : Send.starts_with Send.is_blank
                       (Send.tighten (Send.collapse_from true r)) = false).
    { destruct (Send.collapse_from true r) as [|c' y]; [reflexivity|].
      cbn [Send.starts_with] in Hblank. rewrite (tighten_keep c' y Hblank).
      exact Hblank. }
    cbn [Send.tighten]. change (Send.is_blank " ") with true. cbn [andb].
    destruct (Send.starts_with Send.is_punct _).
    + rewrite (drop_while_idle _ _ Htight). apply passes_words.
    + cbn [Send.drop_while]. change (Send.is_blank " ") with true. cbv iota.
      rewrite (drop_while_idle _ _ Htight). apply passes_words.
  - pose proof (is_hspace_not_blank c Hh) as Hb.
    rewrite (tighten_keep c _ Hb). cbn [Send.drop_while]. rewrite Hb.
    rewrite (drop_blank_end_keep c _ Hb). f_equal. apply passes_words.
Qed.

(** *** The final trim: the empty lines at the two ends *)

Lemma drop_space_end_app (a b : string) :
  drop_space_end (a +:+ b)
  = if is_empty_string (drop_space_end b) then drop_space_end a
    else a +:+ drop_space_end b.
Proof.
  induction a as [|c a IH].
  - change (drop_space_end b
            = if is_empty_string (drop_space_end b) then "" else drop_space_end b).
    destruct (drop_space_end b); reflexivity.
  - change (String c a +:+ b) with (String c (a +:+ b)).
    change (String c a +:+ drop_space_end b) with (String c (a +:+ drop_space_end b)).
    cbn [drop_space_end]. rewrite IH.
    destruct (is_empty_string (drop_space_end b)) eqn:Hb; [reflexivity|].
    destruct (a +:+ drop_space_end b) eqn:Hab.
    + destruct a; [|discriminate Hab].
      change (drop_space_end b = "") in Hab. rewrite Hab in Hb. discriminate Hb.
    + rewrite andb_false_r. reflexivity.
Qed.

Lemma drop_space_end_ink_word (w : string) :
  Send.all_chars (fun c => negb (is_space c)) w = true -> drop_space_end w = w.
Proof.
  induction w as [|c w IH]; [reflexivity|]. cbn [Send.all_chars drop_space_end].
  intros H. apply andb_prop in H as [Hc Hw]. apply negb_true_iff in Hc.
  rewrite Hc, (IH Hw). reflexivity.
Qed.

Lemma join_lines_empty (ls : list string) :
  Send.join_lines ls = "" -> ls = [] \/ ls = [""].
Proof.
  destruct ls as [|l [|l' ls]]; [left; reflexivity| |].
  - cbn. intros ->. right. reflexivity.
  - rewrite join_lines_more by discriminate. destruct l; discriminate.
Qed.

Lemma drop_empty_end_last (ls : list string) : Layout.drop_empty_end ls <> [""].
Proof.
  induction ls as [|l ls IH]; [discriminate|]. cbn [Layout.drop_empty_end].
  destruct (Layout.drop_empty_end ls) as [|l' rest] eqn:Hr.
  - destruct l; [discriminate|]. cbn. intros [=].
  - discriminate.
Qed.

Lemma trim_end_lines (ls : list string) :
  Forall Layout.tight ls ->
  drop_space_end (Send.join_lines ls) = Send.join_lines (Layout.drop_empty_end ls).
Proof.
  induction 1 as [|l ls [_ Hl] Hls IH]; [reflexivity|].
  cbn [Layout.drop_empty_end]. destruct ls as [|l2 rest].
  - cbn [Layout.drop_empty_end Send.join_lines]. rewrite Hl.
    destruct l; reflexivity.
  - rewrite join_lines_more by discriminate. rewrite drop_space_end_app.
    cbn [drop_space_end]. change (is_space Send.LF) with true. cbn [andb].
    rewrite IH.
    destruct (Layout.drop_empty_end (l2 :: rest)) as [|l' rest'] eqn:Hr.
    + cbn [Send.join_lines is_empty_string]. rewrite Hl. destruct l; reflexivity.
    + destruct (is_empty_string (Send.join_lines (l' :: rest'))) eqn:He.
      * exfalso. destruct (Send.join_lines (l' :: rest')) eqn:Hj; [|discriminate He].
        apply join_lines_empty in Hj as [Hj|Hj]; [discriminate Hj|].
        apply (drop_empty_end_last (l2 :: rest)). rewrite Hr. exact Hj.
      * cbn [is_empty_string]. symmetry. apply join_lines_more. discriminate.
Qed.

Lemma trim_start_lines (ls : list string) :
  Forall Layout.tight ls ->
  drop_space (Send.join_lines ls) = Send.join_lines (Layout.drop_empty_start ls).
Proof.
  induction 1 as [|l ls [Hl _] Hls IH]; [reflexivity|].
  cbn [Layout.drop_empty_start]. destruct l as [|c l].
  - cbn [is_empty_string]. destruct ls as [|l2 rest]; [reflexivity|].
    rewrite join_lines_more by discriminate.
    change ("" +:+ ?x) with x. cbn [drop_space].
    change (is_space Send.LF) with true. cbv iota. exact IH.
  - cbn [is_empty_string]. cbn [Send.starts_with] in Hl.
    destruct ls as [|l2 rest].
    + cbn [Send.join_lines drop_space]. rewrite Hl. reflexivity.
    + rewrite join_lines_more by discriminate.
      change (String c l +:+ ?x) with (String c (l +:+ x)).
      cbn [drop_space]. rewrite Hl. reflexivity.
Qed.

Lemma tight_drop_empty_start (ls : list string) :
  Forall Layout.tight ls -> Forall Layout.tight (Layout.drop_empty_start ls).
Proof.
  induction 1 as [|l ls Hl Hls IH]; [apply Forall_nil_2|].
  cbn [Layout.drop_empty_start]. destruct (is_empty_string l); [exact IH|].
  apply Forall_cons_2; assumption.
Qed.

Lemma trim_lines (ls : list string) :
  Forall Layout.tight ls ->
  trim (Send.join_lines ls)
  = Send.join_lines (Layout.drop_empty_end (Layout.drop_empty_start ls)).
Proof.
  intros Hls. unfold trim. rewrite (trim_start_lines ls Hls).
  apply trim_end_lines, tight_drop_empty_start, Hls.
Qed.

(** *** A squeezed line is Layout.tight *)

Lemma append_empty_r (s : string) : s +:+ "" = s.
Proof.
  induction s as [|c s IH]; [reflexivity|].
  change (String c s +:+ "") with (String c (s +:+ "")). rewrite IH. reflexivity.
Qed.

Lemma split_words_ink (l : string) :
  Layout.one_line l = true ->
  Layout.ink (fst (Layout.split_words l)) = true
  /\ Forall (fun w => Layout.ink w = true) (snd (Layout.split_words l)).
Proof.
  unfold Layout.one_line. induction l as [|c r IH]; [split; [reflexivity|apply Forall_nil_2]|].
  cbn [Send.all_chars Layout.split_words]. intros H.
  apply andb_prop in H as [Hc Hr]. apply negb_true_iff in Hc.
  destruct (IH Hr) as [Hw Hws].
  destruct (Layout.split_words r) as [w ws]. cbn [fst snd] in *.
  destruct (Send.is_hspace c) eqn:Hh; cbn [fst snd].
  - split; [reflexivity|]. apply Forall_cons_2; assumption.
  - split; [|exact Hws]. unfold Layout.ink in *. cbn [Send.all_chars]. rewrite Hw, andb_true_r.
    apply negb_true_iff. destruct (is_space c) eqn:Hs; [|reflexivity].
    rewrite (space_cases c Hs Hc) in Hh. discriminate Hh.
Qed.

Lemma words_ink (l : string) :
  Layout.one_line l = true ->
  Forall (fun w => Layout.ink w = true /\ Layout.nonempty w = true) (Layout.words l).
Proof.
  intros Hl. destruct (split_words_ink l Hl) as [Hw Hws].
  unfold Layout.words. apply Forall_forall. intros w Hin.
  apply list_elem_of_In, List.filter_In in Hin as [Hin Hne]. split; [|exact Hne].
  clear Hne. apply list_elem_of_In, elem_of_cons in Hin as [->|Hin]; [exact Hw|].
  revert w Hin. apply Forall_forall. exact Hws.
Qed.

Lemma drop_space_end_spaced (w : string) :
  Layout.ink w = true -> Layout.nonempty w = true ->
  drop_space_end (Layout.spaced w) = Layout.spaced w
  /\ Layout.nonempty (Layout.spaced w) = true.
Proof.
  intros Hw Hne. pose proof (drop_space_end_ink_word w Hw) as Hd.
  unfold Layout.spaced. destruct (Send.starts_with Send.is_punct w); [split; assumption|].
  split; [|reflexivity].
  change (String " " w) with (String " " "" +:+ w).
  rewrite drop_space_end_app, Hd.
  destruct w; [discriminate Hne|reflexivity].
Qed.

Lemma drop_space_end_spaced_words (ws : list string) :
  Forall (fun w => Layout.ink w = true /\ Layout.nonempty w = true) ws ->
  drop_space_end (Layout.concat_all (map Layout.spaced ws))
  = Layout.concat_all (map Layout.spaced ws).
Proof.
  induction 1 as [|w ws [Hw Hne] _ IH]; [reflexivity|].
  cbn [map Layout.concat_all]. rewrite drop_space_end_app, IH.
  destruct (drop_space_end_spaced w Hw Hne) as [Hd _].
  destruct (Layout.concat_all (map Layout.spaced ws)) eqn:Hy.
  - cbn [is_empty_string]. rewrite Hd, append_empty_r. reflexivity.
  - reflexivity.
Qed.

Lemma tight_squeeze (l : string) : Layout.one_line l = true -> Layout.tight (Layout.squeeze l).
Proof.
  intros Hl. pose proof (words_ink l Hl) as Hws. unfold Layout.squeeze.
  destruct (Layout.words l) as [|w rest]; [split; reflexivity|].
  apply Forall_cons in Hws as [[Hw Hne] Hrest]. split.
  - rewrite (starts_with_nonempty_app _ _ _ Hne).
    destruct w as [|c w]; [discriminate Hne|].
    unfold Layout.ink in Hw. cbn [Send.all_chars Send.starts_with] in *.
    apply andb_prop in Hw as [Hc _]. apply negb_true_iff, Hc.
  - rewrite drop_space_end_app, (drop_space_end_spaced_words rest Hrest).
    rewrite (drop_space_end_ink_word w Hw).
    destruct (Layout.concat_all (map Layout.spaced rest)); [|reflexivity].
    cbn [is_empty_string]. rewrite append_empty_r. reflexivity.
Qed.

Lemma lines_one_line (s : string) : Forall (fun l => Layout.one_line l = true) (Send.lines s).
Proof.
  induction s as [|c r IH]; [apply Forall_cons_2; [reflexivity|apply Forall_nil_2]|].
  rewrite lines_cons. destruct (Send.is_LF c) eqn:Hc.
  - apply Forall_cons_2; [reflexivity|exact IH].
  - destruct (Send.lines r) as [|l ls].
    + apply Forall_cons_2; [|apply Forall_nil_2]. unfold Layout.one_line. cbn. rewrite Hc. reflexivity.
    + apply Forall_cons in IH as [Hl Hls]. apply Forall_cons_2; [|exact Hls].
      unfold Layout.one_line in *. cbn [Send.all_chars]. rewrite Hc, Hl. reflexivity.
Qed.

(** The cleanup of the code is the cleanup as the specification words it. *)
Lemma cleanup_as_worded (s : string) : Send.cleanup s = Layout.cleanup s.
Proof.
  unfold Send.cleanup, Layout.cleanup. rewrite tidy_linewise.
  rewrite (map_ext _ Layout.squeeze squeeze_passes).
  apply trim_lines.
  pose proof (lines_one_line s) as Hls.
  induction Hls as [|l ls Hl _ IH]; [apply Forall_nil_2|].
  cbn [map]. apply Forall_cons_2; [apply tight_squeeze, Hl|exact IH].
Qed.

Example squeezed_line :
  Layout.squeeze (" Hi" +:+ String Send.TAB "  there , you  !  ") = "Hi there, you!".
Proof. vm_compute. reflexivity. Qed.

(** C8, amended.  The cleanup brings every run of horizontal white space to
    one space, leaves no space or tab before a punctuation mark, and takes
    the spaces and tabs from the two ends of every line; these passes keep
    every line break.  The final [trim] takes the line breaks at the two ends
    of the message: with horizontal white space set aside, the output is the
    text before cleanup without its leading and trailing line breaks.  So
    the output never has more newline characters than the text before
    cleanup, and it has as many when that text, horizontal white space
    aside, neither begins nor ends with a line break.  Taken together, for
    a text in ASCII, on which the white space of the model is that of
    JavaScript: the output is the text line by line, every line made of its
    words with one space between them and none before a word that begins
    with a punctuation mark, without the empty lines at the two ends. *)
Theorem cleanup_line_breaks (s : string) :
  Send.adjacent Send.is_hspace Send.is_hspace (Send.collapse_from false s) = false
  /\ Send.all_chars (fun c => implb (Send.is_hspace c) (Ascii.eqb c " "))
       (Send.collapse_from false s) = true
  /\ Send.adjacent Send.is_blank Send.is_punct (Send.tighten s) = false
  /\ Send.starts_with Send.is_blank (Send.trim_line s) = false
  /\ Send.ends_with Send.is_blank (Send.trim_line s) = false
  /\ Send.count_nl (Send.tidy s) = Send.count_nl s
  /\ Send.without_hspace (Send.cleanup s)
     = Send.drop_nl_end (Send.drop_while Send.is_LF (Send.without_hspace s))
  /\ (Send.count_nl (Send.cleanup s) <= Send.count_nl s)%nat
  /\ (Send.starts_with Send.is_LF (Send.without_hspace s) = false ->
      Send.ends_with Send.is_LF (Send.without_hspace s) = false ->
      Send.count_nl (Send.cleanup s) = Send.count_nl s)
  /\ (Xml.ascii_text s = true ->
      Send.tidy s = Send.join_lines (map Layout.squeeze (Send.lines s))
      /\ Send.cleanup s = Layout.cleanup s).
Proof.
  split; [apply collapse_single|]. split; [apply collapse_to_space|].
  split; [apply tighten_no_blank_before_punct|].
  split; [apply trim_line_ends|]. split; [apply trim_line_ends|].
  split.
  { rewrite <- (count_nl_without_hspace (Send.tidy s)), without_hspace_tidy.
    apply count_nl_without_hspace. }
  split; [apply without_hspace_cleanup|].
  split.
  { rewrite <- (count_nl_without_hspace (Send.cleanup s)), without_hspace_cleanup.
    rewrite <- (count_nl_without_hspace s).
    etransitivity; [apply count_nl_drop_nl_end|apply count_nl_drop_while]. }
  split.
  { intros Hfirst Hlast.
    rewrite <- (count_nl_without_hspace (Send.cleanup s)), without_hspace_cleanup.
    rewrite (drop_while_idle _ _ Hfirst), (drop_nl_end_idle _ Hlast).
    apply count_nl_without_hspace. }
  intros _. split; [|apply cleanup_as_worded].
  rewrite tidy_linewise. f_equal. apply map_ext, squeeze_passes.
Qed.

Lemma cleanup_line_breaks_witness :
  Send.cleanup ("Hi  there ," +:+ String Send.LF (String Send.LF " see you . "))
  = "Hi there," +:+ String Send.LF (String Send.LF "see you.").
Proof.
  exact (proj2 (proj2 (proj2 (proj2 (proj2 (proj2 (proj2 (proj2 (proj2 (proj2
           (cleanup_line_breaks
              ("Hi  there ," +:+ String Send.LF (String Send.LF " see you . "))
           ))))))))) eq_refl)).
Defined.

(** ** Synchronisation: mergeRecords_ *)

Lemma supplied_undef : Sync.supplied VUndef = false.
Proof. reflexivity. Qed.

(** What the loop of [mergeRecords_] has made of [merged] after the keys
    [ks]. *)
Lemma merge_keys_get (incoming : obj) (ks : list string) (merged : obj) (k : string) :
  get (foldl (Sync.merge_key incoming) merged ks) k
  = if bool_decide (k ∈ ks) && negb (bool_decide (k = "Join Date"))
       && Sync.supplied (get incoming k)
    then get incoming k else get merged k.
Proof.
  revert merged. induction ks as [|k0 ks IH]; intros merged; cbn [foldl].
  - rewrite bool_decide_false by apply not_elem_of_nil. reflexivity.
  - rewrite IH. clear IH. unfold Sync.merge_key.
    destruct (decide (k = k0)) as [->|Hne].
    + rewrite (bool_decide_true (k0 ∈ k0 :: ks)) by apply list_elem_of_here.
      destruct (bool_decide (k0 ∈ ks)), (bool_decide (k0 = "Join Date")),
        (Sync.supplied (get incoming k0)) eqn:Hs;
        simpl; rewrite ?Hs, ?get_set_eq; reflexivity.
    + assert (Hin : bool_decide (k ∈ k0 :: ks) = bool_decide (k ∈ ks)).
      { apply bool_decide_ext. rewrite elem_of_cons. tauto. }
      rewrite Hin.
      destruct (bool_decide (k0 = "Join Date")), (Sync.supplied (get incoming k0));
        rewrite ?get_set_ne by congruence; reflexivity.
Qed.

Lemma merge_keys_idle (incoming : obj) (ks : list string) (merged : obj) :
  (forall k, k ∈ ks -> Sync.supplied (get incoming k) = false) ->
  foldl (Sync.merge_key incoming) merged ks = merged.
Proof.
  revert merged. induction ks as [|k0 ks IH]; intros merged Hall; cbn [foldl];
    [reflexivity|].
  assert (Hk0 : Sync.merge_key incoming merged k0 = merged).
  { unfold Sync.merge_key. rewrite (Hall k0) by apply list_elem_of_here.
    destruct (bool_decide (k0 = "Join Date")); reflexivity. }
  rewrite Hk0. apply IH. intros k Hk. apply Hall, list_elem_of_further, Hk.
Qed.

Example merge_overwrites :
  Sync.mergeRecords_
    [("Join Date", VStr "1/2/2025"); ("Student Name", VStr "Ada"); ("Role", VStr "Member")]
    [("Join Date", VStr "9/9/2026"); ("Student Name", VStr ""); ("Role", VStr "Officer");
     ("Discord", VStr "ada#1")]
  = [("Join Date", VStr "1/2/2025"); ("Student Name", VStr "Ada"); ("Role", VStr "Officer");
     ("Discord", VStr "ada#1")].
Proof. reflexivity. Qed.

(** C4.  In the record [mergeRecords_] returns, a field other than the join
    date holds the incoming value when that value is supplied (it is not the
    empty string, [null] or [undefined]) and the existing value otherwise; the
    join date holds the existing record's value; and an incoming field set
    whose values are all empty gives the existing record back. *)
Theorem mergeRecords_fields (existing incoming : obj) :
  (forall k, k <> "Join Date" ->
     get (Sync.mergeRecords_ existing incoming) k
     = if Sync.supplied (get incoming k) then get incoming k else get existing k)
  /\ get (Sync.mergeRecords_ existing incoming) "Join Date" = get existing "Join Date"
  /\ ((forall k, Sync.supplied (get incoming k) = false) ->
      Sync.mergeRecords_ existing incoming = existing).
Proof.
  unfold Sync.mergeRecords_. split; [|split].
  - intros k Hk. rewrite merge_keys_get.
    rewrite (bool_decide_false (k = "Join Date")) by assumption.
    rewrite andb_true_r.
    destruct (decide (k ∈ keys incoming)) as [Hin|Hout].
    + rewrite bool_decide_true by assumption. reflexivity.
    + rewrite bool_decide_false by assumption.
      rewrite (get_outside_keys incoming k Hout). reflexivity.
  - rewrite merge_keys_get. rewrite (bool_decide_true ("Join Date" = "Join Date")) by reflexivity.
    rewrite andb_false_r. reflexivity.
  - intros Hall. apply merge_keys_idle. intros k _. apply Hall.
Qed.

Lemma mergeRecords_fields_witness :
  get (Sync.mergeRecords_ [("Role", VStr "Member")] [("Role", VStr "Officer")]) "Role"
  = VStr "Officer"
  /\ Sync.mergeRecords_ [("Role", VStr "Member")] [("Role", VStr ""); ("Email", VNull)]
     = [("Role", VStr "Member")].
Proof.
  split.
  - apply (proj1 (mergeRecords_fields [("Role", VStr "Member")] [("Role", VStr "Officer")])).
    discriminate.
  - apply (proj2 (proj2 (mergeRecords_fields [("Role", VStr "Member")]
                           [("Role", VStr ""); ("Email", VNull)]))).
    intros k. simpl. repeat case_bool_decide; reflexivity.
Defined.

(** ** Synchronisation: attendance *)

(** A text that is lower-cased and trimmed is not changed by trimming and
    lower-casing it once more. *)
Lemma scan_form_of_email (x : string) :
  toLowerCase (trim (trim (toLowerCase x))) = trim (toLowerCase x).
Proof.
  rewrite trim_idem, trim_toLowerCase, toLowerCase_idem. reflexivity.
Qed.

Lemma indexOf_from_lookup (x : string) (l : list string) (i j : nat) :
  Sync.indexOf_from x l i = Some j ->
  (i <= j)%nat /\ l !! (j - i)%nat = Some x.
Proof.
  revert i. induction l as [|y l IH]; intros i; simpl; [discriminate|].
  case_bool_decide as Hy.
  - intros [= <-]. subst y. rewrite Nat.sub_diag. split; [lia|reflexivity].
  - intros Hj. destruct (IH _ Hj) as [Hle Hl]. split; [lia|].
    replace (j - i)%nat with (S (j - S i)) by lia. exact Hl.
Qed.

Lemma indexOf_lookup (x : string) (l : list string) (j : nat) :
  Sync.indexOf x l = Some j -> l !! j = Some x.
Proof.
  intros Hj. destruct (indexOf_from_lookup x l 0 j Hj) as [_ Hl].
  rewrite Nat.sub_0_r in Hl. exact Hl.
Qed.

Lemma indexOf_bound (x : string) (l : list string) (j : nat) :
  Sync.indexOf x l = Some j -> (j < length l)%nat.
Proof. intros Hj. apply indexOf_lookup in Hj. eapply lookup_lt_Some, Hj. Qed.

Lemma indexOf_apart (a b : string) (l : list string) (i j : nat) :
  a <> b -> Sync.indexOf a l = Some i -> Sync.indexOf b l = Some j -> i <> j.
Proof.
  intros Hab Hi Hj ->. apply indexOf_lookup in Hi. apply indexOf_lookup in Hj.
  congruence.
Qed.

Lemma value_under_trimmed (o : obj) (ks : list string) (h v : string) :
  Sync.value_under o ks h = Some v -> trim v = v.
Proof.
  induction ks as [|key ks IH]; simpl; [discriminate|].
  destruct (bool_decide (toLowerCase (trim key) = toLowerCase (trim h))); [|exact IH].
  destruct (get o key) eqn:Hv; try exact IH;
    (destruct (negb (is_empty_string (trim _))); [|exact IH]);
    intros [= <-]; apply trim_idem.
Qed.

Lemma getValueByHeader_trimmed (o : obj) (hs : list string) :
  trim (Sync.getValueByHeader_ o hs) = Sync.getValueByHeader_ o hs.
Proof.
  induction hs as [|h hs IH]; simpl; [reflexivity|].
  destruct (Sync.value_under o (keys o) h) eqn:Hv; [|exact IH].
  eapply value_under_trimmed, Hv.
Qed.

(** A cell read in a test or a conversion is the same in a padded row. *)
Lemma cell_text_pad (n c : nat) (cells : row) :
  or_else (default VUndef (pad n blank cells !! c)) (VStr "")
  = or_else (default VUndef (cells !! c)) (VStr "").
Proof.
  unfold pad. destruct (decide (c < length cells)%nat) as [Hlt|Hge].
  - rewrite lookup_app_l by exact Hlt. reflexivity.
  - rewrite lookup_app_r by lia. rewrite (lookup_ge_None_2 cells c) by lia.
    destruct (replicate (n - length cells) blank !! (c - length cells)%nat) eqn:Hr.
    + apply lookup_replicate in Hr as [-> _]. reflexivity.
    + reflexivity.
Qed.

Lemma attendance_match_pad (a b n : nat) (e m : string) (cells : row) :
  Sync.attendance_match a b e m (pad n blank cells)
  = Sync.attendance_match a b e m cells.
Proof. unfold Sync.attendance_match. rewrite !cell_text_pad. reflexivity. Qed.

Lemma length_headersLC (sh : sheet) : sh <> [] -> length (Sync.headersLC sh) = width sh.
Proof.
  intros Hne. unfold Sync.headersLC. rewrite getValues_rows by exact Hne.
  destruct sh as [|hd tl]; [contradiction|]. simpl. rewrite length_map, length_pad.
  pose proof (width_bound (hd :: tl) hd (list_elem_of_here _ _)). lia.
Qed.

Lemma headersLC_app (sh : sheet) (r : row) :
  sh <> [] -> (length r <= width sh)%nat ->
  Sync.headersLC (sh ++ [r]) = Sync.headersLC sh.
Proof.
  intros Hne Hr. unfold Sync.headersLC.
  rewrite !getValues_rows by (try exact Hne; destruct sh; discriminate).
  rewrite width_app. replace (Nat.max (width sh) (length r)) with (width sh) by lia.
  destruct sh as [|hd tl]; [contradiction|]. reflexivity.
Qed.

Lemma attendance_row_email (a b : nat) (e m : string) :
  Sync.attendance_row a b e m !! b = Some (VStr m).
Proof.
  unfold Sync.attendance_row. apply list_lookup_insert_eq. rewrite length_pad. lia.
Qed.

Lemma attendance_row_event (a b : nat) (e m : string) :
  a <> b -> Sync.attendance_row a b e m !! a = Some (VStr e).
Proof.
  intros Hab. unfold Sync.attendance_row. rewrite list_lookup_insert_ne by congruence.
  unfold pad. rewrite lookup_app_l by (rewrite length_app, length_replicate; simpl; lia).
  rewrite lookup_app_r by (rewrite length_replicate; lia).
  rewrite length_replicate, Nat.sub_diag. reflexivity.
Qed.

Lemma length_attendance_row (a b : nat) (e m : string) :
  length (Sync.attendance_row a b e m) = Nat.max (S a) (S b).
Proof.
  unfold Sync.attendance_row. rewrite length_insert, length_pad, length_app, length_replicate.
  simpl. lia.
Qed.

Lemma attendance_match_new_row (a b : nat) (e m e' m' : string) :
  a <> b -> e <> "" -> m <> "" -> trim e = e -> toLowerCase (trim m) = m ->
  Sync.attendance_match a b e' m' (Sync.attendance_row a b e m)
  = bool_decide (e = e') && bool_decide (m = m').
Proof.
  intros Hab He Hm Hte Htm. unfold Sync.attendance_match.
  rewrite attendance_row_event by exact Hab. rewrite attendance_row_email.
  destruct e; [contradiction|]. destruct m; [contradiction|]. simpl default.
  unfold or_else. simpl truthy. cbv iota. simpl to_string.
  rewrite Hte, Htm. reflexivity.
Qed.

(** The identity email of a saved student, when it is text, is in the form
    the scan compares with. *)
Lemma campusEmailOf_form (student : obj) (m : string) :
  Sync.campusEmailOf student = Some m -> toLowerCase (trim m) = m.
Proof.
  unfold Sync.campusEmailOf. destruct (or_else _ _); try discriminate.
  intros [= <-]. apply scan_form_of_email.
Qed.

Lemma attendance_columns_rows (sh : sheet) (cols : nat * nat) :
  Sync.attendance_columns sh = Some cols -> sh <> [].
Proof. intros Hc ->. vm_compute in Hc. discriminate Hc. Qed.

(** The count and the scan, on the rows as they were written. *)
Lemma attendance_count_rows (sh : sheet) (a b : nat) (e m : string) :
  Sync.attendance_columns sh = Some (a, b) ->
  Sync.attendance_count sh e m
  = length (List.filter (Sync.attendance_match a b e m) (drop 1 sh)).
Proof.
  intros Hc. unfold Sync.attendance_count. rewrite Hc.
  rewrite getValues_rows by (eapply attendance_columns_rows, Hc).
  rewrite <- fmap_drop. apply filter_map_same. intros x. apply attendance_match_pad.
Qed.

(** *** A sheet with its two header columns *)

Section HeaderColumns.

Context (sh : sheet) (a b : nat).
Hypothesis Hcols : Sync.attendance_columns sh = Some (a, b).

Lemma hasAttendance_rows (e m : string) :
  e <> "" -> m <> "" ->
  Sync.hasAttendance_ sh e m = negb (Sync.attendance_count sh e m =? 0)%nat.
Proof.
  pose proof Hcols as Hc.
  intros He Hm. rewrite (attendance_count_rows sh a b) by exact Hc.
  pose proof (attendance_columns_rows sh _ Hc) as Hrows.
  unfold Sync.hasAttendance_. unfold Sync.attendance_columns in Hc.
  destruct e; [contradiction|]. destruct m; [contradiction|]. simpl.
  destruct (Sync.indexOf "event id" (Sync.headersLC sh)); [|discriminate].
  destruct (Sync.indexOf "campus email" (Sync.headersLC sh)); [|discriminate].
  injection Hc as -> ->.
  rewrite getValues_rows by exact Hrows.
  rewrite <- fmap_drop.
  rewrite existsb_map_same by (intros x; apply attendance_match_pad).
  apply existsb_filter_length.
Qed.

Lemma appendAttendanceRow_rows (e m : string) (student : obj) :
  Sync.campusEmailOf student = Some m -> e <> "" -> m <> "" ->
  Sync.appendAttendanceRow_ e student sh
  = Some (sh ++ [Sync.attendance_row a b e m]).
Proof.
  pose proof Hcols as Hc.
  intros Hs He Hm. unfold Sync.appendAttendanceRow_, Sync.attendance_columns in *.
  destruct (Sync.indexOf "event id" (Sync.headersLC sh)); [|discriminate].
  destruct (Sync.indexOf "campus email" (Sync.headersLC sh)); [|discriminate].
  injection Hc as -> ->.
  rewrite Hs. destruct e; [contradiction|]. destruct m; [contradiction|].
  simpl negb. cbv iota. unfold getLastRow.
  rewrite setValue_after_last, setValue_last_row. reflexivity.
Qed.

Lemma attendance_columns_app (e m : string) :
  Sync.attendance_columns (sh ++ [Sync.attendance_row a b e m])
  = Sync.attendance_columns sh.
Proof.
  pose proof Hcols as Hc. pose proof (attendance_columns_rows sh _ Hc) as Hne.
  unfold Sync.attendance_columns in *.
  destruct (Sync.indexOf "event id" (Sync.headersLC sh)) as [a'|] eqn:Ha; [|discriminate].
  destruct (Sync.indexOf "campus email" (Sync.headersLC sh)) as [b'|] eqn:Hb; [|discriminate].
  injection Hc as -> ->.
  pose proof (indexOf_bound _ _ _ Ha) as Ha'.
  pose proof (indexOf_bound _ _ _ Hb) as Hb'.
  rewrite length_headersLC in Ha', Hb' by exact Hne.
  rewrite headersLC_app; [rewrite Ha, Hb; reflexivity|exact Hne|].
  rewrite length_attendance_row. lia.
Qed.

Lemma attendance_columns_apart : a <> b.
Proof.
  pose proof Hcols as Hc. revert Hc. unfold Sync.attendance_columns.
  destruct (Sync.indexOf "event id" (Sync.headersLC sh)) as [a'|] eqn:Ha; [|discriminate].
  destruct (Sync.indexOf "campus email" (Sync.headersLC sh)) as [b'|] eqn:Hb; [|discriminate].
  intros [= -> ->]. eapply indexOf_apart; [|exact Ha|exact Hb]. discriminate.
Qed.

Lemma recordAttendance_step (row student : obj) (m : string) :
  Sync.campusEmailOf student = Some m ->
  let e := Sync.getValueByHeader_ row Sync.eventIdHeaders in
  exists sh',
    Sync.recordAttendance row student sh = Some sh'
    /\ Sync.attendance_columns sh' = Some (a, b)
    /\ forall e' m',
         Sync.attendance_count sh' e' m'
         = (Sync.attendance_count sh e' m'
            + if Sync.appends sh e m && bool_decide (e = e') && bool_decide (m = m')
              then 1 else 0)%nat.
Proof.
  pose proof Hcols as Hc. pose proof attendance_columns_apart as Hab.
  intros Hs e. unfold Sync.recordAttendance. fold e. rewrite Hs. unfold Sync.appends.
  destruct (is_empty_string e) eqn:Hee.
  { exists sh. simpl. repeat split; [exact Hc|]. intros. lia. }
  destruct (is_empty_string m) eqn:Hem.
  { exists sh. simpl. repeat split; [exact Hc|]. intros. lia. }
  assert (He : e <> "") by (intros Heq; rewrite Heq in Hee; discriminate).
  assert (Hm : m <> "") by (intros Heq; rewrite Heq in Hem; discriminate).
  rewrite (hasAttendance_rows e m He Hm). simpl negb. rewrite negb_involutive.
  simpl andb. destruct (Sync.attendance_count sh e m =? 0)%nat eqn:Hz.
  - rewrite (appendAttendanceRow_rows e m student Hs He Hm).
    eexists. split; [reflexivity|].
    assert (Hc' : Sync.attendance_columns (sh ++ [Sync.attendance_row a b e m]) = Some (a, b)).
    { rewrite attendance_columns_app. exact Hc. }
    split; [exact Hc'|]. intros e' m'.
    rewrite (attendance_count_rows _ a b e' m' Hc'), (attendance_count_rows _ a b e' m' Hc).
    pose proof (attendance_columns_rows sh _ Hc) as Hne.
    destruct sh as [|hd tl]; [contradiction|]. simpl drop. rewrite !drop_0.
    rewrite List.filter_app, length_app. f_equal. simpl List.filter.
    rewrite (attendance_match_new_row a b e m e' m').
    + destruct (bool_decide (e = e')), (bool_decide (m = m')); reflexivity.
    + exact Hab.
    + exact He.
    + exact Hm.
    + apply getValueByHeader_trimmed.
    + eapply campusEmailOf_form, Hs.
  - exists sh. simpl. repeat split; [exact Hc|]. intros. lia.
Qed.

Lemma recordAttendance_result (row student : obj) (m : string) :
  Sync.campusEmailOf student = Some m ->
  let e := Sync.getValueByHeader_ row Sync.eventIdHeaders in
  Sync.recordAttendance row student sh
  = Some (if Sync.appends sh e m then sh ++ [Sync.attendance_row a b e m] else sh).
Proof.
  intros Hs e. unfold Sync.recordAttendance. fold e. rewrite Hs. unfold Sync.appends.
  destruct (is_empty_string e) eqn:Hee; [reflexivity|].
  destruct (is_empty_string m) eqn:Hem; [reflexivity|].
  assert (He : e <> "") by (intros Heq; rewrite Heq in Hee; discriminate).
  assert (Hm : m <> "") by (intros Heq; rewrite Heq in Hem; discriminate).
  rewrite (hasAttendance_rows e m He Hm). simpl negb. rewrite negb_involutive.
  simpl andb. destruct (Sync.attendance_count sh e m =? 0)%nat; [|reflexivity].
  rewrite (appendAttendanceRow_rows e m student Hs He Hm).
  reflexivity.
Qed.

End HeaderColumns.

(** *** One submission, then many *)

Example attendance_once_in_sync :
  book (Sync.world_of (Sync.syncStudentDatabase accepting two_new_submissions))
    !! "Attendance"
  = Some [attendance_header; texts ["EVT-1"; "ada@gsu.edu"]].
Proof. vm_compute. reflexivity. Qed.

(** *** The facts of the attendance sheet *)

Lemma email_of_campusEmailOf (student : obj) :
  is_Some (Sync.campusEmailOf student) ->
  Sync.campusEmailOf student = Some (Attendance.email_of student).
Proof.
  unfold Sync.campusEmailOf, Attendance.email_of, or_else.
  destruct (get student "Campus Email") as [| |[]|z|s|d]; cbn;
    try (intros [? [=]]; fail); try reflexivity.
  - destruct (_ : bool); [intros [? [=]]|reflexivity].
  - destruct (is_empty_string s) eqn:Hs; cbn; [|reflexivity].
    destruct s; [reflexivity|discriminate Hs].
Qed.

Lemma filter_none {A} (f : A -> bool) (l : list A) :
  length (List.filter f l) = 0%nat <-> forall x, x ∈ l -> f x = false.
Proof.
  induction l as [|y l IH]; simpl.
  - split; [intros _ x Hx; apply elem_of_nil in Hx; destruct Hx|reflexivity].
  - destruct (f y) eqn:Hy; simpl.
    + split; [discriminate|]. intros H. specialize (H y (list_elem_of_here _ _)). congruence.
    + rewrite IH. split.
      * intros H x Hx. apply elem_of_cons in Hx as [->|Hx]; [exact Hy|apply H, Hx].
      * intros H x Hx. apply H. apply list_elem_of_further, Hx.
Qed.

Lemma attendance_match_fact (a b : nat) (e m : string) (cells : row) :
  Sync.attendance_match a b e m cells
  = bool_decide (Attendance.fact_of a b cells = (e, m)).
Proof.
  unfold Sync.attendance_match, Attendance.fact_of.
  repeat case_bool_decide; simpl; try reflexivity; congruence.
Qed.

Lemma fact_of_pad (a b n : nat) (cells : row) :
  Attendance.fact_of a b (pad n blank cells) = Attendance.fact_of a b cells.
Proof. unfold Attendance.fact_of. rewrite !cell_text_pad. reflexivity. Qed.

Lemma facts_rows (sh : sheet) (a b : nat) :
  Sync.attendance_columns sh = Some (a, b) ->
  Attendance.facts sh = map (Attendance.fact_of a b) (drop 1 sh).
Proof.
  intros Hc. unfold Attendance.facts. rewrite Hc.
  rewrite getValues_rows by (eapply attendance_columns_rows, Hc).
  change (map ?f sh) with (f <$> sh). rewrite <- fmap_drop.
  change (?f <$> ?l) with (map f l). rewrite map_map.
  apply map_ext. intros cells. apply fact_of_pad.
Qed.

Lemma attendance_count_facts (sh : sheet) (a b : nat) (e m : string) :
  Sync.attendance_columns sh = Some (a, b) ->
  (Sync.attendance_count sh e m =? 0)%nat
  = negb (bool_decide ((e, m) ∈ Attendance.facts sh)).
Proof.
  intros Hc. rewrite (attendance_count_rows sh a b e m Hc), (facts_rows sh a b Hc).
  assert (Hiff : length (List.filter (Sync.attendance_match a b e m) (drop 1 sh)) = 0%nat
                 <-> (e, m) ∉ map (Attendance.fact_of a b) (drop 1 sh)).
  { rewrite filter_none. split.
    - intros Hall Hin. apply list_elem_of_fmap in Hin as (cells & Hp & Hcells).
      specialize (Hall cells Hcells). rewrite attendance_match_fact in Hall.
      apply bool_decide_eq_false in Hall. congruence.
    - intros Hnot cells Hcells. rewrite attendance_match_fact.
      apply bool_decide_eq_false. intros Hp. apply Hnot.
      apply list_elem_of_fmap. exists cells. split; [congruence|exact Hcells]. }
  destruct (length _ =? 0)%nat eqn:Hz.
  - apply Nat.eqb_eq in Hz. symmetry. apply negb_true_iff, bool_decide_eq_false.
    apply Hiff, Hz.
  - apply Nat.eqb_neq in Hz. symmetry. apply negb_false_iff, bool_decide_eq_true.
    destruct (decide ((e, m) ∈ map (Attendance.fact_of a b) (drop 1 sh))) as [Hin|Hnot];
      [exact Hin|]. destruct Hz. apply Hiff, Hnot.
Qed.

Lemma fact_of_attendance_row (a b : nat) (e m : string) :
  a <> b -> e <> "" -> m <> "" -> trim e = e -> toLowerCase (trim m) = m ->
  Attendance.fact_of a b (Sync.attendance_row a b e m) = (e, m).
Proof.
  intros Hab He Hm Hte Htm. unfold Attendance.fact_of.
  rewrite (attendance_row_event a b e m Hab), (attendance_row_email a b e m).
  cbn [default].
  assert (Htext : forall s, s <> "" -> or_else (VStr s) (VStr "") = VStr s).
  { intros [|c s] Hs; [contradiction|reflexivity]. }
  unfold id. rewrite !Htext by assumption. cbn [to_string]. rewrite Hte, Htm. reflexivity.
Qed.

Lemma facts_app (sh : sheet) (a b : nat) (e m : string) :
  Sync.attendance_columns sh = Some (a, b) ->
  e <> "" -> m <> "" -> trim e = e -> toLowerCase (trim m) = m ->
  Attendance.facts (sh ++ [Sync.attendance_row a b e m]) = Attendance.facts sh ++ [(e, m)].
Proof.
  intros Hc He Hm Hte Htm.
  assert (Hc' : Sync.attendance_columns (sh ++ [Sync.attendance_row a b e m]) = Some (a, b)).
  { rewrite (attendance_columns_app sh a b Hc). exact Hc. }
  rewrite (facts_rows _ a b Hc'), (facts_rows _ a b Hc).
  pose proof (attendance_columns_rows sh _ Hc) as Hne.
  destruct sh as [|hd tl]; [contradiction|]. cbn [drop app]. rewrite !drop_0.
  rewrite map_app. cbn [map].
  rewrite fact_of_attendance_row by (try assumption; eapply attendance_columns_apart, Hc).
  reflexivity.
Qed.

(** One attendance block, on the facts. *)
Lemma recordAttendance_fact (sh : sheet) (a b : nat) (sub : obj * obj) :
  Sync.attendance_columns sh = Some (a, b) ->
  is_Some (Sync.campusEmailOf sub.2) ->
  let p := Attendance.pair_of sub in
  Sync.recordAttendance sub.1 sub.2 sh
  = Some (if Attendance.proper p && negb (bool_decide (p ∈ Attendance.facts sh))
          then sh ++ [Sync.attendance_row a b p.1 p.2] else sh).
Proof.
  intros Hc Hs p. destruct sub as [row student]. cbn [fst snd] in *.
  pose proof (email_of_campusEmailOf student Hs) as Hm.
  rewrite (recordAttendance_result sh a b Hc row student _ Hm). cbv zeta.
  unfold Sync.appends. rewrite (attendance_count_facts sh a b _ _ Hc).
  reflexivity.
Qed.

Lemma recordAll_facts (subs : list (obj * obj)) (sh : sheet) (a b : nat) :
  Sync.attendance_columns sh = Some (a, b) ->
  Forall (fun sub => is_Some (Sync.campusEmailOf sub.2)) subs ->
  let new := Attendance.once_each (Attendance.facts sh) (Attendance.pair_of <$> subs) in
  Sync.recordAll subs sh = Some (sh ++ Attendance.rows_of a b new)
  /\ Attendance.facts (sh ++ Attendance.rows_of a b new) = Attendance.facts sh ++ new.
Proof.
  intros Hc Htext. revert sh Hc.
  induction Htext as [|sub subs Hs Htext IH]; intros sh Hc.
  - cbn. rewrite !app_nil_r. split; reflexivity.
  - cbn [Sync.recordAll fmap list_fmap Attendance.once_each].
    destruct sub as [row student].
    pose proof (recordAttendance_fact sh a b (row, student) Hc Hs) as Hstep.
    cbv zeta in Hstep. cbn [fst snd] in Hstep. rewrite Hstep.
    set (p := Attendance.pair_of (row, student)) in *.
    destruct (Attendance.proper p && negb (bool_decide (p ∈ Attendance.facts sh))) eqn:Hnew.
    + apply andb_prop in Hnew as [Hproper _].
      apply andb_prop in Hproper as [He Hm].
      assert (He' : p.1 <> "") by (intros H; rewrite H in He; discriminate He).
      assert (Hm' : p.2 <> "") by (intros H; rewrite H in Hm; discriminate Hm).
      assert (Hte : trim p.1 = p.1) by apply getValueByHeader_trimmed.
      assert (Htm : toLowerCase (trim p.2) = p.2).
      { eapply campusEmailOf_form. apply email_of_campusEmailOf. exact Hs. }
      pose proof (facts_app sh a b p.1 p.2 Hc He' Hm' Hte Htm) as Hfacts.
      replace (p.1, p.2) with p in Hfacts by (destruct p; reflexivity).
      assert (Hc1 : Sync.attendance_columns (sh ++ [Sync.attendance_row a b p.1 p.2])
                    = Some (a, b)).
      { rewrite (attendance_columns_app sh a b Hc). exact Hc. }
      destruct (IH _ Hc1) as [Hall Hf]. rewrite Hfacts in Hall, Hf.
      unfold Attendance.rows_of in *. cbn [map].
      rewrite <- !app_assoc in Hall, Hf. cbn [app] in Hall, Hf.
      split; [exact Hall|]. rewrite Hf, <- app_assoc. reflexivity.
    + apply (IH sh Hc).
Qed.

(** The pairs recorded once each, as lists. *)
Lemma once_each_sound (known ps : list (string * string)) (p : string * string) :
  p ∈ Attendance.once_each known ps ->
  Attendance.proper p = true /\ p ∈ ps /\ p ∉ known.
Proof.
  revert known. induction ps as [|q ps IH]; intros known; cbn [Attendance.once_each].
  - intros H. apply elem_of_nil in H. destruct H.
  - destruct (Attendance.proper q && negb (bool_decide (q ∈ known))) eqn:Hq.
    + apply andb_prop in Hq as [Hproper Hnot].
      apply negb_true_iff, bool_decide_eq_false in Hnot.
      intros Hin. apply elem_of_cons in Hin as [->|Hin].
      * split; [exact Hproper|]. split; [apply list_elem_of_here|exact Hnot].
      * destruct (IH _ Hin) as (Hp & Hps & Hk). split; [exact Hp|].
        split; [apply list_elem_of_further, Hps|].
        intros Hkn. apply Hk. apply elem_of_app. left. exact Hkn.
    + intros Hin. destruct (IH _ Hin) as (Hp & Hps & Hk).
      split; [exact Hp|]. split; [apply list_elem_of_further, Hps|exact Hk].
Qed.

Lemma once_each_NoDup (known ps : list (string * string)) :
  NoDup (Attendance.once_each known ps).
Proof.
  revert known. induction ps as [|q ps IH]; intros known; cbn [Attendance.once_each].
  - apply NoDup_nil_2.
  - destruct (Attendance.proper q && negb (bool_decide (q ∈ known))); [|apply IH].
    apply NoDup_cons_2; [|apply IH].
    intros Hin. apply once_each_sound in Hin as (_ & _ & Hk).
    apply Hk. apply elem_of_app. right. apply list_elem_of_here.
Qed.

Lemma once_each_complete (known ps : list (string * string)) (p : string * string) :
  p ∈ ps -> Attendance.proper p = true ->
  p ∈ known ++ Attendance.once_each known ps.
Proof.
  revert known. induction ps as [|q ps IH]; intros known Hin Hp.
  - apply elem_of_nil in Hin. destruct Hin.
  - cbn [Attendance.once_each].
    destruct (Attendance.proper q && negb (bool_decide (q ∈ known))) eqn:Hq.
    + apply elem_of_cons in Hin as [->|Hin].
      * apply elem_of_app. right. apply list_elem_of_here.
      * specialize (IH (known ++ [q]) Hin Hp). rewrite <- app_assoc in IH. exact IH.
    + apply elem_of_cons in Hin as [->|Hin]; [|apply (IH known Hin Hp)].
      rewrite Hp in Hq. cbn in Hq. apply negb_false_iff, bool_decide_eq_true in Hq.
      apply elem_of_app. left. exact Hq.
Qed.

Lemma times_app (p : string * string) (l k : list (string * string)) :
  Attendance.times p (l ++ k) = (Attendance.times p l + Attendance.times p k)%nat.
Proof. unfold Attendance.times. rewrite List.filter_app, length_app. reflexivity. Qed.

Lemma times_none (p : string * string) (l : list (string * string)) :
  p ∉ l -> Attendance.times p l = 0%nat.
Proof.
  intros Hnot. apply filter_none. intros q Hq. apply bool_decide_eq_false.
  intros ->. exact (Hnot Hq).
Qed.

Lemma times_some (p : string * string) (l : list (string * string)) :
  p ∈ l -> (1 <= Attendance.times p l)%nat.
Proof.
  intros Hin. destruct (Attendance.times p l) eqn:Ht; [|lia].
  apply filter_none with (x := p) in Ht; [|exact Hin].
  apply bool_decide_eq_false in Ht. congruence.
Qed.

Lemma times_NoDup (p : string * string) (l : list (string * string)) :
  NoDup l -> (Attendance.times p l <= 1)%nat.
Proof.
  induction 1 as [|q l Hq Hnd IH]; [cbn; lia|].
  unfold Attendance.times in *. cbn [List.filter]. case_bool_decide as Hqp.
  - subst q. cbn [length]. fold (Attendance.times p l). rewrite (times_none p l Hq). lia.
  - exact IH.
Qed.

Lemma times_once_each (known ps : list (string * string)) (p : string * string) :
  (Attendance.times p known <= 1)%nat ->
  (Attendance.times p (known ++ Attendance.once_each known ps) <= 1)%nat.
Proof.
  intros Hk. rewrite times_app.
  pose proof (times_NoDup p _ (once_each_NoDup known ps)) as Hn.
  destruct (decide (p ∈ Attendance.once_each known ps)) as [Hin|Hnot].
  - apply once_each_sound in Hin as (_ & _ & Hnk). rewrite (times_none p known Hnk). lia.
  - rewrite (times_none p _ Hnot). lia.
Qed.

(** C5, as the claim states it, fails: the identity key of a student who
    gives a phone number and no campus email is the phone number, and the
    attendance block records a fact only under a campus email.  Two
    submissions of such a student for one event are both processed, and the
    attendance sheet has no fact for them. *)
Lemma no_fact_without_campus_email :
  let responses :=
    Sync.rows (Sync.readSheetAsObjects_
                 (default [] (getSheetByName two_submissions_by_phone
                                "Raw Attendance Data"))) in
  let w' := Sync.world_of (Sync.syncStudentDatabase accepting two_submissions_by_phone) in
  map (fun row => Sync.getValueByHeader_ row Sync.eventIdHeaders) responses
  = ["EVT-1"; "EVT-1"]
  /\ map (fun row =>
            let incoming := Sync.incoming_by_aliases row in
            (Sync.inferMatchKey_ incoming Sync.matchKeys,
             Sync.firstNonEmpty_ [get incoming "Campus Email"; get incoming "Email";
                                  get incoming "Phone #"])) responses
     = [(Some "Phone #", VStr "4045550100"); (Some "Phone #", VStr "4045550100")]
  /\ map (fun o => get o "Campus Email") (Sync.roster w') = [VStr ""; VStr ""]
  /\ Attendance.facts <$> getSheetByName w' Sync.attendanceSheetName = Some [].
Proof. vm_compute. repeat split. Qed.

(** C5, amended.  On an attendance sheet that has its two header columns,
    a sequence of processed submissions adds to the sheet one row for every
    pair of an event id and a campus email that is submitted with both parts
    and is no fact yet, in the order of the submissions, and nothing else:
    the scan compares the event id as written and the email without regard
    to letter case.  So a pair that was a fact at most once is a fact at
    most once afterwards, and a pair submitted with both parts, once or
    several times, is a fact exactly once; a submission without an event id,
    or for a student without a campus email, adds no fact.  A submission is
    processed when the campus email of its saved student is text or absent:
    on any other value the block raises a TypeError and the pass stops.  The
    statement is made for a sheet and submissions in ASCII text, on which
    the comparisons of the model are those of JavaScript. *)
Theorem attendance_at_most_once (subs : list (obj * obj)) (sh : sheet) (a b : nat) :
  Sync.attendance_columns sh = Some (a, b) ->
  Forall (fun sub => is_Some (Sync.campusEmailOf sub.2)) subs ->
  Attendance.ascii_sheet sh = true ->
  Forall (fun sub => Attendance.ascii_obj sub.1 && Attendance.ascii_obj sub.2 = true)
    subs ->
  let new := Attendance.once_each (Attendance.facts sh) (Attendance.pair_of <$> subs) in
  let sh' := sh ++ Attendance.rows_of a b new in
  Sync.recordAll subs sh = Some sh'
  /\ Attendance.facts sh' = Attendance.facts sh ++ new
  /\ (forall p, (Attendance.times p (Attendance.facts sh) <= 1)%nat ->
                (Attendance.times p (Attendance.facts sh') <= 1)%nat)
  /\ (forall sub,
        sub ∈ subs -> Attendance.proper (Attendance.pair_of sub) = true ->
        (Attendance.times (Attendance.pair_of sub) (Attendance.facts sh) <= 1)%nat ->
        Attendance.times (Attendance.pair_of sub) (Attendance.facts sh') = 1%nat)
  /\ (forall p, p ∈ new ->
                Attendance.proper p = true /\ p ∈ Attendance.pair_of <$> subs
                /\ p ∉ Attendance.facts sh)
  /\ (forall sub,
        sub ∈ subs -> Attendance.proper (Attendance.pair_of sub) = false ->
        Attendance.pair_of sub ∉ new).
Proof.
  intros Hc Htext _ _ new sh'.
  destruct (recordAll_facts subs sh a b Hc Htext) as [Hall Hfacts].
  fold new in Hall, Hfacts. fold sh' in Hall, Hfacts.
  split; [exact Hall|]. split; [exact Hfacts|]. rewrite Hfacts. split.
  { intros p Hp. apply times_once_each, Hp. }
  split.
  { intros sub Hin Hproper Hp.
    pose proof (times_once_each _ (Attendance.pair_of <$> subs) _ Hp) as Hle.
    fold new in Hle.
    assert (Hmem : Attendance.pair_of sub ∈ Attendance.facts sh ++ new).
    { apply once_each_complete; [|exact Hproper].
      apply list_elem_of_fmap. exists sub. split; [reflexivity|exact Hin]. }
    pose proof (times_some _ _ Hmem). lia. }
  split.
  { intros p Hp. apply once_each_sound, Hp. }
  intros sub _ Himproper Hin. apply once_each_sound in Hin as (Hproper & _).
  congruence.
Qed.

(** Two submissions of one student for one event leave one row. *)
Lemma attendance_at_most_once_witness :
  Sync.recordAll [(ada_first_obj, ada_saved); (ada_second_obj, ada_saved)]
    [attendance_header]
  = Some [attendance_header; texts ["EVT-1"; "ada@gsu.edu"]].
Proof.
  refine (proj1 (attendance_at_most_once
                   [(ada_first_obj, ada_saved); (ada_second_obj, ada_saved)]
                   [attendance_header] 0 1 eq_refl _ eq_refl _)).
  - repeat (apply Forall_cons_2; [exists "ada@gsu.edu"; reflexivity|]).
    apply Forall_nil_2.
  - repeat (apply Forall_cons_2; [reflexivity|]). apply Forall_nil_2.
Defined.

(** ** Synchronisation: the index of the roster *)

(** Both submissions resolve to the same identity key. *)
Example same_identity_key :
  Sync.makeIndexKey_ "Campus Email"
    (get (Sync.incoming_by_aliases ada_first_obj) "Campus Email")
  = Sync.makeIndexKey_ "Campus Email"
      (get (Sync.incoming_by_aliases ada_second_obj) "Campus Email")
  /\ Sync.inferMatchKey_ (Sync.incoming_by_aliases ada_first_obj) Sync.matchKeys
     = Some "Campus Email"
  /\ Sync.inferMatchKey_ (Sync.incoming_by_aliases ada_second_obj) Sync.matchKeys
     = Some "Campus Email".
Proof. vm_compute. repeat split. Qed.

(** Processed in two passes, the second submission updates the record the
    first has created, and one welcome message goes out. *)
Example join_date_of_today :
  Sync.formatDate "Mon Nov 02 2026 09:10:00" = "11/2/2026".
Proof. reflexivity. Qed.

Example two_passes_one_record :
  let w1 := Sync.world_of (Sync.syncStudentDatabase accepting one_new_submission) in
  let w2 := Sync.world_of (Sync.syncStudentDatabase accepting (submit ada_second w1)) in
  map (fun o => get o "Campus Email") (Sync.roster w2) = [VStr "ada@gsu.edu"]
  /\ length (outbox w2) = 1%nat.
Proof. vm_compute. repeat split. Qed.

(** C1.  The code breaks the claim: the index of the roster is built once,
    before the loop, and a record the pass inserts is not entered in it.  Two
    submissions with the same identity key that wait in the same pass are
    both looked up in the index of the roster as it was, both are not found,
    and both are inserted, in the alias-list draft and in the field-map
    draft. *)
Theorem same_identity_inserted_twice :
  let w' := Sync.world_of (Sync.syncStudentDatabase accepting two_new_submissions) in
  let w'' :=
    Sync.world_of (Sync.syncStudentDatabase_fieldMap accepting two_new_submissions) in
  Sync.roster two_new_submissions = []
  /\ map (fun o => get o "Campus Email") (Sync.roster w')
     = [VStr "ada@gsu.edu"; VStr "ada@gsu.edu"]
  /\ map (fun o => get o "Campus Email") (Sync.roster w'')
     = [VStr "ada@gsu.edu"; VStr "ada@gsu.edu"].
Proof. vm_compute. repeat split. Qed.

(** C6.  The code breaks the claim: the previous opt-in value is read from the
    record in the index, which keeps the value the roster had before the
    pass.  Two affirmative submissions for a student whose opt-in was [?],
    waiting in the same pass, both find [?], and the welcome message goes out
    twice while the roster keeps its one record. *)
Theorem welcome_sent_twice_in_one_pass :
  let w' :=
    Sync.world_of (Sync.syncStudentDatabase accepting two_submissions_known_student) in
  map (fun o => get o "SMS Opt-In") (Sync.roster two_submissions_known_student)
  = [VStr "?"]
  /\ map (fun o => get o "SMS Opt-In") (Sync.roster w') = [VStr "Yes"]
  /\ outbox w'
     = [("+18162379012", Sync.welcome_text); ("+18162379012", Sync.welcome_text)].
Proof. vm_compute. repeat split. Qed.

(* ===================================================================== *)
(** * Further properties of the code                                      *)
(* ===================================================================== *)

(** ** Phone numbers: sms.js, smsInbound.js and the synchronisation script *)

Lemma all_chars_sfilter (p : ascii -> bool) (s : string) :
  Send.all_chars p (sfilter p s) = true.
Proof.
  induction s as [|c r IH]; [reflexivity|]. simpl.
  destruct (p c) eqn:Hc; [simpl; rewrite Hc; exact IH|exact IH].
Qed.

Lemma sfilter_all_chars (p : ascii -> bool) (s : string) :
  Send.all_chars p s = true -> sfilter p s = s.
Proof.
  induction s as [|c r IH]; [reflexivity|]. simpl.
  intros H. apply andb_prop in H as [Hc Hr]. rewrite Hc, (IH Hr). reflexivity.
Qed.

Lemma digits_only_idem (s : string) : digits_only (digits_only s) = digits_only s.
Proof. apply sfilter_all_chars, all_chars_sfilter. Qed.

Lemma startsWith_one (d : string) : startsWith "1" (String "1" d) = true.
Proof. reflexivity. Qed.

Lemma all_chars_slice1 (p : ascii -> bool) (s : string) :
  Send.all_chars p s = true -> Send.all_chars p (slice1 s) = true.
Proof.
  destruct s as [|c r]; [reflexivity|]. simpl. intros H.
  apply andb_prop in H as [_ H]. exact H.
Qed.

(** The digits both [toE164_] and [normalizePhoneDigits_] start from. *)
Lemma or_else_text_truthy (s : string) :
  s <> "" -> or_else (VStr s) (VStr "") = VStr s.
Proof. destruct s; [contradiction|reflexivity]. Qed.

Lemma normalizePhoneDigits_plus (d : string) :
  digits_only d = d ->
  Inbound.normalizePhoneDigits_ (VStr ("+" +:+ d))
  = if (String.length d =? 11)%nat && startsWith "1" d then slice1 d else d.
Proof.
  intros Hd. unfold Inbound.normalizePhoneDigits_.
  change (to_string (or_else (VStr ("+" +:+ d)) (VStr ""))) with (String "+" d).
  change (digits_only (String "+" d)) with (digits_only d).
  rewrite Hd. reflexivity.
Qed.

(** X1.  A phone value whose normalised digits are ten long is dialed as
    [+1] and those ten digits, and the number dialed normalises back to
    them: the sender number of a reply is matched with the roster row the
    message went to. *)
Theorem dialed_number_normalises_back (v : value) :
  String.length (Inbound.normalizePhoneDigits_ v) = 10%nat ->
  Sms.toE164_ v = "+1" +:+ Inbound.normalizePhoneDigits_ v
  /\ Inbound.normalizePhoneDigits_ (VStr (Sms.toE164_ v))
     = Inbound.normalizePhoneDigits_ v.
Proof.
  unfold Inbound.normalizePhoneDigits_ at 1 2 4, Sms.toE164_.
  set (D := digits_only (to_string (or_else v (VStr "")))).
  assert (HD : digits_only D = D) by apply digits_only_idem.
  destruct ((String.length D =? 11)%nat && startsWith "1" D) eqn:Hlong.
  - apply andb_prop in Hlong as [Hlen Hone]. apply Nat.eqb_eq in Hlen.
    apply prefix_one in Hone as [r Hr]. clearbody D. subst D. cbn [slice1].
    intros Hten.
    rewrite Hlen. cbn [Nat.eqb].
    change (startsWith "1" (String "1" r)) with true. cbn [negb].
    split; [reflexivity|].
    rewrite normalizePhoneDigits_plus by exact HD.
    rewrite Hlen. reflexivity.
  - intros Hten. rewrite Hten. cbn [Nat.eqb].
    change (startsWith "1" ("1" +:+ D)) with true. cbn [negb].
    split; [reflexivity|].
    change ("+" +:+ ("1" +:+ D)) with ("+" +:+ String "1" D).
    rewrite normalizePhoneDigits_plus
      by (change (digits_only (String "1" D)) with (String "1" (digits_only D));
          rewrite HD; reflexivity).
    cbn [String.length]. rewrite Hten. reflexivity.
Qed.

Lemma dialed_number_normalises_back_witness :
  Sms.toE164_ (VStr "(816) 237-9012") = "+18162379012"
  /\ Inbound.normalizePhoneDigits_ (VStr (Sms.toE164_ (VStr "(816) 237-9012")))
     = "8162379012".
Proof. apply (dialed_number_normalises_back (VStr "(816) 237-9012")). reflexivity. Defined.

Lemma to_string_or_else_text (s : string) :
  to_string (or_else (VStr s) (VStr "")) = s.
Proof. destruct s; reflexivity. Qed.

Lemma all_chars_normalizePhoneDigits_ (v : value) :
  Send.all_chars is_digit (Inbound.normalizePhoneDigits_ v) = true.
Proof.
  unfold Inbound.normalizePhoneDigits_.
  destruct (_ && _); [apply all_chars_slice1|]; apply all_chars_sfilter.
Qed.

(** X2.  The normalised form of a phone value holds digits only and is not
    changed by normalising it again; the synchronisation script stores a
    submitted phone number in this form, so the roster holds what the
    inbound handler compares. *)
Theorem normalizePhoneDigits_normal_form (v : value) :
  Send.all_chars is_digit (Inbound.normalizePhoneDigits_ v) = true
  /\ Inbound.normalizePhoneDigits_ (VStr (Inbound.normalizePhoneDigits_ v))
     = Inbound.normalizePhoneDigits_ v
  /\ Sync.normalizeFieldValue_ "Phone #" v
     = VStr (if truthy v then Inbound.normalizePhoneDigits_ v else "").
Proof.
  split; [apply all_chars_normalizePhoneDigits_|]. split.
  - pose proof (all_chars_normalizePhoneDigits_ v) as Hd.
    apply sfilter_all_chars in Hd. fold (digits_only (Inbound.normalizePhoneDigits_ v)) in Hd.
    unfold Inbound.normalizePhoneDigits_ at 1. rewrite to_string_or_else_text, Hd.
    unfold Inbound.normalizePhoneDigits_.
    set (D := digits_only (to_string (or_else v (VStr "")))).
    destruct ((String.length D =? 11)%nat && startsWith "1" D) eqn:Hlong.
    + apply andb_prop in Hlong as [Hlen _]. apply Nat.eqb_eq in Hlen.
      destruct D as [|c r]; [discriminate Hlen|]. cbn [slice1].
      injection Hlen as Hlen. rewrite Hlen. reflexivity.
    + rewrite Hlong. reflexivity.
  - unfold Sync.normalizeFieldValue_, Inbound.normalizePhoneDigits_, or_else.
    destruct (truthy v); reflexivity.
Qed.

(** ** smsInbound.js: the reply *)

Lemma all_chars_app (p : ascii -> bool) (a b : string) :
  Send.all_chars p (a +:+ b) = Send.all_chars p a && Send.all_chars p b.
Proof.
  induction a as [|c a IH]; [reflexivity|].
  change (String c a +:+ b) with (String c (a +:+ b)). simpl.
  rewrite IH, andb_assoc. reflexivity.
Qed.

Lemma all_chars_impl (p q : ascii -> bool) (s : string) :
  (forall c, p c = true -> q c = true) ->
  Send.all_chars p s = true -> Send.all_chars q s = true.
Proof.
  intros Hpq. induction s as [|c r IH]; [reflexivity|]. simpl.
  intros H. apply andb_prop in H as [Hc Hr]. rewrite (Hpq c Hc), (IH Hr). reflexivity.
Qed.

(** What a replacement leaves: the replacement text, and the characters
    that were not replaced. *)
Lemma all_chars_replace_char (q : ascii -> bool) (c : ascii) (by_ s : string) :
  Send.all_chars q by_ = true ->
  Send.all_chars (fun x => bool_decide (x = c) || q x) s = true ->
  Send.all_chars q (Inbound.replace_char c by_ s) = true.
Proof.
  intros Hby. induction s as [|x r IH]; [reflexivity|]. simpl.
  intros H. apply andb_prop in H as [Hx Hr]. specialize (IH Hr).
  case_bool_decide as Hxc.
  - rewrite all_chars_app, Hby, IH. reflexivity.
  - simpl in *. rewrite Hx, IH. reflexivity.
Qed.

Lemma replace_char_absent (c : ascii) (by_ s : string) :
  Send.all_chars (fun x => negb (bool_decide (x = c))) s = true ->
  Inbound.replace_char c by_ s = s.
Proof.
  induction s as [|x r IH]; [reflexivity|]. simpl.
  intros H. apply andb_prop in H as [Hx Hr].
  destruct (bool_decide (x = c)); [discriminate Hx|]. rewrite (IH Hr). reflexivity.
Qed.

(** X3.  The text [escapeXml_] returns holds no angle bracket and no quote,
    so it cannot close the [Message] element of the reply or open another;
    a text without the five special characters comes back as it is. *)
Theorem escapeXml_leaves_no_markup (s : string) :
  Send.all_chars (fun c => negb (Xml.delimiter c)) (Inbound.escapeXml_ s) = true
  /\ (Send.all_chars (fun c => negb (Xml.special c)) s = true ->
      Inbound.escapeXml_ s = s).
Proof.
  split.
  - unfold Inbound.escapeXml_.
    apply all_chars_replace_char; [reflexivity|].
    eapply all_chars_impl;
      [|apply (all_chars_replace_char
                 (fun x => negb (bool_decide (x ∈ ["<"; ">"; dquote_char]%char))));
        [reflexivity|]].
    { intros c Hc. unfold Xml.delimiter.
      destruct (bool_decide (c = "'"%char)) eqn:Hq; [reflexivity|].
      apply bool_decide_eq_false in Hq. simpl.
      apply negb_true_iff, bool_decide_eq_false. apply negb_true_iff, bool_decide_eq_false in Hc.
      rewrite !elem_of_cons in *. tauto. }
    eapply all_chars_impl;
      [|apply (all_chars_replace_char
                 (fun x => negb (bool_decide (x ∈ ["<"; ">"]%char))));
        [reflexivity|]].
    { intros c Hc.
      destruct (bool_decide (c = dquote_char)) eqn:Hq; [reflexivity|].
      apply bool_decide_eq_false in Hq. simpl.
      apply negb_true_iff, bool_decide_eq_false. apply negb_true_iff, bool_decide_eq_false in Hc.
      rewrite !elem_of_cons in *. tauto. }
    eapply all_chars_impl;
      [|apply (all_chars_replace_char
                 (fun x => negb (bool_decide (x ∈ ["<"]%char))));
        [reflexivity|]].
    { intros c Hc.
      destruct (bool_decide (c = ">"%char)) eqn:Hq; [reflexivity|].
      apply bool_decide_eq_false in Hq. simpl.
      apply negb_true_iff, bool_decide_eq_false. apply negb_true_iff, bool_decide_eq_false in Hc.
      rewrite !elem_of_cons in *. tauto. }
    generalize (Inbound.replace_char "&" "&amp;" s). intros t.
    induction t as [|x r IH]; [reflexivity|]. simpl. rewrite IH, andb_true_r.
    destruct (bool_decide (x = "<"%char)) eqn:Hq; [reflexivity|].
    apply bool_decide_eq_false in Hq. simpl.
    apply negb_true_iff, bool_decide_eq_false. rewrite list_elem_of_singleton. exact Hq.
  - intros H. unfold Inbound.escapeXml_.
    assert (Hc : forall c, c ∈ ["&"; "<"; ">"; dquote_char; "'"]%char ->
                 Send.all_chars (fun x => negb (bool_decide (x = c))) s = true).
    { intros c Hin. eapply all_chars_impl; [|exact H].
      intros x Hx. apply negb_true_iff, bool_decide_eq_false.
      apply negb_true_iff, bool_decide_eq_false in Hx. intros ->. contradiction. }
    rewrite (replace_char_absent "&") by (apply Hc; set_solver).
    rewrite (replace_char_absent "<") by (apply Hc; set_solver).
    rewrite (replace_char_absent ">") by (apply Hc; set_solver).
    rewrite (replace_char_absent dquote_char) by (apply Hc; set_solver).
    rewrite (replace_char_absent "'") by (apply Hc; set_solver).
    reflexivity.
Qed.

Lemma escapeXml_leaves_no_markup_witness :
  Inbound.escapeXml_ "PONG" = "PONG".
Proof. apply (proj2 (escapeXml_leaves_no_markup "PONG")). reflexivity. Defined.

(** ** smsInbound.js: the webhook and the roster *)

Lemma getSheet_putSheet_ne (name name' : string) (sh : sheet) (w : world) :
  name <> name' ->
  getSheetByName (putSheet name sh w) name' = getSheetByName w name'.
Proof. intros Hne. unfold getSheetByName, putSheet. simpl. apply lookup_insert_ne, Hne. Qed.

Lemma props_logInbound (from body status sid : string) (w : world) :
  props (Inbound.logInbound_ from body status sid w) = props w.
Proof. reflexivity. Qed.

Lemma outbox_logInbound (from body status sid : string) (w : world) :
  outbox (Inbound.logInbound_ from body status sid w) = outbox w.
Proof. reflexivity. Qed.

(** The loop over the roster, when every match is to be updated: what it
    reports. *)
Lemma updateLoop_report (cPhone cOpt : nat) (want v : string) (updateAll : bool)
    (rows : list row) (r : nat) (s : Inbound.scan) :
  let s' := Inbound.updateLoop cPhone cOpt want v updateAll rows r s in
  Inbound.changed s'
  = Inbound.changed s || existsb (Inbound.phone_matches cPhone want) rows
  /\ ((Inbound.matches s' =? 0)%nat
      = (Inbound.matches s =? 0)%nat
        && negb (existsb (Inbound.phone_matches cPhone want) rows)).
Proof.
  revert r s. induction rows as [|cells rest IH]; intros r s; cbn [Inbound.updateLoop existsb].
  - cbn zeta. rewrite orb_false_r, andb_true_r. split; reflexivity.
  - destruct (Inbound.phone_matches cPhone want cells) eqn:Hm.
    + destruct updateAll; cbn [negb].
      * destruct (IH (S r) (Inbound.mkScan (setValue r cOpt (VStr v) (Inbound.db s)) true
                              (S (Inbound.matches s)))) as [Hc Hn].
        cbn zeta in *. rewrite Hc, Hn. cbn. rewrite orb_true_r, andb_false_r.
        split; reflexivity.
      * cbn. rewrite orb_true_r, andb_false_r. split; reflexivity.
    + cbn [orb]. apply IH.
Qed.

Lemma phone_matches_nonempty (cPhone : nat) (want : string) (cells : row) :
  Inbound.phone_matches cPhone want cells = true -> want <> "".
Proof.
  unfold Inbound.phone_matches. intros H. apply andb_prop in H as [Hne Heq].
  apply bool_decide_eq_true in Heq. rewrite Heq in Hne. intros ->. discriminate Hne.
Qed.

Lemma existsb_phone_matches_empty (cPhone : nat) (rows : list row) :
  existsb (Inbound.phone_matches cPhone "") rows = false.
Proof.
  induction rows as [|cells rest IH]; [reflexivity|]. simpl. rewrite IH, orb_false_r.
  destruct (Inbound.phone_matches cPhone "" cells) eqn:H; [|reflexivity].
  apply phone_matches_nonempty in H. contradiction.
Qed.

(** X4.  [updateOptInByPhone_] returns [true] exactly when a row below the
    header has the sender's normalised digits, with or without
    [updateAllMatches]; without the Student Database sheet or without one of
    the two headers it returns [false] and the sheet is as it was. *)
Theorem updateOptInByPhone_reports_match (from v : string) (updateAll : bool)
    (w : world) :
  let out := Inbound.updateOptInByPhone_ from v updateAll w in
  match getSheetByName w Inbound.db_name with
  | None => fst out = false /\ getSheetByName (snd out) Inbound.db_name = None
  | Some vals =>
      match Inbound.findCol (Inbound.headers_of vals) "phone #",
            Inbound.findCol (Inbound.headers_of vals) "sms opt-in" with
      | Some cPhone, Some cOpt =>
          fst out
          = existsb (Inbound.phone_matches cPhone
                       (Inbound.normalizePhoneDigits_ (VStr from)))
              (drop 1 vals)
      | _, _ => fst out = false /\ getSheetByName (snd out) Inbound.db_name = Some vals
      end
  end.
Proof.
  cbn zeta. unfold Inbound.updateOptInByPhone_.
  destruct (getSheetByName w Inbound.db_name) as [vals|] eqn:Hdb.
  2:{ cbn [fst snd]. rewrite getSheet_logInbound. split; [reflexivity|exact Hdb]. }
  destruct (length vals <? 2)%nat eqn:Hlen.
  { apply Nat.ltb_lt in Hlen.
    assert (Hd : drop 1 vals = []) by (apply drop_ge; lia).
    rewrite Hd. cbn [fst snd existsb]. rewrite getSheet_logInbound.
    destruct (Inbound.findCol (Inbound.headers_of vals) "phone #"),
             (Inbound.findCol (Inbound.headers_of vals) "sms opt-in");
      try reflexivity; split; try reflexivity; exact Hdb. }
  destruct (Inbound.findCol (Inbound.headers_of vals) "phone #") as [cPhone|],
           (Inbound.findCol (Inbound.headers_of vals) "sms opt-in") as [cOpt|];
    cbn [fst snd]; rewrite ?getSheet_logInbound; try (split; [reflexivity|exact Hdb]).
  destruct (is_empty_string (Inbound.normalizePhoneDigits_ (VStr from))) eqn:Hwant.
  - destruct (Inbound.normalizePhoneDigits_ (VStr from)); [|discriminate Hwant].
    rewrite existsb_phone_matches_empty. reflexivity.
  - cbn [fst].
    destruct (updateLoop_report cPhone cOpt (Inbound.normalizePhoneDigits_ (VStr from))
                v updateAll (drop 1 vals) 1 (Inbound.mkScan vals false 0)) as [Hc _].
    cbn zeta in Hc. rewrite Hc. reflexivity.
Qed.

(** The Student Database after [updateOptInByPhone_] with
    [updateAllMatches], cell by cell. *)
Lemma updateOptInByPhone_cells (from v : string) (w : world) (vals : sheet)
    (cPhone cOpt : nat) :
  getSheetByName w Inbound.db_name = Some vals ->
  Inbound.findCol (Inbound.headers_of vals) "phone #" = Some cPhone ->
  Inbound.findCol (Inbound.headers_of vals) "sms opt-in" = Some cOpt ->
  exists db',
    getSheetByName (snd (Inbound.updateOptInByPhone_ from v true w)) Inbound.db_name
    = Some db'
    /\ forall r c,
         cell db' r c
         = if bool_decide (c = cOpt) && (1 <=? r)%nat
              && from_option
                   (Inbound.phone_matches cPhone
                      (Inbound.normalizePhoneDigits_ (VStr from)))
                   false (vals !! r)
           then VStr v else cell vals r c.
Proof.
  intros Hdb Hp Ho. unfold Inbound.updateOptInByPhone_. rewrite Hdb.
  destruct (length vals <? 2)%nat eqn:Hlen.
  { exists vals. cbn [snd]. rewrite getSheet_logInbound. split; [exact Hdb|].
    intros r c. apply Nat.ltb_lt in Hlen.
    destruct (1 <=? r)%nat eqn:Hr; [|rewrite andb_false_r; reflexivity].
    apply Nat.leb_le in Hr. rewrite (lookup_ge_None_2 vals r) by lia.
    cbn [from_option]. rewrite andb_false_r. reflexivity. }
  rewrite Hp, Ho.
  destruct (is_empty_string (Inbound.normalizePhoneDigits_ (VStr from))) eqn:Hwant.
  { exists vals. cbn [snd]. rewrite getSheet_logInbound. split; [exact Hdb|].
    intros r c. destruct (vals !! r) as [cells|]; cbn [from_option];
      [|rewrite andb_false_r; reflexivity].
    destruct (Inbound.phone_matches cPhone _ cells) eqn:Hm;
      [|rewrite andb_false_r; reflexivity].
    apply phone_matches_nonempty in Hm.
    destruct (Inbound.normalizePhoneDigits_ (VStr from)); [contradiction|discriminate Hwant]. }
  eexists. split.
  - cbn [snd].
    destruct (Inbound.matches _ =? 0)%nat; [|destruct (Inbound.changed _)];
      rewrite ?getSheet_logInbound; apply getSheet_putSheet.
  - intros r c. rewrite cell_updateLoop_all. cbn [Inbound.db].
    destruct (1 <=? r)%nat eqn:Hr; [|rewrite !andb_false_r; reflexivity].
    apply Nat.leb_le in Hr. rewrite lookup_drop.
    replace (1 + (r - 1))%nat with r by lia. reflexivity.
Qed.

(** X5.  A request without a delivery status whose body is a stop word or
    the word START, in any letter case, writes [No] or [Yes] to the opt-in
    cell of every row below the header whose phone has the sender's
    normalised digits, and changes no other cell of the Student Database;
    the script properties stay and no message goes out. *)
Theorem keyword_changes_only_matching_rows (p : gmap string string) (w : world)
    (vals : sheet) (cPhone cOpt : nat) (v : string) :
  Inbound.param p "MessageStatus" = "" ->
  (toUpperCase (trim (Inbound.param p "Body")) ∈ Inbound.STOP_WORDS
   /\ v = Inbound.OPT_NO)
  \/ (toUpperCase (trim (Inbound.param p "Body")) = "START" /\ v = Inbound.OPT_YES) ->
  getSheetByName w Inbound.db_name = Some vals ->
  Inbound.findCol (Inbound.headers_of vals) "phone #" = Some cPhone ->
  Inbound.findCol (Inbound.headers_of vals) "sms opt-in" = Some cOpt ->
  exists db',
    getSheetByName (snd (Inbound.doPost p w)) Inbound.db_name = Some db'
    /\ (forall r c,
          cell db' r c
          = if bool_decide (c = cOpt) && (1 <=? r)%nat
               && from_option
                    (Inbound.phone_matches cPhone
                       (Inbound.normalizePhoneDigits_ (VStr (Inbound.param p "From"))))
                    false (vals !! r)
            then VStr v else cell vals r c)
    /\ props (snd (Inbound.doPost p w)) = props w
    /\ outbox (snd (Inbound.doPost p w)) = outbox w.
Proof.
  intros Hstatus Hword Hdb Hp Ho. unfold Inbound.doPost.
  rewrite Hstatus. cbn [is_empty_string negb].
  set (w1 := Inbound.logInbound_ _ _ _ _ w).
  assert (Hdb1 : getSheetByName w1 Inbound.db_name = Some vals).
  { unfold w1. rewrite getSheet_logInbound. exact Hdb. }
  assert (Hrest : forall v',
             props (snd (Inbound.updateOptInByPhone_ (Inbound.param p "From") v' true w1))
             = props w
             /\ outbox (snd (Inbound.updateOptInByPhone_ (Inbound.param p "From") v' true w1))
                = outbox w).
  { intros v'. unfold Inbound.updateOptInByPhone_. rewrite Hdb1.
    destruct (length vals <? 2)%nat; [split; reflexivity|]. rewrite Hp, Ho.
    destruct (is_empty_string _); [split; reflexivity|]. cbn [snd].
    destruct (Inbound.matches _ =? 0)%nat; [|destruct (Inbound.changed _)];
      split; reflexivity. }
  destruct Hword as [[Hstop ->]|[Hstart ->]].
  - rewrite (bool_decide_true _ Hstop). cbn [snd].
    destruct (updateOptInByPhone_cells (Inbound.param p "From") Inbound.OPT_NO w1 vals
                cPhone cOpt Hdb1 Hp Ho) as (db' & Hdb' & Hcells).
    exists db'. split; [exact Hdb'|]. split; [exact Hcells|]. apply Hrest.
  - rewrite Hstart.
    rewrite (bool_decide_false ("START" ∈ Inbound.STOP_WORDS))
      by (unfold Inbound.STOP_WORDS; rewrite !elem_of_cons, elem_of_nil;
          intros [H|[H|[H|[H|[H|[H|H]]]]]]; try discriminate H; exact H).
    rewrite (bool_decide_true ("START" = "START")) by reflexivity. cbn [snd].
    destruct (updateOptInByPhone_cells (Inbound.param p "From") Inbound.OPT_YES w1 vals
                cPhone cOpt Hdb1 Hp Ho) as (db' & Hdb' & Hcells).
    exists db'. split; [exact Hdb'|]. split; [exact Hcells|]. apply Hrest.
Qed.

Lemma keyword_changes_only_matching_rows_witness :
  exists db',
    getSheetByName (snd (Inbound.doPost start_from_ada roster_after_stop))
      Inbound.db_name = Some db'
    /\ cell db' 3 2 = VStr "Yes" /\ cell db' 2 2 = VStr "Yes" /\ cell db' 3 1 = VStr "18162379012".
Proof.
  destruct (keyword_changes_only_matching_rows start_from_ada roster_after_stop
              [texts ["Student Name"; "Phone #"; "SMS Opt-In"];
               texts ["Ada Lovelace"; "(816) 237-9012"; "No"];
               texts ["Grace Hopper"; "555-0100"; "Yes"];
               texts ["Ada L."; "18162379012"; "No"]] 1 2 Inbound.OPT_YES
              eq_refl (or_intror (conj eq_refl eq_refl)) eq_refl eq_refl eq_refl)
    as (db' & Hdb' & Hcells & _).
  exists db'. split; [exact Hdb'|]. rewrite !Hcells. repeat split.
Defined.

(** X6.  For a request whose body is ASCII text: a delivery-status
    callback, whatever its body, and a request whose body is neither a stop
    word nor START add the request to the log and nothing else: the Student
    Database, the script properties and the outbox stay as they were, and
    the reply is the empty envelope unless the body is PING. *)
Theorem other_requests_leave_the_roster (p : gmap string string) (w : world) :
  let upper := toUpperCase (trim (Inbound.param p "Body")) in
  Xml.ascii_text (Inbound.param p "Body") = true ->
  Inbound.param p "MessageStatus" <> ""
  \/ ((upper ∉ Inbound.STOP_WORDS) /\ upper <> "START") ->
  snd (Inbound.doPost p w)
  = Inbound.logInbound_ (Inbound.param p "From") (trim (Inbound.param p "Body"))
      (Inbound.param p "MessageStatus") (Inbound.param p "MessageSid") w
  /\ getSheetByName (snd (Inbound.doPost p w)) Inbound.db_name
     = getSheetByName w Inbound.db_name
  /\ (fst (Inbound.doPost p w) = Inbound.twiml_ ""
      \/ (Inbound.param p "MessageStatus" = "" /\ upper = "PING"
          /\ fst (Inbound.doPost p w) = Inbound.twiml_ "PONG ✅")).
Proof.
  intros upper _ H.
  assert (Hw : snd (Inbound.doPost p w)
               = Inbound.logInbound_ (Inbound.param p "From")
                   (trim (Inbound.param p "Body"))
                   (Inbound.param p "MessageStatus") (Inbound.param p "MessageSid") w
               /\ (fst (Inbound.doPost p w) = Inbound.twiml_ ""
                   \/ (Inbound.param p "MessageStatus" = "" /\ upper = "PING"
                       /\ fst (Inbound.doPost p w) = Inbound.twiml_ "PONG ✅"))).
  { unfold Inbound.doPost. fold upper.
    destruct (Inbound.param p "MessageStatus") as [|c s] eqn:Hs; cbn [is_empty_string negb].
    2:{ split; [reflexivity|left; reflexivity]. }
    destruct H as [H|[Hstop Hstart]]; [contradiction|].
    rewrite (bool_decide_false _ Hstop), (bool_decide_false _ Hstart).
    destruct (bool_decide (upper = "HELP")); [split; [reflexivity|left; reflexivity]|].
    case_bool_decide as Hping; cbn [fst snd].
    - split; [reflexivity|]. right. repeat split. exact Hping.
    - split; [reflexivity|left; reflexivity]. }
  destruct Hw as [Hw Hreply]. split; [exact Hw|]. split; [|exact Hreply].
  rewrite Hw. apply getSheet_logInbound.
Qed.

(** A delivery report and a greeting leave the roster with the opted-in
    duplicates as it is. *)
Lemma other_requests_leave_the_roster_witness :
  getSheetByName (snd (Inbound.doPost delivery_report roster_with_duplicates))
    Inbound.db_name
  = getSheetByName roster_with_duplicates Inbound.db_name
  /\ getSheetByName (snd (Inbound.doPost greeting roster_with_duplicates))
       Inbound.db_name
     = getSheetByName roster_with_duplicates Inbound.db_name.
Proof.
  split.
  - apply (other_requests_leave_the_roster delivery_report roster_with_duplicates);
      [reflexivity|]. left. discriminate.
  - apply (other_requests_leave_the_roster greeting roster_with_duplicates);
      [reflexivity|]. right. split; [|discriminate].
    intros Hin. vm_compute in Hin.
    repeat (apply elem_of_cons in Hin as [Hin|Hin]; [discriminate Hin|]).
    apply elem_of_nil in Hin. exact Hin.
Defined.

(** ** smsInbound.js: the log of the webhook *)

Lemma rows_logInbound (from body status sid : string) (w : world) :
  Journal.rows (Inbound.logInbound_ from body status sid w)
  = (if (length (Journal.rows w) =? 0)%nat then [Inbound.inbound_log_header]
     else Journal.rows w)
    ++ [Journal.inbound_row w from body status sid].
Proof.
  unfold Journal.rows, Inbound.logInbound_. rewrite getSheet_putSheet.
  unfold getLastRow, appendRow. simpl default.
  destruct (default [] (getSheetByName w Inbound.log_name)); reflexivity.
Qed.

Lemma rows_logInbound_more (from body status sid : string) (w : world) :
  Journal.rows w <> [] ->
  Journal.rows (Inbound.logInbound_ from body status sid w)
  = Journal.rows w ++ [Journal.inbound_row w from body status sid].
Proof.
  intros Hne. rewrite rows_logInbound.
  destruct (Journal.rows w); [contradiction|reflexivity].
Qed.

Lemma rows_putSheet_db (sh : sheet) (w : world) :
  Journal.rows (putSheet Inbound.db_name sh w) = Journal.rows w.
Proof. unfold Journal.rows. rewrite getSheet_putSheet_ne by discriminate. reflexivity. Qed.

Lemma rows_updateOptInByPhone_ (from v : string) (updateAll : bool) (w : world) :
  Journal.rows w <> [] ->
  exists system,
    Journal.rows (snd (Inbound.updateOptInByPhone_ from v updateAll w))
    = Journal.rows w ++ system
    /\ (length system <= 1)%nat
    /\ forall r, r ∈ system -> r !! 2%nat = Some (VStr "SYSTEM").
Proof.
  intros Hne.
  assert (Hone : forall body w',
             Journal.rows w' = Journal.rows w ->
             exists system,
               Journal.rows (Inbound.logInbound_ "SYSTEM" body "" "" w')
               = Journal.rows w ++ system
               /\ (length system <= 1)%nat
               /\ forall r, r ∈ system -> r !! 2%nat = Some (VStr "SYSTEM")).
  { intros body w' Hw'. eexists. split; [|split].
    - rewrite rows_logInbound_more by (rewrite Hw'; exact Hne). rewrite Hw'. reflexivity.
    - simpl. lia.
    - intros r Hr. apply list_elem_of_singleton in Hr. subst r. reflexivity. }
  unfold Inbound.updateOptInByPhone_.
  destruct (getSheetByName w Inbound.db_name) as [vals|]; [|apply Hone; reflexivity].
  destruct (length vals <? 2)%nat; [apply Hone; reflexivity|].
  destruct (Inbound.findCol (Inbound.headers_of vals) "phone #") as [cPhone|],
           (Inbound.findCol (Inbound.headers_of vals) "sms opt-in") as [cOpt|];
    try (apply Hone; reflexivity).
  destruct (is_empty_string _); [apply Hone; reflexivity|]. cbn [snd].
  destruct (Inbound.matches _ =? 0)%nat; [apply Hone, rows_putSheet_db|].
  destruct (Inbound.changed _); [apply Hone, rows_putSheet_db|].
  exists []. rewrite app_nil_r, rows_putSheet_db. split; [reflexivity|].
  split; [simpl; lia|]. intros r Hr. apply elem_of_nil in Hr. contradiction.
Qed.

(** X7.  Every webhook request is logged: [doPost] appends to the sheet
    [SMS Log] one row with the direction [IN] and the sender, the trimmed
    body, the delivery status and the message id of the request (after the
    header row, if the sheet was empty), and after it at most one row of
    the sender [SYSTEM]; the rows the sheet had are kept. *)
Theorem every_request_is_logged (p : gmap string string) (w : world) :
  exists system,
    Journal.rows (snd (Inbound.doPost p w))
    = (if (length (Journal.rows w) =? 0)%nat then [Inbound.inbound_log_header]
       else Journal.rows w)
      ++ [Journal.inbound_row w (Inbound.param p "From")
            (trim (Inbound.param p "Body")) (Inbound.param p "MessageStatus")
            (Inbound.param p "MessageSid")]
      ++ system
    /\ (length system <= 1)%nat
    /\ forall r, r ∈ system -> r !! 2%nat = Some (VStr "SYSTEM").
Proof.
  unfold Inbound.doPost.
  set (w1 := Inbound.logInbound_ _ _ _ _ w).
  assert (H1 : Journal.rows w1
               = (if (length (Journal.rows w) =? 0)%nat then [Inbound.inbound_log_header]
                  else Journal.rows w)
                 ++ [Journal.inbound_row w (Inbound.param p "From")
                       (trim (Inbound.param p "Body")) (Inbound.param p "MessageStatus")
                       (Inbound.param p "MessageSid")]) by apply rows_logInbound.
  assert (Hne : Journal.rows w1 <> []).
  { rewrite H1. intros H. apply app_eq_nil in H as [_ H]. discriminate H. }
  assert (Hidle : exists system,
             Journal.rows w1
             = (if (length (Journal.rows w) =? 0)%nat then [Inbound.inbound_log_header]
                else Journal.rows w)
               ++ [Journal.inbound_row w (Inbound.param p "From")
                     (trim (Inbound.param p "Body")) (Inbound.param p "MessageStatus")
                     (Inbound.param p "MessageSid")]
               ++ system
             /\ (length system <= 1)%nat
             /\ forall r, r ∈ system -> r !! 2%nat = Some (VStr "SYSTEM")).
  { exists []. rewrite H1. split; [reflexivity|]. split; [simpl; lia|].
    intros r Hr. apply elem_of_nil in Hr. contradiction. }
  assert (Hupdate : forall v,
             exists system,
               Journal.rows (snd (Inbound.updateOptInByPhone_ (Inbound.param p "From") v
                                    true w1))
               = (if (length (Journal.rows w) =? 0)%nat then [Inbound.inbound_log_header]
                  else Journal.rows w)
                 ++ [Journal.inbound_row w (Inbound.param p "From")
                       (trim (Inbound.param p "Body")) (Inbound.param p "MessageStatus")
                       (Inbound.param p "MessageSid")]
                 ++ system
               /\ (length system <= 1)%nat
               /\ forall r, r ∈ system -> r !! 2%nat = Some (VStr "SYSTEM")).
  { intros v.
    destruct (rows_updateOptInByPhone_ (Inbound.param p "From") v true w1 Hne)
      as (system & Hrows & Hlen & Hsys).
    exists system. rewrite Hrows, H1, <- app_assoc. split; [reflexivity|].
    split; [exact Hlen|exact Hsys]. }
  destruct (negb (is_empty_string (Inbound.param p "MessageStatus"))); [exact Hidle|].
  destruct (bool_decide (_ ∈ Inbound.STOP_WORDS)); [apply Hupdate|].
  destruct (bool_decide (_ = "START")); [apply Hupdate|].
  destruct (bool_decide (_ = "HELP")); [exact Hidle|].
  destruct (bool_decide (_ = "PING")); exact Hidle.
Qed.

(** ** smsInbound.js: without [updateAllMatches] *)

Lemma updateLoop_first (cPhone cOpt : nat) (want v : string) (rows : list row)
    (r : nat) (s : Inbound.scan) :
  Inbound.db (Inbound.updateLoop cPhone cOpt want v false rows r s)
  = match list_find (fun cells => Inbound.phone_matches cPhone want cells = true) rows with
    | Some (i, _) => setValue (r + i) cOpt (VStr v) (Inbound.db s)
    | None => Inbound.db s
    end.
Proof.
  revert r s. induction rows as [|cells rest IH]; intros r s; [reflexivity|].
  cbn [Inbound.updateLoop list_find]. unfold decide, decide_rel.
  destruct (Inbound.phone_matches cPhone want cells) eqn:Hm.
  - destruct (bool_eq_dec true true) as [_|Hn]; [|contradiction].
    cbn [negb Inbound.db]. rewrite Nat.add_0_r. reflexivity.
  - destruct (bool_eq_dec false true) as [Hn|_]; [discriminate Hn|].
    rewrite IH.
    destruct (list_find _ rest) as [[i x]|]; cbn [fmap option_fmap option_map prod_map fst snd id];
      [|reflexivity].
    replace (S r + i)%nat with (r + S i)%nat by lia. reflexivity.
Qed.

Lemma list_find_phone_matches_empty (cPhone : nat) (rows : list row) :
  list_find (fun cells => Inbound.phone_matches cPhone "" cells = true) rows = None.
Proof.
  apply list_find_None, Forall_forall. intros cells _ H.
  apply phone_matches_nonempty in H. contradiction.
Qed.

(** X8.  Without [updateAllMatches] the loop stops at the first row that
    has the sender's digits: the Student Database differs from what it was
    in the opt-in cell of that row alone, and not at all when no row has
    them. *)
Theorem first_match_only (from v : string) (w : world) (vals : sheet)
    (cPhone cOpt : nat) :
  getSheetByName w Inbound.db_name = Some vals ->
  Inbound.findCol (Inbound.headers_of vals) "phone #" = Some cPhone ->
  Inbound.findCol (Inbound.headers_of vals) "sms opt-in" = Some cOpt ->
  getSheetByName (snd (Inbound.updateOptInByPhone_ from v false w)) Inbound.db_name
  = Some match list_find
                 (fun cells =>
                    Inbound.phone_matches cPhone
                      (Inbound.normalizePhoneDigits_ (VStr from)) cells = true)
                 (drop 1 vals) with
         | Some (i, _) => setValue (S i) cOpt (VStr v) vals
         | None => vals
         end.
Proof.
  intros Hdb Hp Ho. unfold Inbound.updateOptInByPhone_. rewrite Hdb.
  destruct (length vals <? 2)%nat eqn:Hlen.
  { apply Nat.ltb_lt in Hlen. rewrite (drop_ge vals 1) by lia.
    cbn [snd list_find]. rewrite getSheet_logInbound. exact Hdb. }
  rewrite Hp, Ho.
  destruct (is_empty_string (Inbound.normalizePhoneDigits_ (VStr from))) eqn:Hwant.
  { destruct (Inbound.normalizePhoneDigits_ (VStr from)); [|discriminate Hwant].
    rewrite list_find_phone_matches_empty. cbn [snd].
    rewrite getSheet_logInbound. exact Hdb. }
  cbn [snd].
  assert (Hsheet : forall w', getSheetByName w' Inbound.db_name = Some vals ->
            getSheetByName
              (putSheet Inbound.db_name
                 (Inbound.db (Inbound.updateLoop cPhone cOpt
                                (Inbound.normalizePhoneDigits_ (VStr from)) v false
                                (drop 1 vals) 1 (Inbound.mkScan vals false 0))) w')
              Inbound.db_name
            = Some match list_find
                           (fun cells =>
                              Inbound.phone_matches cPhone
                                (Inbound.normalizePhoneDigits_ (VStr from)) cells = true)
                           (drop 1 vals) with
                   | Some (i, _) => setValue (S i) cOpt (VStr v) vals
                   | None => vals
                   end).
  { intros w' _. rewrite getSheet_putSheet, updateLoop_first. cbn [Inbound.db].
    destruct (list_find _ _) as [[i x]|]; reflexivity. }
  destruct (Inbound.matches _ =? 0)%nat; [|destruct (Inbound.changed _)];
    rewrite ?getSheet_logInbound; apply (Hsheet w Hdb).
Qed.

Lemma first_match_only_witness :
  getSheetByName
    (snd (Inbound.updateOptInByPhone_ "+18162379012" "No" false roster_with_duplicates))
    Inbound.db_name
  = Some [texts ["Student Name"; "Phone #"; "SMS Opt-In"];
          texts ["Ada Lovelace"; "(816) 237-9012"; "No"];
          texts ["Grace Hopper"; "555-0100"; "Yes"];
          texts ["Ada L."; "18162379012"; "Yes"]].
Proof.
  apply (first_match_only "+18162379012" "No" roster_with_duplicates
           [texts ["Student Name"; "Phone #"; "SMS Opt-In"];
            texts ["Ada Lovelace"; "(816) 237-9012"; "Yes"];
            texts ["Grace Hopper"; "555-0100"; "Yes"];
            texts ["Ada L."; "18162379012"; "Yes"]] 1 2); reflexivity.
Defined.

(** ** smsBulkSend.js: the requests and the counters of a batch *)

Lemma outbox_setColumnValue (n : nat) (cm : gmap string nat) (name : string)
    (v : value) (w : world) :
  outbox (Bulk.setColumnValue n cm name v w) = outbox w.
Proof. unfold Bulk.setColumnValue. destruct (cm !! name); reflexivity. Qed.

Lemma outbox_request (to body : value) (cred : Bulk.credentials) (w : world) :
  outbox (Bulk.request to body cred w)
  = outbox w ++ (if Setup.has_sender cred then [(to_string to, to_string body)] else []).
Proof.
  unfold Bulk.request, Setup.has_sender.
  destruct (truthy_prop (Bulk.messagingServiceSid cred)),
           (truthy_prop (Bulk.from cred)); simpl; rewrite ?app_nil_r; reflexivity.
Qed.

Lemma requests_app (a b : list Bulk.event) :
  Setup.requests (a ++ b) = Setup.requests a ++ Setup.requests b.
Proof. apply omap_app. Qed.

Section Batch.

Context (cm : gmap string nat) (cred : Bulk.credentials).

(** One pass through the loop body. *)
Lemma processRow_batch (fr : fetch_result) (i : nat) (cells : row) (r : Bulk.run) :
  let r' := Bulk.processRow cm cred fr i cells r in
  exists new,
    Bulk.events r' = Bulk.events r ++ new
    /\ outbox (Bulk.wd r')
       = outbox (Bulk.wd r) ++ (if Setup.has_sender cred then Setup.requests new else [])
    /\ (forall n to body,
          Bulk.Sending n to body ∈ new -> n = S i /\ Setup.eligible cm cells to body)
    /\ ((Bulk.processed (Bulk.st r) < Bulk.BATCH_SIZE)%nat ->
        Setup.balanced r -> Setup.balanced r').
Proof.
  cbn zeta. unfold Bulk.processRow.
  set (phone := Bulk.getColumnValue cells cm "phone").
  set (message := or_else (Bulk.getColumnValue cells cm "message") (VStr Bulk.DEFAULT_MESSAGE)).
  destruct (negb (truthy phone) || is_empty_string (trim (to_string phone))) eqn:Hphone.
  { exists [Bulk.SkippedNoPhone (S i)]. split; [reflexivity|]. split; [|split].
    - cbn. destruct (Setup.has_sender cred); rewrite app_nil_r; reflexivity.
    - intros n to body Hin. apply list_elem_of_singleton in Hin. discriminate Hin.
    - unfold Setup.balanced, Bulk.bump. cbn. rewrite requests_app, length_app. cbn.
      intros Hroom (H1 & H2 & H3). lia. }
  destruct (negb (Bulk.isOptedIn (Bulk.getColumnValue cells cm "opt_in"))) eqn:Hopt.
  { exists [Bulk.SkippedNotOptedIn (S i)]. split; [reflexivity|]. split; [|split].
    - cbn. destruct (Setup.has_sender cred); rewrite app_nil_r; reflexivity.
    - intros n to body Hin. apply list_elem_of_singleton in Hin. discriminate Hin.
    - unfold Setup.balanced, Bulk.bump. cbn. rewrite requests_app, length_app. cbn.
      intros Hroom (H1 & H2 & H3). lia. }
  apply orb_false_elim in Hphone as [Htruthy Hblank].
  apply negb_false_iff in Htruthy, Hopt.
  assert (Hel : Setup.eligible cm cells phone message).
  { repeat split; try assumption. intros H. rewrite H in Hblank. discriminate Hblank. }
  generalize (Bulk.sendTwilioSMS fr phone message cred). intros sendResult.
  assert (Hin : forall tail n to body,
             (forall n' to' body', Bulk.Sending n' to' body' ∉ tail) ->
             Bulk.Sending n to body ∈ Bulk.Sending (S i) phone message :: tail ->
             n = S i /\ Setup.eligible cm cells to body).
  { intros tail n to body Htail H. apply elem_of_cons in H as [H|H].
    - injection H as -> -> ->. split; [reflexivity|exact Hel].
    - exfalso. exact (Htail _ _ _ H). }
  destruct (Bulk.success sendResult);
    [|destruct (bool_decide (Bulk.errorCode sendResult = VNum 21610))];
    unfold Bulk.bump; cbn [Bulk.st Bulk.wd Bulk.events Bulk.count_processed Bulk.count_sent
                             Bulk.count_optedOut Bulk.count_failed Bulk.processed id];
    destruct (S (Bulk.processed (Bulk.st r)) <? Bulk.BATCH_SIZE)%nat;
    cbn [Bulk.st Bulk.wd Bulk.events]; rewrite <- ?app_assoc;
    (eexists; split; [reflexivity|]; split; [|split]).
  all: try (unfold Bulk.updateRowSuccess, Bulk.updateRowOptOut, Bulk.updateRowError;
            rewrite !outbox_setColumnValue, outbox_request;
            destruct (Setup.has_sender cred); reflexivity).
  all: try (intros n0 to0 body0; cbn [app]; apply Hin; intros n' to' body' H';
            repeat (apply elem_of_cons in H' as [H'|H']; [discriminate H'|]);
            apply elem_of_nil in H'; exact H').
  all: unfold Setup.balanced; cbn; rewrite ?requests_app, ?length_app; cbn;
    intros Hroom (H1 & H2 & H3); lia.
Qed.

(** The loop, from row [cur] on. *)
Lemma processLoop_batch (vendor : nat -> fetch_result) (rows : list row) (cur : nat)
    (r : Bulk.run) :
  let out := Bulk.processLoop cm cred vendor rows cur r in
  exists new,
    Bulk.events (snd out) = Bulk.events r ++ new
    /\ outbox (Bulk.wd (snd out))
       = outbox (Bulk.wd r) ++ (if Setup.has_sender cred then Setup.requests new else [])
    /\ (forall n to body,
          Bulk.Sending n to body ∈ new ->
          exists i cells,
            n = S i /\ (cur <= i)%nat /\ (1 <= i)%nat
            /\ rows !! (i - cur)%nat = Some cells /\ Setup.eligible cm cells to body)
    /\ (Setup.balanced r -> Setup.balanced (snd out)).
Proof.
  revert cur r. induction rows as [|cells rest IH]; intros cur r; cbn [Bulk.processLoop].
  - exists []. cbn [snd]. rewrite app_nil_r.
    split; [reflexivity|]. split; [destruct (Setup.has_sender cred); rewrite app_nil_r; reflexivity|].
    split; [|intros Hb; exact Hb].
    intros n to body H. apply elem_of_nil in H. contradiction.
  - destruct (Bulk.processed (Bulk.st r) <? Bulk.BATCH_SIZE)%nat eqn:Hroom.
    2:{ exists []. cbn [snd]. rewrite app_nil_r.
        split; [reflexivity|].
        split; [destruct (Setup.has_sender cred); rewrite app_nil_r; reflexivity|].
        split; [|intros Hb; exact Hb].
        intros n to body H. apply elem_of_nil in H. contradiction. }
    apply Nat.ltb_lt in Hroom.
    destruct (cur =? 0)%nat eqn:Hhead.
    + destruct (IH (S cur) r) as (new & He & Ho & Hs & Hb). cbn zeta in *.
      exists new. split; [exact He|]. split; [exact Ho|]. split; [|exact Hb].
      intros n to body Hin. destruct (Hs n to body Hin) as (i & c & -> & Hle & H1 & Hrow & Hel).
      exists i, c. split; [reflexivity|]. split; [lia|]. split; [exact H1|].
      split; [|exact Hel]. replace (i - cur)%nat with (S (i - S cur)) by lia. exact Hrow.
    + apply Nat.eqb_neq in Hhead.
      destruct (processRow_batch (vendor cur) cur cells r) as (new1 & He1 & Ho1 & Hs1 & Hb1).
      cbn zeta in *.
      destruct (IH (S cur) (Bulk.processRow cm cred (vendor cur) cur cells r))
        as (new & He & Ho & Hs & Hb). cbn zeta in *.
      exists (new1 ++ new). split; [rewrite He, He1, app_assoc; reflexivity|].
      split.
      { rewrite Ho, Ho1, <- app_assoc. f_equal.
        destruct (Setup.has_sender cred); [rewrite requests_app|]; reflexivity. }
      split.
      { intros n to body Hin. apply elem_of_app in Hin as [Hin|Hin].
        - destruct (Hs1 n to body Hin) as [-> Hel].
          exists cur, cells. split; [reflexivity|]. split; [lia|]. split; [lia|].
          rewrite Nat.sub_diag. split; [reflexivity|exact Hel].
        - destruct (Hs n to body Hin) as (i & c & -> & Hle & H1 & Hrow & Hel).
          exists i, c. split; [reflexivity|]. split; [lia|]. split; [exact H1|].
          split; [|exact Hel]. replace (i - cur)%nat with (S (i - S cur)) by lia.
          exact Hrow. }
      intros Hbal. apply Hb, Hb1; assumption.
Qed.

End Batch.

Lemma outbox_saveCursor (n : nat) (w : world) : outbox (Bulk.saveCursor n w) = outbox w.
Proof. reflexivity. Qed.

(** X9.  A batch sends to opted-in rows only.  For data whose phone and
    opt-in cells are ASCII text (or, for the opt-in, the check mark): every
    request the batch posts stands for a row of the data at or after the
    cursor and below the header, with a phone number that is not blank and
    an opt-in value that [isOptedIn] accepts; the number and the text are
    those of that row (the default text, if the row has none); and nothing
    else is posted. *)
Theorem batch_requests_only_opted_in (vendor : nat -> fetch_result) (allData : sheet)
    (cm : gmap string nat) (cred : Bulk.credentials) (N : nat) (w : world) :
  Forall (fun cells => Setup.plain_row cm cells = true) allData ->
  let r := Bulk.processBatch vendor allData cm cred N w in
  outbox (Bulk.wd r)
  = outbox w ++ (if Setup.has_sender cred then Setup.requests (Bulk.events r) else [])
  /\ forall n to body,
       Bulk.Sending n to body ∈ Bulk.events r ->
       exists i cells,
         n = S i /\ (N <= i)%nat /\ (1 <= i)%nat
         /\ allData !! i = Some cells /\ Setup.eligible cm cells to body.
Proof.
  intros _. cbn zeta. unfold Bulk.processBatch.
  destruct (processLoop_batch cm cred vendor (drop N allData) N
              (Bulk.mkRun (Bulk.mkStats 0 0 0 0 0 false N) w []))
    as (new & He & Ho & Hs & _). cbn zeta in *.
  destruct (Bulk.processLoop cm cred vendor (drop N allData) N _) as [cur r].
  cbn [snd Bulk.events Bulk.wd app] in *. subst new.
  assert (Hrows : forall n to body,
             Bulk.Sending n to body ∈ Bulk.events r ->
             exists i cells,
               n = S i /\ (N <= i)%nat /\ (1 <= i)%nat
               /\ allData !! i = Some cells /\ Setup.eligible cm cells to body).
  { intros n to body Hin. destruct (Hs n to body Hin) as (i & c & -> & Hle & H1 & Hrow & Hel).
    exists i, c. split; [reflexivity|]. split; [exact Hle|]. split; [exact H1|].
    split; [|exact Hel]. rewrite lookup_drop in Hrow.
    replace (N + (i - N))%nat with i in Hrow by lia. exact Hrow. }
  destruct (cur <? length allData)%nat; cbn [Bulk.wd Bulk.events];
    rewrite ?outbox_saveCursor; split; assumption.
Qed.

(** The batch over the roster of three opted-in students posts the three
    requests of its loop and nothing else. *)
Lemma batch_requests_only_opted_in_witness :
  outbox
    (Bulk.wd (Bulk.processBatch second_unsubscribed bulk_roster bulk_columns
                bulk_credentials 1 (bulk_world None)))
  = [("+18162379012", Bulk.DEFAULT_MESSAGE); ("+15550100", Bulk.DEFAULT_MESSAGE);
     ("+15550101", Bulk.DEFAULT_MESSAGE)].
Proof.
  refine (proj1 (batch_requests_only_opted_in second_unsubscribed bulk_roster
                   bulk_columns bulk_credentials 1 (bulk_world None) _)).
  repeat (apply Forall_cons_2; [reflexivity|]). apply Forall_nil_2.
Defined.

(** X10.  The counters of a batch add up: every row the loop body was
    entered for is counted once as sent, skipped, failed or opted out; the
    requests are those counted as sent, failed or opted out; and a batch
    processes at most [BATCH_SIZE] rows, so it posts at most that many
    requests. *)
Theorem batch_counters_add_up (vendor : nat -> fetch_result) (allData : sheet)
    (cm : gmap string nat) (cred : Bulk.credentials) (N : nat) (w : world) :
  let r := Bulk.processBatch vendor allData cm cred N w in
  Bulk.processed (Bulk.st r)
  = (Bulk.sent (Bulk.st r) + Bulk.skipped (Bulk.st r) + Bulk.failed (Bulk.st r)
     + Bulk.optedOut (Bulk.st r))%nat
  /\ length (Setup.requests (Bulk.events r))
     = (Bulk.sent (Bulk.st r) + Bulk.failed (Bulk.st r) + Bulk.optedOut (Bulk.st r))%nat
  /\ (Bulk.processed (Bulk.st r) <= Bulk.BATCH_SIZE)%nat
  /\ (length (Setup.requests (Bulk.events r)) <= Bulk.BATCH_SIZE)%nat.
Proof.
  cbn zeta. unfold Bulk.processBatch.
  destruct (processLoop_batch cm cred vendor (drop N allData) N
              (Bulk.mkRun (Bulk.mkStats 0 0 0 0 0 false N) w []))
    as (new & _ & _ & _ & Hb). cbn zeta in Hb.
  destruct (Bulk.processLoop cm cred vendor (drop N allData) N _) as [cur r].
  cbn [snd] in Hb.
  destruct Hb as (H1 & H2 & H3).
  { unfold Setup.balanced, Bulk.BATCH_SIZE. cbn. lia. }
  destruct (cur <? length allData)%nat; unfold Bulk.set_cursor;
    cbn [Bulk.st Bulk.events Bulk.processed Bulk.sent Bulk.skipped Bulk.failed
         Bulk.optedOut];
    (split; [exact H1|]; split; [exact H2|]; split; [exact H3|]);
    rewrite H2; rewrite H1 in H3; lia.
Qed.

(** ** smsBulkSend.js: the credentials *)

(** X11.  [getTwilioCredentials] accepts a project exactly when [sendSms_]
    of sms.js passes its two configuration checks, and hands on the sender
    number and the messaging service of the script properties; with
    credentials it has accepted, [sendTwilioSMS] has a sender for its
    payload, so the request for a row is made. *)
Theorem credentials_checked_alike (w : world) :
  ((exists cred, Setup.getTwilioCredentials w = Setup.Valid cred)
   <-> Sms.missing_credentials w = false /\ Sms.missing_sender w = false)
  /\ forall cred,
       Setup.getTwilioCredentials w = Setup.Valid cred ->
       Bulk.from cred = getProperty w "TWILIO_FROM_NUMBER"
       /\ Bulk.messagingServiceSid cred = getProperty w "TWILIO_MESSAGING_SERVICE_SID"
       /\ Setup.has_sender cred = true
       /\ forall to body w',
            Bulk.request to body cred w' = post (to_string to) (to_string body) w'.
Proof.
  unfold Setup.getTwilioCredentials, Sms.missing_credentials, Sms.missing_sender.
  destruct (truthy_prop (getProperty w "TWILIO_ACCOUNT_SID")) eqn:Hsid;
    destruct (truthy_prop (getProperty w "TWILIO_AUTH_TOKEN")) eqn:Htok;
    cbn [negb orb];
    try (split; [split; [intros [c H]; discriminate H|intros [H _]; discriminate H]
                |intros c H; discriminate H]).
  destruct (truthy_prop (getProperty w "TWILIO_FROM_NUMBER")) eqn:Hfrom;
    destruct (truthy_prop (getProperty w "TWILIO_MESSAGING_SERVICE_SID")) eqn:Hmsid;
    cbn [negb andb];
    try (split; [split; [intros [c H]; discriminate H|intros [_ H]; discriminate H]
                |intros c H; discriminate H]).
  all: split; [split; [intros _; split; rewrite ?andb_false_r; reflexivity|eauto]|].
  all: intros cred [= <-]; cbn [Bulk.from Bulk.messagingServiceSid];
    split; [reflexivity|]; split; [reflexivity|];
    unfold Setup.has_sender, Bulk.request;
    cbn [Bulk.from Bulk.messagingServiceSid]; rewrite Hfrom, Hmsid;
    split; [reflexivity|]; intros to body w'; reflexivity.
Qed.

Lemma credentials_checked_alike_witness :
  exists cred, Setup.getTwilioCredentials configured_world = Setup.Valid cred.
Proof.
  apply (proj2 (proj1 (credentials_checked_alike configured_world))).
  split; reflexivity.
Defined.

(** ** smsBulkSend.js: the column mapping *)

Lemma toString_text (h : value) (text : string) :
  Setup.toString h = Some text -> text = to_string h.
Proof. destruct h; simpl; intros H; try discriminate H; injection H as <-; reflexivity. Qed.

(** The table of the header row: a name leads to the last column it heads
    from [index] on, or to what the table had for it. *)
Lemma actualColumns_from_lookup (headers : row) (index : nat)
    (acc ac : gmap string nat) (name : string) :
  name <> "" ->
  Setup.actualColumns_from headers index acc = Some ac ->
  match ac !! name with
  | Some i =>
      ((index <= i)%nat /\ Setup.names headers (i - index) name
       /\ forall j, (i - index < j)%nat -> ~ Setup.names headers j name)
      \/ (acc !! name = Some i /\ forall j, ~ Setup.names headers j name)
  | None => acc !! name = None /\ forall j, ~ Setup.names headers j name
  end.
Proof.
  intros Hname. revert index acc.
  induction headers as [|h rest IH]; intros index acc; cbn [Setup.actualColumns_from].
  - intros [= <-]. unfold Setup.names.
    destruct (acc !! name) as [i|]; [right|]; split; try reflexivity;
      intros j; rewrite lookup_nil; discriminate.
  - destruct (Setup.toString h) as [text|] eqn:Htext; [|discriminate].
    apply toString_text in Htext. subst text. fold (Setup.normalized h).
    intros Hac. specialize (IH _ _ Hac).
    assert (Hhere : forall j, Setup.names (h :: rest) (S j) name <-> Setup.names rest j name)
      by (intros j; reflexivity).
    assert (Hhead : Setup.names (h :: rest) 0 name <-> Setup.normalized h = name).
    { unfold Setup.names. simpl. split; [intros [= H]; exact H|intros ->; reflexivity]. }
    destruct (ac !! name) as [i|].
    + destruct IH as [(Hle & Hn & Hlast)|[Hacc Hnone]].
      * left. split; [lia|]. replace (i - index)%nat with (S (i - S index)) by lia.
        split; [apply Hhere, Hn|]. intros j Hj. destruct j as [|j]; [lia|].
        rewrite Hhere. apply Hlast. lia.
      * destruct (is_empty_string (Setup.normalized h)) eqn:He.
        -- right. split; [exact Hacc|]. intros [|j]; [|rewrite Hhere; apply Hnone].
           rewrite Hhead. intros Heq. rewrite Heq in He.
           destruct name; [contradiction|discriminate He].
        -- destruct (decide (Setup.normalized h = name)) as [Heq|Hne].
           ++ rewrite Heq, lookup_insert_eq in Hacc. injection Hacc as <-.
              left. split; [lia|]. rewrite Nat.sub_diag. split; [apply Hhead, Heq|].
              intros [|j] Hj; [lia|]. rewrite Hhere. apply Hnone.
           ++ rewrite lookup_insert_ne in Hacc by exact Hne.
              right. split; [exact Hacc|]. intros [|j]; [|rewrite Hhere; apply Hnone].
              rewrite Hhead. exact Hne.
    + destruct IH as [Hacc Hnone].
      destruct (is_empty_string (Setup.normalized h)) eqn:He.
      * split; [exact Hacc|]. intros [|j]; [|rewrite Hhere; apply Hnone].
        rewrite Hhead. intros Heq. rewrite Heq in He.
        destruct name; [contradiction|discriminate He].
      * destruct (decide (Setup.normalized h = name)) as [Heq|Hne].
        -- rewrite Heq, lookup_insert_eq in Hacc. discriminate Hacc.
        -- rewrite lookup_insert_ne in Hacc by exact Hne.
           split; [exact Hacc|]. intros [|j]; [|rewrite Hhere; apply Hnone].
           rewrite Hhead. exact Hne.
Qed.

Lemma foldl_map_column_other (ac : gmap string nat) (l : list (string * string))
    (acc : gmap string nat) (script : string) :
  script ∉ l.*1 -> foldl (Setup.map_column ac) acc l !! script = acc !! script.
Proof.
  revert acc. induction l as [|[s a] l IH]; intros acc Hnot; [reflexivity|].
  cbn [foldl]. rewrite fmap_cons, not_elem_of_cons in Hnot. destruct Hnot as [Hne Hnot].
  rewrite (IH _ Hnot). unfold Setup.map_column. cbn [fst] in Hne.
  destruct (ac !! toLowerCase a); [apply lookup_insert_ne; congruence|reflexivity].
Qed.

Lemma foldl_map_column_entry (ac : gmap string nat) (l : list (string * string))
    (acc : gmap string nat) (script actual : string) :
  NoDup l.*1 -> (script, actual) ∈ l ->
  foldl (Setup.map_column ac) acc l !! script
  = match ac !! toLowerCase actual with
    | Some i => Some i
    | None => acc !! script
    end.
Proof.
  revert acc. induction l as [|[s a] l IH]; intros acc Hnd Hin.
  - apply elem_of_nil in Hin. contradiction.
  - rewrite fmap_cons in Hnd. apply NoDup_cons in Hnd as [Hfresh Hnd]. cbn [fst] in Hfresh.
    apply elem_of_cons in Hin as [Heq|Hin]; cbn [foldl].
    + injection Heq as -> ->. rewrite foldl_map_column_other by exact Hfresh.
      unfold Setup.map_column. destruct (ac !! toLowerCase a); [apply lookup_insert_eq|reflexivity].
    + rewrite (IH _ Hnd Hin).
      assert (Hne : s <> script).
      { intros ->. apply Hfresh. apply list_elem_of_fmap. exists (script, actual).
        split; [reflexivity|exact Hin]. }
      destruct (ac !! toLowerCase actual); [reflexivity|].
      unfold Setup.map_column.
      destruct (ac !! toLowerCase a); [apply lookup_insert_ne; exact Hne|reflexivity].
Qed.

Lemma NoDup_COLUMN_MAPPINGS : NoDup Setup.COLUMN_MAPPINGS.*1.
Proof.
  cbn. repeat (apply NoDup_cons_2;
               [rewrite ?not_elem_of_cons; repeat split; try discriminate;
                apply not_elem_of_nil|]).
  apply NoDup_nil_2.
Qed.

(** The columns of the map [getColumnMapping] returns. *)
Lemma getColumnMapping_columns (sh : sheet) (cm : gmap string nat) :
  Setup.getColumnMapping sh = Some cm ->
  exists headers,
    Setup.headerRow sh = Some headers
    /\ (forall script actual,
          (script, actual) ∈ Setup.COLUMN_MAPPINGS ->
          match cm !! script with
          | Some i =>
              Setup.names headers i (toLowerCase actual)
              /\ forall j, (i < j)%nat -> ~ Setup.names headers j (toLowerCase actual)
          | None => forall j, ~ Setup.names headers j (toLowerCase actual)
          end)
    /\ forall script, is_Some (cm !! script) -> script ∈ Setup.COLUMN_MAPPINGS.*1.
Proof.
  unfold Setup.getColumnMapping.
  destruct (Setup.headerRow sh) as [headers|]; [|discriminate].
  destruct (Setup.actualColumns_from headers 0 ∅) as [ac|] eqn:Hac; [|discriminate].
  intros H.
  assert (Hcm : cm = foldl (Setup.map_column ac) ∅ Setup.COLUMN_MAPPINGS) by congruence.
  clear H. subst cm. exists headers. split; [reflexivity|]. split.
  - intros script actual Hin.
    rewrite (foldl_map_column_entry ac _ ∅ script actual NoDup_COLUMN_MAPPINGS Hin).
    rewrite lookup_empty.
    assert (Hname : toLowerCase actual <> "").
    { unfold Setup.COLUMN_MAPPINGS in Hin.
      repeat (apply elem_of_cons in Hin as [Hin|Hin]; [injection Hin as -> ->; discriminate|]).
      apply elem_of_nil in Hin. contradiction. }
    pose proof (actualColumns_from_lookup headers 0 ∅ ac _ Hname Hac) as H.
    destruct (ac !! toLowerCase actual) as [i|].
    + destruct H as [(_ & Hn & Hlast)|[Hempty _]]; [|rewrite lookup_empty in Hempty; discriminate].
      rewrite Nat.sub_0_r in *. split; assumption.
    + apply H.
  - intros script Hsome. destruct (decide (script ∈ Setup.COLUMN_MAPPINGS.*1)) as [|Hnot];
      [assumption|].
    rewrite foldl_map_column_other, lookup_empty in Hsome by exact Hnot.
    destruct Hsome as [x Hx]. discriminate Hx.
Qed.

(** X12.  [getColumnMapping] finds the columns by their header text without
    regard to letter case and to white space around it: a script name
    stands for the last column whose header is the configured name, and it
    is not in the map when no header is; nothing else is in the map. *)
Theorem getColumnMapping_takes_the_last_column (sh : sheet) (cm : gmap string nat) :
  Setup.getColumnMapping sh = Some cm ->
  exists headers,
    Setup.headerRow sh = Some headers
    /\ (forall script actual,
          (script, actual) ∈ Setup.COLUMN_MAPPINGS ->
          match cm !! script with
          | Some i =>
              Setup.names headers i (toLowerCase actual)
              /\ forall j, (i < j)%nat -> ~ Setup.names headers j (toLowerCase actual)
          | None => forall j, ~ Setup.names headers j (toLowerCase actual)
          end)
    /\ forall script, is_Some (cm !! script) -> script ∈ Setup.COLUMN_MAPPINGS.*1.
Proof. apply getColumnMapping_columns. Qed.

Lemma getColumnMapping_takes_the_last_column_witness :
  exists headers,
    Setup.headerRow bulk_roster = Some headers
    /\ Setup.names headers 2 "sms opt-in".
Proof.
  assert (Hcm : Setup.getColumnMapping bulk_roster = Some bulk_columns)
    by (vm_compute; reflexivity).
  destruct (getColumnMapping_takes_the_last_column bulk_roster bulk_columns Hcm)
    as (headers & Hh & Hcols & _).
  exists headers. split; [exact Hh|].
  assert (Hin : ("opt_in", "SMS Opt-In") ∈ Setup.COLUMN_MAPPINGS)
    by (apply list_elem_of_further, list_elem_of_here).
  pose proof (Hcols "opt_in" "SMS Opt-In" Hin) as H.
  change (bulk_columns !! "opt_in") with (Some 2%nat) in H.
  exact (proj1 H).
Defined.

(** ** The same column, for the bulk sender and for the inbound handler *)

Lemma findCol_from_first (hs : list string) (target : string) (i : nat) :
  match Inbound.findCol_from hs target i with
  | Some k =>
      (i <= k)%nat
      /\ (fun h => toLowerCase (trim h)) <$> hs !! (k - i)%nat = Some target
      /\ forall j, (j < k - i)%nat ->
                   (fun h => toLowerCase (trim h)) <$> hs !! j <> Some target
  | None => forall j, (fun h => toLowerCase (trim h)) <$> hs !! j <> Some target
  end.
Proof.
  revert i. induction hs as [|h rest IH]; intros i; cbn [Inbound.findCol_from].
  - intros j. rewrite lookup_nil. discriminate.
  - case_bool_decide as Hh.
    + split; [lia|]. rewrite Nat.sub_diag. split; [simpl; rewrite Hh; reflexivity|].
      intros j Hj. lia.
    + specialize (IH (S i)). destruct (Inbound.findCol_from rest target (S i)) as [k|].
      * destruct IH as (Hle & Hk & Hfirst). split; [lia|].
        replace (k - i)%nat with (S (k - S i)) by lia. split; [exact Hk|].
        intros [|j] Hj; [simpl; congruence|]. apply Hfirst. lia.
      * intros [|j]; [simpl; congruence|]. apply IH.
Qed.

Lemma actualColumns_from_texts (headers : row) (index : nat) (acc ac : gmap string nat) :
  Setup.actualColumns_from headers index acc = Some ac ->
  Forall (fun h => is_Some (Setup.toString h)) headers.
Proof.
  revert index acc. induction headers as [|h rest IH]; intros index acc;
    cbn [Setup.actualColumns_from]; [constructor|].
  destruct (Setup.toString h) as [text|] eqn:Ht; [|discriminate].
  intros Hac. constructor; [eauto|eapply IH, Hac].
Qed.

(** A header cell names a column alike for the two scripts. *)
Lemma normalized_as_inbound (h : value) (n : string) :
  is_Some (Setup.toString h) -> n <> "" -> n <> "0" -> n <> "false" ->
  Setup.normalized h = n <-> toLowerCase (trim (to_string (or_else h (VStr "")))) = n.
Proof.
  intros [text Ht] Hn H0 Hf. unfold Setup.normalized, or_else.
  destruct h as [| |[|]|z|s|d]; try discriminate Ht; cbn [truthy negb to_string];
    try reflexivity.
  - change (toLowerCase (trim "false")) with "false". change (toLowerCase (trim "")) with "".
    split; intros H; congruence.
  - destruct (z =? 0) eqn:Hz; cbn [negb to_string]; [|reflexivity].
    apply Z.eqb_eq in Hz. subst z.
    change (toLowerCase (trim (string_of_Z 0))) with "0".
    change (toLowerCase (trim "")) with "".
    split; intros H; congruence.
  - destruct s; reflexivity.
Qed.

Lemma names_as_inbound (sh : sheet) (headers : row) (ac : gmap string nat)
    (k : nat) (n : string) :
  Setup.headerRow sh = Some headers ->
  Setup.actualColumns_from headers 0 ∅ = Some ac ->
  n <> "" -> n <> "0" -> n <> "false" ->
  Setup.names headers k n
  <-> (fun h => toLowerCase (trim h)) <$> Inbound.headers_of sh !! k = Some n.
Proof.
  intros Hh Hac Hn H0 Hf. unfold Setup.headerRow in Hh.
  destruct (Setup.getLastColumn sh =? 0)%nat; [discriminate|].
  injection Hh as <-. apply actualColumns_from_texts in Hac.
  unfold Setup.names, Inbound.headers_of.
  destruct sh as [|first rest].
  { simpl. destruct k as [|k]; simpl.
    - split; intros [= H]; exfalso; apply Hn; symmetry; exact H.
    - split; intros H; discriminate H. }
  change (default [] (getValues (first :: rest) !! 0%nat))
    with (pad (width (first :: rest)) blank first) in *.
  change (default [] ((first :: rest) !! 0%nat)) with first.
  change (map (fun h => to_string (or_else h (VStr ""))) first)
    with ((fun h => to_string (or_else h (VStr ""))) <$> first).
  rewrite list_lookup_fmap. unfold pad in *.
  destruct (first !! k) as [h|] eqn:Hk.
  - rewrite lookup_app_l by (eapply lookup_lt_Some, Hk). rewrite Hk. simpl.
    assert (Hs : is_Some (Setup.toString h)).
    { rewrite Forall_forall in Hac. apply Hac. apply elem_of_app. left.
      eapply list_elem_of_lookup_2, Hk. }
    pose proof (normalized_as_inbound h n Hs Hn H0 Hf) as Hiff.
    split; intros [= H]; f_equal; apply Hiff; exact H.
  - simpl. apply lookup_ge_None in Hk. rewrite lookup_app_r by exact Hk.
    split; [|discriminate].
    destruct (replicate _ blank !! (k - length first)%nat) as [b|] eqn:Hb; [|discriminate].
    apply lookup_replicate in Hb as [-> _]. simpl. intros [= H].
    exfalso. apply Hn. symmetry. exact H.
Qed.

(** X13.  The bulk sender and the inbound handler look for a column of the
    Student Database by the same header text: one finds it when the other
    does; with the name at the head of several columns the inbound handler
    takes the first and the bulk sender the last; with the name at the head
    of one column they take the same. *)
Theorem same_column_for_bulk_and_inbound (sh : sheet) (cm : gmap string nat)
    (script actual : string) :
  Setup.getColumnMapping sh = Some cm ->
  (script, actual) ∈ Setup.COLUMN_MAPPINGS ->
  exists headers,
    Setup.headerRow sh = Some headers
    /\ match Inbound.findCol (Inbound.headers_of sh) actual, cm !! script with
       | Some i, Some j =>
           (i <= j)%nat
           /\ forall k, Setup.names headers k (toLowerCase actual) -> (i <= k <= j)%nat
       | None, None => True
       | _, _ => False
       end
    /\ ((forall k k',
           Setup.names headers k (toLowerCase actual) ->
           Setup.names headers k' (toLowerCase actual) -> k = k') ->
        Inbound.findCol (Inbound.headers_of sh) actual = cm !! script).
Proof.
  intros Hcm Hin.
  destruct (getColumnMapping_columns sh cm Hcm) as (headers & Hh & Hcols & _).
  specialize (Hcols script actual Hin).
  exists headers. split; [exact Hh|].
  assert (Hac : exists ac, Setup.actualColumns_from headers 0 ∅ = Some ac).
  { unfold Setup.getColumnMapping in Hcm. rewrite Hh in Hcm.
    destruct (Setup.actualColumns_from headers 0 ∅) as [ac|]; [eauto|discriminate]. }
  destruct Hac as [ac Hac].
  assert (Hname : toLowerCase (trim actual) = toLowerCase actual
                  /\ toLowerCase actual <> "" /\ toLowerCase actual <> "0"
                  /\ toLowerCase actual <> "false").
  { unfold Setup.COLUMN_MAPPINGS in Hin.
    repeat (apply elem_of_cons in Hin as [Hin|Hin];
            [injection Hin as -> ->; repeat split; discriminate|]).
    apply elem_of_nil in Hin. contradiction. }
  destruct Hname as (Htrim & Hn & H0 & Hf).
  assert (Hsame : forall k,
             Setup.names headers k (toLowerCase actual)
             <-> (fun h => toLowerCase (trim h)) <$> Inbound.headers_of sh !! k
                 = Some (toLowerCase actual)).
  { intros k. apply (names_as_inbound sh headers ac k _ Hh Hac Hn H0 Hf). }
  pose proof (findCol_from_first (Inbound.headers_of sh) (toLowerCase (trim actual)) 0)
    as Hfirst.
  unfold Inbound.findCol. rewrite Htrim in *.
  destruct (Inbound.findCol_from (Inbound.headers_of sh) (toLowerCase actual) 0) as [i|].
  - destruct Hfirst as (_ & Hi & Hbefore). rewrite Nat.sub_0_r in *.
    apply Hsame in Hi.
    destruct (cm !! script) as [j|].
    + destruct Hcols as [Hj Hafter].
      assert (Hbetween : forall k,
                 Setup.names headers k (toLowerCase actual) -> (i <= k <= j)%nat).
      { intros k Hk. split.
        - destruct (decide (k < i)%nat) as [Hlt|]; [|lia].
          exfalso. apply (Hbefore k Hlt). apply Hsame, Hk.
        - destruct (decide (j < k)%nat) as [Hlt|]; [|lia].
          exfalso. exact (Hafter k Hlt Hk). }
      split; [split; [apply Hbetween, Hi|exact Hbetween]|].
      intros Huniq. f_equal. apply Huniq; assumption.
    + exfalso. exact (Hcols i Hi).
  - destruct (cm !! script) as [j|].
    + destruct Hcols as [Hj _]. exfalso. apply (Hfirst j). apply Hsame, Hj.
    + split; [exact I|]. intros _. reflexivity.
Qed.

(** The columns of a given header row that a hypothesis [Hk] says have a
    name: a case analysis on the first [n] columns. *)
Ltac column_cases n k Hk :=
  lazymatch n with
  | O => try (vm_compute in Hk; discriminate Hk)
  | S ?m =>
      destruct k as [|k];
      [try (vm_compute in Hk; discriminate Hk)|column_cases m k Hk]
  end.

Lemma same_column_for_bulk_and_inbound_witness :
  Inbound.findCol (Inbound.headers_of bulk_roster) "SMS Opt-In"
  = bulk_columns !! "opt_in".
Proof.
  assert (Hcm : Setup.getColumnMapping bulk_roster = Some bulk_columns)
    by (vm_compute; reflexivity).
  assert (Hin : ("opt_in", "SMS Opt-In") ∈ Setup.COLUMN_MAPPINGS)
    by (apply list_elem_of_further, list_elem_of_here).
  destruct (same_column_for_bulk_and_inbound bulk_roster bulk_columns "opt_in"
              "SMS Opt-In" Hcm Hin) as (headers & Hh & _ & Hone).
  apply Hone. vm_compute in Hh. injection Hh as <-.
  intros k k' Hk Hk'.
  column_cases 8%nat k Hk; column_cases 8%nat k' Hk'; reflexivity.
Defined.

(** ** smsBulkSend.js: a run without rows, a cursor that is no number *)

(** X14.  A run of [sendBulkSMS] raises before it reads the cursor, in every
    world: when the credentials, the sheet and the header row are in order,
    [validateColumns] looks the sheet up under [CONFIG.SHEET_NAME], a field
    the sources do not define, and raises for the required columns or for
    the sheet it has not found.  So a run posts nothing and leaves the
    properties and the sheets as they are.  Of the code it does not reach:
    [getCursor] gives 1 without a saved cursor and with an empty one, and a
    batch started at or beyond the end of the data enters the loop body for
    no row and saves no cursor. *)
Theorem bulk_run_raises_before_cursor (vendor : nat -> fetch_result) (w : world) :
  Setup.sendBulkSMS vendor w = Setup.Raised w
  /\ (forall cm, Setup.validateColumns cm w = None)
  /\ (getProperty w Bulk.CURSOR_KEY = None \/ getProperty w Bulk.CURSOR_KEY = Some "" ->
      Bulk.getCursor w = Some 1)
  /\ (forall allData cm cred N,
        (length allData <= N)%nat ->
        Bulk.processBatch vendor allData cm cred N w
        = Bulk.mkRun (Bulk.mkStats 0 0 0 0 0 false (length allData)) w []).
Proof.
  assert (Hvalidate : forall cm, Setup.validateColumns cm w = None).
  { intros cm. unfold Setup.validateColumns, Setup.sheetNamed, Setup.CONFIG_SHEET_NAME.
    destruct (0 <? _)%nat; reflexivity. }
  split; [|split; [exact Hvalidate|split]].
  - unfold Setup.sendBulkSMS.
    destruct (Setup.getTwilioCredentials w); [reflexivity|].
    destruct (getSheetByName w Bulk.SHEET_NAME); [|reflexivity].
    destruct (Setup.getColumnMapping _); [|reflexivity].
    rewrite Hvalidate. reflexivity.
  - unfold Bulk.getCursor. intros [-> | ->]; reflexivity.
  - intros allData cm cred N Hlen. unfold Bulk.processBatch.
    rewrite drop_ge by exact Hlen. cbn [Bulk.processLoop].
    replace (N <? length allData)%nat with false by (symmetry; apply Nat.ltb_ge; lia).
    reflexivity.
Qed.

(** ** smsSend.js: the message to all who opted in *)

Lemma outbox_logSms_ (to body sid code err : value) (w : world) :
  outbox (Sms.logSms_ to body sid code err w) = outbox w.
Proof. reflexivity. Qed.

Lemma props_logSms_ (to body sid code err : value) (w : world) :
  props (Sms.logSms_ to body sid code err w) = props w.
Proof. reflexivity. Qed.

Lemma getSheet_logSms_ (to body sid code err : value) (w : world) (name : string) :
  name <> Sms.sms_log_name ->
  getSheetByName (Sms.logSms_ to body sid code err w) name = getSheetByName w name.
Proof.
  intros Hne. unfold Sms.logSms_. apply getSheet_putSheet_ne. congruence.
Qed.

(** What [sendSms_] does to the world besides the log. *)
Lemma sendSms_effect (fr : fetch_result) (to body : string) (w : world) :
  let w' := snd (Sms.sendSms_ fr to body w) in
  outbox w'
  = outbox w ++ (if Sms.missing_credentials w || Sms.missing_sender w then []
                 else [(to, body)])
  /\ props w' = props w
  /\ forall name, name <> Sms.sms_log_name ->
                  getSheetByName w' name = getSheetByName w name.
Proof.
  cbn zeta. unfold Sms.sendSms_.
  destruct (Sms.missing_credentials w); cbn [orb].
  { rewrite app_nil_r. repeat split. }
  destruct (Sms.missing_sender w).
  { rewrite app_nil_r. repeat split. }
  destruct fr as [err|status [|text err| |j]];
    unfold Sms.sendSms_caught, Sms.sendSms_parsed;
    try destruct ((200 <=? status) && (status <? 300));
    cbn [snd]; rewrite outbox_logSms_, props_logSms_;
    (split; [reflexivity|]; split; [reflexivity|]);
    intros name Hne; rewrite getSheet_logSms_ by exact Hne; reflexivity.
Qed.

Lemma sendOneWithControls_effect (authorized : bool) (fr : fetch_result)
    (to body : string) (w w' : world) :
  Send.sendOneWithControls_ authorized fr to body w = Some w' ->
  outbox w' = outbox w ++ (if Campaign.live w then [(to, body)] else [])
  /\ props w' = props w
  /\ forall name, name <> Sms.sms_log_name ->
                  getSheetByName w' name = getSheetByName w name.
Proof.
  unfold Send.sendOneWithControls_, Campaign.live.
  destruct authorized; [|discriminate]. cbn [negb].
  destruct (Send.isDryRun_ w); cbn [negb andb]; intros [= <-].
  - unfold Send.safeLogSms_. rewrite outbox_logSms_, props_logSms_, app_nil_r.
    split; [reflexivity|]. split; [reflexivity|].
    intros name Hne. apply getSheet_logSms_, Hne.
  - destruct (sendSms_effect fr to body w) as (Ho & Hp & Hs). cbn zeta in *.
    rewrite Ho. split; [|split; assumption]. f_equal.
    destruct (Sms.missing_credentials w), (Sms.missing_sender w); reflexivity.
Qed.

Lemma live_props (w w' : world) : props w' = props w -> Campaign.live w' = Campaign.live w.
Proof.
  intros Hp.
  unfold Campaign.live, Send.isDryRun_, Send.getProp_, Sms.missing_credentials,
    Sms.missing_sender, getProperty.
  rewrite Hp. reflexivity.
Qed.

(** The loop over the roster. *)
Lemma sendLoop_effect (authorized : nat -> bool) (vendor : nat -> fetch_result)
    (cOpt cPhone : option nat) (message : string) (rows : list row) (r : nat)
    (w : world) :
  let w' := Sync.world_of
              (Campaign.sendLoop authorized vendor cOpt cPhone message rows r w) in
  exists sent,
    outbox w' = outbox w ++ sent
    /\ props w' = props w
    /\ (forall name, name <> Sms.sms_log_name ->
                     getSheetByName w' name = getSheetByName w name)
    /\ (forall to body,
          (to, body) ∈ sent ->
          body = message +:+ Send.smsFooter_
          /\ exists cells,
               cells ∈ rows
               /\ Campaign.optOf cells cOpt = "yes"
               /\ truthy (Campaign.cellAt cells cPhone) = true
               /\ to = Sms.toE164_ (Campaign.cellAt cells cPhone))
    /\ (Campaign.live w = false -> sent = [])
    /\ (length sent <= length rows)%nat.
Proof.
  revert r w. induction rows as [|cells rest IH]; intros r w; cbn [Campaign.sendLoop].
  - exists []. cbn [Sync.world_of]. rewrite app_nil_r.
    split; [reflexivity|]. split; [reflexivity|]. split; [intros; reflexivity|].
    split; [intros to body H; apply elem_of_nil in H; contradiction|].
    split; [reflexivity|simpl; lia].
  - assert (Hskip : forall w0,
               w0 = Sync.world_of
                      (Campaign.sendLoop authorized vendor cOpt cPhone message rest (S r) w) ->
               exists sent,
                 outbox w0 = outbox w ++ sent
                 /\ props w0 = props w
                 /\ (forall name, name <> Sms.sms_log_name ->
                                  getSheetByName w0 name = getSheetByName w name)
                 /\ (forall to body,
                       (to, body) ∈ sent ->
                       body = message +:+ Send.smsFooter_
                       /\ exists cells0,
                            cells0 ∈ cells :: rest
                            /\ Campaign.optOf cells0 cOpt = "yes"
                            /\ truthy (Campaign.cellAt cells0 cPhone) = true
                            /\ to = Sms.toE164_ (Campaign.cellAt cells0 cPhone))
                 /\ (Campaign.live w = false -> sent = [])
                 /\ (length sent <= length (cells :: rest))%nat).
    { intros w0 ->. destruct (IH (S r) w) as (sent & Ho & Hp & Hs & Hin & Hdry & Hlen).
      cbn zeta in *. exists sent. split; [exact Ho|]. split; [exact Hp|].
      split; [exact Hs|]. split; [|split; [exact Hdry|simpl; lia]].
      intros to body H. destruct (Hin to body H) as (Hb & c & Hc & Hrest).
      split; [exact Hb|]. exists c. split; [apply list_elem_of_further, Hc|exact Hrest]. }
    cbn zeta.
    destruct (bool_decide (Campaign.optOf cells cOpt = "yes")) eqn:Hopt; cbn [andb];
      [|apply Hskip; reflexivity].
    destruct (truthy (Campaign.cellAt cells cPhone)) eqn:Hphone; [|apply Hskip; reflexivity].
    apply bool_decide_eq_true in Hopt.
    destruct (Send.sendOneWithControls_ _ _ _ _ w) as [w1|] eqn:Hsend.
    2:{ exists []. cbn [Sync.world_of]. rewrite app_nil_r.
        split; [reflexivity|]. split; [reflexivity|]. split; [intros; reflexivity|].
        split; [intros to body H; apply elem_of_nil in H; contradiction|].
        split; [reflexivity|simpl; lia]. }
    apply sendOneWithControls_effect in Hsend as (Ho1 & Hp1 & Hs1).
    destruct (IH (S r) w1) as (sent & Ho & Hp & Hs & Hin & Hdry & Hlen). cbn zeta in *.
    exists ((if Campaign.live w then [(Sms.toE164_ (Campaign.cellAt cells cPhone),
                                       message +:+ Send.smsFooter_)] else []) ++ sent).
    split; [rewrite Ho, Ho1, app_assoc; reflexivity|].
    split; [rewrite Hp; exact Hp1|].
    split; [intros name Hne; rewrite Hs by exact Hne; apply Hs1, Hne|].
    split; [|split].
    + intros to body H. apply elem_of_app in H as [H|H].
      * destruct (Campaign.live w); [|apply elem_of_nil in H; contradiction].
        apply list_elem_of_singleton in H. injection H as -> ->.
        split; [reflexivity|]. exists cells. split; [apply list_elem_of_here|].
        repeat split; assumption.
      * destruct (Hin to body H) as (Hb & c & Hc & Hrest).
        split; [exact Hb|]. exists c. split; [apply list_elem_of_further, Hc|exact Hrest].
    + intros Hlive. rewrite Hlive. rewrite Hdry; [reflexivity|].
      rewrite (live_props w w1 Hp1). exact Hlive.
    + rewrite length_app. destruct (Campaign.live w); simpl; lia.
Qed.

(** X15.  [sendBulkToOptedIn_] posts to the vendor only for rows of the
    Student Database, below the header, whose opt-in cell reads [yes]
    without regard to letter case and whose phone cell is not empty; the
    number is the phone dialed by [toE164_] and the text is the message with
    the footer that tells how to stop.  In a dry run, or without the Twilio
    configuration, it posts nothing.  It changes no sheet but the log, also
    when the pass code session runs out during the run. *)
Theorem roster_message_goes_to_opted_in (authorized : nat -> bool)
    (vendor : nat -> fetch_result) (message : string) (w : world) :
  let w' := Sync.world_of (Campaign.sendBulkToOptedIn_ authorized vendor message w) in
  exists sent,
    outbox w' = outbox w ++ sent
    /\ (forall name, name <> Sms.sms_log_name ->
                     getSheetByName w' name = getSheetByName w name)
    /\ (Campaign.live w = false -> sent = [])
    /\ forall to body,
         (to, body) ∈ sent ->
         body = message +:+ Send.smsFooter_
         /\ exists db r cells,
              getSheetByName w Campaign.db_name = Some db
              /\ (1 <= r)%nat /\ getValues db !! r = Some cells
              /\ Campaign.optOf cells
                   (Campaign.hdr (default [] (getValues db !! 0%nat)) !! "SMS Opt-In")
                 = "yes"
              /\ truthy (Campaign.cellAt cells
                           (Campaign.hdr (default [] (getValues db !! 0%nat)) !! "Phone #"))
                 = true
              /\ to = Sms.toE164_
                        (Campaign.cellAt cells
                           (Campaign.hdr (default [] (getValues db !! 0%nat)) !! "Phone #")).
Proof.
  cbn zeta. unfold Campaign.sendBulkToOptedIn_.
  assert (Hnone : exists sent : list (string * string),
             outbox w = outbox w ++ sent
             /\ (forall name, name <> Sms.sms_log_name ->
                              getSheetByName w name = getSheetByName w name)
             /\ (Campaign.live w = false -> sent = [])
             /\ forall to body,
                  (to, body) ∈ sent ->
                  body = message +:+ Send.smsFooter_
                  /\ exists db r cells,
                       getSheetByName w Campaign.db_name = Some db
                       /\ (1 <= r)%nat /\ getValues db !! r = Some cells
                       /\ Campaign.optOf cells
                            (Campaign.hdr (default [] (getValues db !! 0%nat)) !! "SMS Opt-In")
                          = "yes"
                       /\ truthy (Campaign.cellAt cells
                                    (Campaign.hdr (default [] (getValues db !! 0%nat))
                                       !! "Phone #")) = true
                       /\ to = Sms.toE164_
                                 (Campaign.cellAt cells
                                    (Campaign.hdr (default [] (getValues db !! 0%nat))
                                       !! "Phone #"))).
  { exists []. rewrite app_nil_r. split; [reflexivity|]. split; [intros; reflexivity|].
    split; [reflexivity|]. intros to body H. apply elem_of_nil in H. contradiction. }
  destruct (negb (authorized 0%nat)); [exact Hnone|].
  destruct (getSheetByName w Campaign.db_name) as [db|] eqn:Hdb; [|exact Hnone].
  clear Hnone. cbn zeta.
  destruct (sendLoop_effect authorized vendor
              (Campaign.hdr (default [] (getValues db !! 0%nat)) !! "SMS Opt-In")
              (Campaign.hdr (default [] (getValues db !! 0%nat)) !! "Phone #")
              message (drop 1 (getValues db)) 1 w)
    as (sent & Ho & _ & Hs & Hin & Hdry & _). cbn zeta in *.
  exists sent. split; [exact Ho|]. split; [exact Hs|]. split; [exact Hdry|].
  intros to body H. destruct (Hin to body H) as (Hb & cells & Hc & Hopt & Hphone & Hto).
  split; [exact Hb|]. apply list_elem_of_lookup_1 in Hc as [k Hk].
  rewrite lookup_drop in Hk.
  exists db, (1 + k)%nat, cells. split; [reflexivity|]. split; [lia|].
  split; [exact Hk|]. split; [exact Hopt|]. split; [exact Hphone|exact Hto].
Qed.

Lemma roster_message_goes_to_opted_in_witness :
  outbox (Sync.world_of
            (Campaign.sendBulkToOptedIn_ (fun _ => true) accepting "Meeting at 6."
               dry_run_roster))
  = [].
Proof.
  destruct (roster_message_goes_to_opted_in (fun _ => true) accepting "Meeting at 6."
              dry_run_roster) as (sent & Ho & _ & Hdry & _).
  rewrite Ho, Hdry; reflexivity.
Defined.

(** ** smsSend.js: the audience *)

Lemma NoDup_add (ce : string) (emails : list string) :
  NoDup emails -> NoDup (Campaign.add ce emails).
Proof.
  intros Hnd. unfold Campaign.add. case_bool_decide as Hin; [exact Hnd|].
  apply NoDup_app. split; [exact Hnd|]. split; [|apply NoDup_singleton].
  intros x Hx Hx'. apply list_elem_of_singleton in Hx'. subst x. contradiction.
Qed.

Lemma elem_of_add (x ce : string) (emails : list string) :
  x ∈ Campaign.add ce emails <-> x ∈ emails \/ x = ce.
Proof.
  unfold Campaign.add. case_bool_decide as Hin.
  - split; [auto|]. intros [H| ->]; assumption.
  - rewrite elem_of_app, list_elem_of_singleton. reflexivity.
Qed.

(** The emails of the attendees of an event. *)
Lemma attendees_emails (aId aCE : option nat) (eventId : value) (rows : list row) :
  NoDup (Campaign.attendees aId aCE eventId rows)
  /\ forall ce,
       ce ∈ Campaign.attendees aId aCE eventId rows ->
       ce <> ""
       /\ exists cells,
            cells ∈ rows
            /\ trim (to_string (Campaign.cellAt cells aId)) = trim (to_string eventId)
            /\ Campaign.campusOf cells aCE = ce.
Proof.
  unfold Campaign.attendees.
  set (step := fun (emails : list string) (cells : row) => _).
  assert (H : forall acc,
             NoDup acc ->
             NoDup (foldl step acc rows)
             /\ forall ce,
                  ce ∈ foldl step acc rows ->
                  ce ∈ acc
                  \/ (ce <> ""
                      /\ exists cells,
                           cells ∈ rows
                           /\ trim (to_string (Campaign.cellAt cells aId))
                              = trim (to_string eventId)
                           /\ Campaign.campusOf cells aCE = ce)).
  { induction rows as [|cells rest IH]; intros acc Hnd; cbn [foldl].
    - split; [exact Hnd|]. intros ce Hce. left. exact Hce.
    - assert (Hnd' : NoDup (step acc cells)).
      { unfold step. destruct (negb _); [exact Hnd|].
        destruct (is_empty_string _); [exact Hnd|apply NoDup_add, Hnd]. }
      destruct (IH _ Hnd') as [Hnd'' Hin]. split; [exact Hnd''|].
      intros ce Hce. destruct (Hin ce Hce) as [Hstep|(Hne & c & Hc & Hrest)].
      + unfold step in Hstep.
        destruct (negb (bool_decide _)) eqn:Hev; [left; exact Hstep|].
        apply negb_false_iff, bool_decide_eq_true in Hev.
        destruct (is_empty_string (Campaign.campusOf cells aCE)) eqn:Hempty;
          [left; exact Hstep|].
        apply elem_of_add in Hstep as [Hacc| ->]; [left; exact Hacc|].
        right. split; [intros Heq; rewrite Heq in Hempty; discriminate Hempty|].
        exists cells. split; [apply list_elem_of_here|]. split; [exact Hev|reflexivity].
      + right. split; [exact Hne|]. exists c.
        split; [apply list_elem_of_further, Hc|exact Hrest]. }
  destruct (H [] NoDup_nil_2) as [Hnd Hin]. split; [exact Hnd|].
  intros ce Hce. destruct (Hin ce Hce) as [Hnil|Hrow]; [|exact Hrow].
  apply elem_of_nil in Hnil. contradiction.
Qed.

(** The emails of all who opted in. *)
Lemma allOptedIn_emails (dOpt dCampus : option nat) (rows : list row) :
  NoDup (Campaign.allOptedIn dOpt dCampus rows).
Proof.
  unfold Campaign.allOptedIn.
  set (step := fun (emails : list string) (cells : row) => _).
  assert (H : forall acc, NoDup acc -> NoDup (foldl step acc rows)).
  { induction rows as [|cells rest IH]; intros acc Hnd; cbn [foldl]; [exact Hnd|].
    apply IH. unfold step. destruct (_ && _); [apply NoDup_add, Hnd|exact Hnd]. }
  apply H, NoDup_nil_2.
Qed.

(** The table of the roster by campus email: an email leads to the last
    row that has it, and the empty email leads nowhere. *)
Lemma byCampus_no_blank (dCampus : option nat) (rows : list row) :
  Campaign.byCampus dCampus rows !! "" = None.
Proof.
  unfold Campaign.byCampus.
  set (step := fun (m : gmap string row) (c : row) => _).
  assert (H : forall acc, acc !! "" = None -> foldl step acc rows !! "" = None).
  { induction rows as [|c rest IH]; intros acc Hacc; cbn [foldl]; [exact Hacc|].
    apply IH. unfold step.
    destruct (is_empty_string (Campaign.campusOf c dCampus)) eqn:Hempty; [exact Hacc|].
    rewrite lookup_insert_ne; [exact Hacc|].
    intros Heq. rewrite Heq in Hempty. discriminate Hempty. }
  apply H, lookup_empty.
Qed.

Lemma byCampus_lookup (dCampus : option nat) (rows : list row) (ce : string)
    (cells : row) :
  Campaign.byCampus dCampus rows !! ce = Some cells ->
  ce <> ""
  /\ exists k,
       rows !! k = Some cells
       /\ Campaign.campusOf cells dCampus = ce
       /\ forall j cells',
            (k < j)%nat -> rows !! j = Some cells' ->
            Campaign.campusOf cells' dCampus <> ce.
Proof.
  intros Hlook.
  assert (Hne : ce <> "").
  { intros ->. rewrite byCampus_no_blank in Hlook. discriminate Hlook. }
  split; [exact Hne|]. revert Hlook. unfold Campaign.byCampus.
  set (step := fun (m : gmap string row) (c : row) => _).
  assert (H : forall acc,
             foldl step acc rows !! ce = Some cells ->
             (acc !! ce = Some cells
              /\ forall j cells', rows !! j = Some cells' ->
                                  Campaign.campusOf cells' dCampus <> ce)
             \/ (exists k,
                   rows !! k = Some cells
                   /\ Campaign.campusOf cells dCampus = ce
                   /\ forall j cells',
                        (k < j)%nat -> rows !! j = Some cells' ->
                        Campaign.campusOf cells' dCampus <> ce)).
  { induction rows as [|c rest IH]; intros acc; cbn [foldl].
    - intros Hacc. left. split; [exact Hacc|]. intros j cells' Hj.
      rewrite lookup_nil in Hj. discriminate Hj.
    - intros Hfold. destruct (IH _ Hfold) as [[Hstep Hnone]|(k & Hk & Hce & Hlast)].
      + unfold step in Hstep.
        destruct (is_empty_string (Campaign.campusOf c dCampus)) eqn:Hempty.
        * left. split; [exact Hstep|]. intros [|j] cells' Hj; [|eapply Hnone, Hj].
          injection Hj as <-. intros Heq. rewrite Heq in Hempty.
          destruct ce; [contradiction|discriminate Hempty].
        * destruct (decide (Campaign.campusOf c dCampus = ce)) as [Heq|Hneq].
          -- rewrite Heq, lookup_insert_eq in Hstep. injection Hstep as ->.
             right. exists 0%nat. split; [reflexivity|]. split; [exact Heq|].
             intros [|j] cells' Hj Hrow; [lia|]. eapply Hnone, Hrow.
          -- rewrite lookup_insert_ne in Hstep by exact Hneq.
             left. split; [exact Hstep|]. intros [|j] cells' Hj; [|eapply Hnone, Hj].
             injection Hj as <-. exact Hneq.
      + right. exists (S k). split; [exact Hk|]. split; [exact Hce|].
        intros [|j] cells' Hj Hrow; [lia|]. apply (Hlast j cells'); [lia|exact Hrow]. }
  intros Hlook. destruct (H ∅ Hlook) as [[Hempty _]|Hrow]; [|exact Hrow].
  rewrite lookup_empty in Hempty. discriminate Hempty.
Qed.

Lemma personOf_email (by_campus : gmap string row) (dOpt dPhone dName : option nat)
    (ce : string) (p : Campaign.person) :
  Campaign.personOf by_campus dOpt dPhone dName ce = Some p ->
  Campaign.campusEmail p = ce
  /\ exists cells,
       by_campus !! ce = Some cells
       /\ Campaign.optOf cells dOpt = "yes"
       /\ truthy (Campaign.cellAt cells dPhone) = true
       /\ Campaign.phone p = to_string (Campaign.cellAt cells dPhone).
Proof.
  unfold Campaign.personOf. destruct (by_campus !! ce) as [cells|]; [|discriminate].
  destruct (bool_decide (Campaign.optOf cells dOpt = "yes")) eqn:Hopt; [|discriminate].
  destruct (truthy (Campaign.cellAt cells dPhone)) eqn:Hphone; [|discriminate].
  cbn [andb]. intros [= <-]. split; [reflexivity|]. exists cells.
  apply bool_decide_eq_true in Hopt. repeat split; assumption.
Qed.

Lemma people_of_emails (by_campus : gmap string row) (dOpt dPhone dName : option nat)
    (emails : list string) :
  NoDup emails ->
  NoDup (Campaign.campusEmail
           <$> omap (Campaign.personOf by_campus dOpt dPhone dName) emails).
Proof.
  induction emails as [|ce rest IH]; intros Hnd; [apply NoDup_nil_2|].
  apply NoDup_cons in Hnd as [Hfresh Hnd]. cbn [omap list_omap].
  destruct (Campaign.personOf by_campus dOpt dPhone dName ce) as [p|] eqn:Hp;
    [|apply IH, Hnd].
  rewrite fmap_cons. apply NoDup_cons. split; [|apply IH, Hnd].
  apply personOf_email in Hp as [Hce _]. rewrite Hce.
  intros Hin. apply list_elem_of_fmap in Hin as (q & Hq & Hin).
  apply list_elem_of_omap in Hin as (ce' & Hin & Hq').
  apply personOf_email in Hq' as [Hce' _]. apply Hfresh. congruence.
Qed.

(** X16.  The audience [resolveAudience_] returns holds every campus email
    once, and every one of its people stands for a row of the Student
    Database below the header: the last row with that campus email, which
    is not empty, with an opt-in cell that reads [yes] without regard to
    letter case and a phone cell that is not empty.  For the audience of the
    attendees the email is also on a row of the Attendance sheet with the
    event id asked for.  An audience key other than [attendees] and
    [alloptedin] gives nobody. *)
Theorem audience_is_opted_in (eventId : value) (audienceKey : string) (w : world) :
  let people := Campaign.resolveAudience_ eventId audienceKey w in
  NoDup (Campaign.campusEmail <$> people)
  /\ (audienceKey <> "attendees" -> audienceKey <> "alloptedin" -> people = [])
  /\ forall p,
       p ∈ people ->
       exists db k cells,
         getSheetByName w Campaign.db_name = Some db
         /\ (1 <= k)%nat /\ getValues db !! k = Some cells
         /\ let dh := map to_string (default [] (getValues db !! 0%nat)) in
            Campaign.campusOf cells (Sync.indexOf "Campus Email" dh)
            = Campaign.campusEmail p
            /\ Campaign.campusEmail p <> ""
            /\ Campaign.optOf cells (Sync.indexOf "SMS Opt-In" dh) = "yes"
            /\ truthy (Campaign.cellAt cells (Sync.indexOf "Phone #" dh)) = true
            /\ Campaign.phone p
               = to_string (Campaign.cellAt cells (Sync.indexOf "Phone #" dh))
            /\ (forall j cells',
                  (k < j)%nat -> getValues db !! j = Some cells' ->
                  Campaign.campusOf cells' (Sync.indexOf "Campus Email" dh)
                  <> Campaign.campusEmail p)
            /\ (audienceKey = "attendees" ->
                exists att cells',
                  getSheetByName w Campaign.attendance_name = Some att
                  /\ cells' ∈ drop 1 (getValues att)
                  /\ let ah := map to_string (default [] (getValues att !! 0%nat)) in
                     trim (to_string (Campaign.cellAt cells' (Sync.indexOf "Event ID" ah)))
                     = trim (to_string eventId)
                     /\ Campaign.campusOf cells' (Sync.indexOf "Campus Email" ah)
                        = Campaign.campusEmail p).
Proof.
  cbn zeta. unfold Campaign.resolveAudience_.
  destruct (getSheetByName w Campaign.db_name) as [db|] eqn:Hdb.
  2:{ split; [apply NoDup_nil_2|]. split; [reflexivity|].
      intros p Hp. apply elem_of_nil in Hp. contradiction. }
  cbn zeta.
  set (dh := map to_string (default [] (getValues db !! 0%nat))).
  set (by_campus := Campaign.byCampus (Sync.indexOf "Campus Email" dh) (drop 1 (getValues db))).
  set (person := Campaign.personOf by_campus (Sync.indexOf "SMS Opt-In" dh)
                   (Sync.indexOf "Phone #" dh) (Sync.indexOf "Student Name" dh)).
  (* a person of some list of emails stands for a row of the roster *)
  assert (Hrow : forall (emails : list string) p,
             p ∈ omap person emails ->
             Campaign.campusEmail p ∈ emails
             /\ exists k cells,
                  (1 <= k)%nat /\ getValues db !! k = Some cells
                  /\ Campaign.campusOf cells (Sync.indexOf "Campus Email" dh)
                     = Campaign.campusEmail p
                  /\ Campaign.campusEmail p <> ""
                  /\ Campaign.optOf cells (Sync.indexOf "SMS Opt-In" dh) = "yes"
                  /\ truthy (Campaign.cellAt cells (Sync.indexOf "Phone #" dh)) = true
                  /\ Campaign.phone p
                     = to_string (Campaign.cellAt cells (Sync.indexOf "Phone #" dh))
                  /\ forall j cells',
                       (k < j)%nat -> getValues db !! j = Some cells' ->
                       Campaign.campusOf cells' (Sync.indexOf "Campus Email" dh)
                       <> Campaign.campusEmail p).
  { intros emails p Hp. apply list_elem_of_omap in Hp as (ce & Hce & Hp).
    apply personOf_email in Hp as (Heq & cells & Hlook & Hopt & Hphone & Hnum).
    rewrite Heq. split; [exact Hce|].
    apply byCampus_lookup in Hlook as (Hne & k & Hk & Hcampus & Hlast).
    rewrite lookup_drop in Hk.
    exists (1 + k)%nat, cells. split; [lia|]. split; [exact Hk|].
    split; [exact Hcampus|]. split; [exact Hne|]. split; [exact Hopt|].
    split; [exact Hphone|]. split; [exact Hnum|].
    intros j cells' Hj Hrow'. apply (Hlast (j - 1)%nat cells'); [lia|].
    rewrite lookup_drop. replace (1 + (j - 1))%nat with j by lia. exact Hrow'. }
  case_bool_decide as Hatt.
  - destruct (getSheetByName w Campaign.attendance_name) as [att|] eqn:Hsheet.
    2:{ split; [apply NoDup_nil_2|]. split; [reflexivity|].
        intros p Hp. apply elem_of_nil in Hp. contradiction. }
    cbn zeta.
    set (ah := map to_string (default [] (getValues att !! 0%nat))).
    destruct (attendees_emails (Sync.indexOf "Event ID" ah) (Sync.indexOf "Campus Email" ah)
                eventId (drop 1 (getValues att))) as [Hnd Hin].
    split; [apply people_of_emails, Hnd|]. split; [intros H; contradiction|].
    intros p Hp. destruct (Hrow _ p Hp) as (Hce & k & cells & Hk & Hcells & Hrest).
    exists db, k, cells. split; [reflexivity|]. split; [exact Hk|]. split; [exact Hcells|].
    destruct Hrest as (H1 & H2 & H3 & H4 & H5 & H6).
    repeat (split; [assumption|]). intros _.
    destruct (Hin _ Hce) as (_ & cells' & Hc' & Hev & Hmail).
    exists att, cells'. split; [reflexivity|]. split; [exact Hc'|]. split; assumption.
  - case_bool_decide as Hall.
    + split; [apply people_of_emails, allOptedIn_emails|].
      split; [intros _ H; contradiction|].
      intros p Hp. destruct (Hrow _ p Hp) as (Hce & k & cells & Hk & Hcells & Hrest).
      exists db, k, cells. split; [reflexivity|]. split; [exact Hk|]. split; [exact Hcells|].
      destruct Hrest as (H1 & H2 & H3 & H4 & H5 & H6).
      repeat (split; [assumption|]). intros H. contradiction.
    + split; [apply NoDup_nil_2|]. split; [reflexivity|].
      intros p Hp. apply elem_of_nil in Hp. contradiction.
Qed.

(** ** smsSend.js: the message to the attendees of an event *)

Lemma attendeeLoop_effect (authorized : nat -> bool) (vendor : nat -> fetch_result)
    (aColEvent aColCampus : nat) (by_campus : gmap string row)
    (dColOpt dColPhone : option nat) (eventId body : string) (rows : list row)
    (r : nat) (seen : list string) (w : world) :
  let w' := Sync.world_of
              (Campaign.attendeeLoop authorized vendor aColEvent aColCampus by_campus
                 dColOpt dColPhone eventId body rows r seen w) in
  exists recipients : list (string * row),
    outbox w'
    = outbox w
      ++ (if Campaign.live w
          then (fun to => (Sms.toE164_ (Campaign.cellAt to.2 dColPhone), body))
                 <$> recipients
          else [])
    /\ props w' = props w
    /\ (forall name, name <> Sms.sms_log_name ->
                     getSheetByName w' name = getSheetByName w name)
    /\ NoDup recipients.*1
    /\ forall ce cells,
         (ce, cells) ∈ recipients ->
         (ce ∉ seen)
         /\ by_campus !! ce = Some cells
         /\ Campaign.optOf cells dColOpt = "yes"
         /\ truthy (Campaign.cellAt cells dColPhone) = true
         /\ exists attended,
              attended ∈ rows
              /\ trim (to_string (Campaign.cellAt attended (Some aColEvent))) = eventId
              /\ Campaign.campusOf attended (Some aColCampus) = ce.
Proof.
  revert r seen w. induction rows as [|cells rest IH]; intros r seen w;
    cbn [Campaign.attendeeLoop].
  - exists []. cbn [Sync.world_of fmap list_fmap]. 
    split; [destruct (Campaign.live w); rewrite app_nil_r; reflexivity|].
    split; [reflexivity|]. split; [intros; reflexivity|]. split; [apply NoDup_nil_2|].
    intros ce c H. apply elem_of_nil in H. contradiction.
  - cbn zeta.
    (* the rest of the loop, for a set of seen emails that has grown or not *)
    assert (Hnext : forall seen',
               seen ⊆ seen' ->
               exists recipients : list (string * row),
                 outbox (Sync.world_of
                           (Campaign.attendeeLoop authorized vendor aColEvent aColCampus
                              by_campus dColOpt dColPhone eventId body rest (S r) seen' w))
                 = outbox w
                   ++ (if Campaign.live w
                       then (fun to => (Sms.toE164_ (Campaign.cellAt to.2 dColPhone), body))
                              <$> recipients
                       else [])
                 /\ props (Sync.world_of
                             (Campaign.attendeeLoop authorized vendor aColEvent aColCampus
                                by_campus dColOpt dColPhone eventId body rest (S r) seen' w))
                    = props w
                 /\ (forall name, name <> Sms.sms_log_name ->
                       getSheetByName
                         (Sync.world_of
                            (Campaign.attendeeLoop authorized vendor aColEvent aColCampus
                               by_campus dColOpt dColPhone eventId body rest (S r) seen' w))
                         name
                       = getSheetByName w name)
                 /\ NoDup recipients.*1
                 /\ forall ce c,
                      (ce, c) ∈ recipients ->
                      (ce ∉ seen)
                      /\ by_campus !! ce = Some c
                      /\ Campaign.optOf c dColOpt = "yes"
                      /\ truthy (Campaign.cellAt c dColPhone) = true
                      /\ exists attended,
                           attended ∈ cells :: rest
                           /\ trim (to_string (Campaign.cellAt attended (Some aColEvent)))
                              = eventId
                           /\ Campaign.campusOf attended (Some aColCampus) = ce).
    { intros seen' Hsub.
      destruct (IH (S r) seen' w) as (rec & Ho & Hp & Hs & Hnd & Hin). cbn zeta in *.
      exists rec. split; [exact Ho|]. split; [exact Hp|]. split; [exact Hs|].
      split; [exact Hnd|]. intros ce c H.
      destruct (Hin ce c H) as (Hseen & Hby & Hopt & Hphone & a & Ha & Hev & Hmail).
      split; [intros Hce; apply Hseen, Hsub, Hce|]. repeat (split; [assumption|]).
      exists a. split; [apply list_elem_of_further, Ha|]. split; assumption. }
    destruct (negb (bool_decide _)) eqn:Hev; [apply Hnext; reflexivity|].
    apply negb_false_iff, bool_decide_eq_true in Hev.
    destruct (is_empty_string (Campaign.campusOf cells (Some aColCampus))) eqn:Hempty;
      cbn [orb]; [apply Hnext; reflexivity|].
    case_bool_decide as Hseen; [apply Hnext; reflexivity|].
    set (ce0 := Campaign.campusOf cells (Some aColCampus)) in *.
    assert (Hsub : seen ⊆ seen ++ [ce0]) by (intros x Hx; apply elem_of_app; left; exact Hx).
    destruct (by_campus !! ce0) as [row0|] eqn:Hby; [|apply Hnext, Hsub].
    destruct (bool_decide (Campaign.optOf row0 dColOpt = "yes")) eqn:Hopt; cbn [andb];
      [|apply Hnext, Hsub].
    destruct (truthy (Campaign.cellAt row0 dColPhone)) eqn:Hphone; [|apply Hnext, Hsub].
    apply bool_decide_eq_true in Hopt.
    destruct (Send.sendOneWithControls_ _ _ _ _ w) as [w1|] eqn:Hsend.
    2:{ exists []. cbn [Sync.world_of fmap list_fmap].
        split; [destruct (Campaign.live w); rewrite app_nil_r; reflexivity|].
        split; [reflexivity|]. split; [intros; reflexivity|]. split; [apply NoDup_nil_2|].
        intros ce c H. apply elem_of_nil in H. contradiction. }
    apply sendOneWithControls_effect in Hsend as (Ho1 & Hp1 & Hs1).
    destruct (IH (S r) (seen ++ [ce0]) w1) as (rec & Ho & Hp & Hs & Hnd & Hin).
    cbn zeta in *.
    exists ((ce0, row0) :: rec).
    split.
    { rewrite Ho, Ho1, (live_props w w1 Hp1), <- app_assoc.
      destruct (Campaign.live w); reflexivity. }
    split; [rewrite Hp; exact Hp1|].
    split; [intros name Hne; rewrite Hs by exact Hne; apply Hs1, Hne|].
    split.
    { rewrite fmap_cons. apply NoDup_cons. split; [|exact Hnd]. cbn [fst].
      intros H. apply list_elem_of_fmap in H as ([ce c] & Heq & H). cbn [fst] in Heq.
      subst ce. destruct (Hin ce0 c H) as (Hfresh & _). apply Hfresh.
      apply elem_of_app. right. apply list_elem_of_here. }
    intros ce c H. apply elem_of_cons in H as [H|H].
    + injection H as -> ->. split; [exact Hseen|]. repeat (split; [assumption|]).
      exists cells. split; [apply list_elem_of_here|]. split; [exact Hev|reflexivity].
    + destruct (Hin ce c H) as (Hfresh & Hby' & Hopt' & Hphone' & a & Ha & Hev' & Hmail).
      split; [intros Hce; apply Hfresh, Hsub, Hce|]. repeat (split; [assumption|]).
      exists a. split; [apply list_elem_of_further, Ha|]. split; assumption.
Qed.

(** X17.  [sendToEventAttendees_] posts at most one message for a campus
    email, however often the Attendance sheet lists it for the event, and
    only for an email that is on a row of that sheet with the event id and
    whose last row in the Student Database has an opt-in cell reading [yes]
    and a phone cell that is not empty; the text is the one given.  In a
    dry run, or without the Twilio configuration, it posts nothing, and it
    changes no sheet but the log. *)
Theorem event_message_once_per_attendee (authorized : nat -> bool)
    (vendor : nat -> fetch_result) (eventId body : string) (w : world) :
  let w' := Sync.world_of
              (Campaign.sendToEventAttendees_ authorized vendor eventId body w) in
  exists recipients : list (string * row),
    outbox w'
    = outbox w
      ++ (if Campaign.live w
          then (fun to => (Sms.toE164_
                             (Campaign.cellAt to.2
                                (Sync.indexOf "Phone #"
                                   (map to_string
                                      (default []
                                         (getValues
                                            (default [] (getSheetByName w Campaign.db_name))
                                            !! 0%nat))))),
                           body)) <$> recipients
          else [])
    /\ (forall name, name <> Sms.sms_log_name ->
                     getSheetByName w' name = getSheetByName w name)
    /\ NoDup recipients.*1
    /\ forall ce cells,
         (ce, cells) ∈ recipients ->
         exists att db attended,
           getSheetByName w Campaign.attendance_name = Some att
           /\ getSheetByName w Campaign.db_name = Some db
           /\ attended ∈ drop 1 (getValues att)
           /\ let aHdrs := map to_string (default [] (getValues att !! 0%nat)) in
              let dHdrs := map to_string (default [] (getValues db !! 0%nat)) in
              trim (to_string
                      (Campaign.cellAt attended (Sync.indexOf "Event ID" aHdrs)))
              = eventId
              /\ Campaign.campusOf attended (Sync.indexOf "Campus Email" aHdrs) = ce
              /\ Campaign.byCampus (Sync.indexOf "Campus Email" dHdrs)
                   (drop 1 (getValues db)) !! ce = Some cells
              /\ Campaign.optOf cells (Sync.indexOf "SMS Opt-In" dHdrs) = "yes"
              /\ truthy (Campaign.cellAt cells (Sync.indexOf "Phone #" dHdrs)) = true.
Proof.
  cbn zeta. unfold Campaign.sendToEventAttendees_.
  assert (Hnone : exists recipients : list (string * row),
             outbox w
             = outbox w
               ++ (if Campaign.live w
                   then (fun to => (Sms.toE164_
                                      (Campaign.cellAt to.2
                                         (Sync.indexOf "Phone #"
                                            (map to_string
                                               (default []
                                                  (getValues
                                                     (default []
                                                        (getSheetByName w Campaign.db_name))
                                                     !! 0%nat))))),
                                    body)) <$> recipients
                   else [])
             /\ (forall name, name <> Sms.sms_log_name ->
                              getSheetByName w name = getSheetByName w name)
             /\ NoDup recipients.*1
             /\ forall ce cells,
                  (ce, cells) ∈ recipients ->
                  exists att db attended,
                    getSheetByName w Campaign.attendance_name = Some att
                    /\ getSheetByName w Campaign.db_name = Some db
                    /\ attended ∈ drop 1 (getValues att)
                    /\ let aHdrs := map to_string (default [] (getValues att !! 0%nat)) in
                       let dHdrs := map to_string (default [] (getValues db !! 0%nat)) in
                       trim (to_string
                               (Campaign.cellAt attended (Sync.indexOf "Event ID" aHdrs)))
                       = eventId
                       /\ Campaign.campusOf attended (Sync.indexOf "Campus Email" aHdrs) = ce
                       /\ Campaign.byCampus (Sync.indexOf "Campus Email" dHdrs)
                            (drop 1 (getValues db)) !! ce = Some cells
                       /\ Campaign.optOf cells (Sync.indexOf "SMS Opt-In" dHdrs) = "yes"
                       /\ truthy (Campaign.cellAt cells (Sync.indexOf "Phone #" dHdrs))
                          = true).
  { exists []. cbn [fmap list_fmap].
    split; [destruct (Campaign.live w); rewrite app_nil_r; reflexivity|].
    split; [intros; reflexivity|]. split; [apply NoDup_nil_2|].
    intros ce c H. apply elem_of_nil in H. contradiction. }
  destruct (getSheetByName w Campaign.attendance_name) as [att|] eqn:Hatt; [|exact Hnone].
  destruct (getSheetByName w Campaign.db_name) as [db|] eqn:Hdb; [|exact Hnone].
  cbn zeta.
  destruct (Sync.indexOf "Event ID" _) as [aColEvent|] eqn:Hev; [|exact Hnone].
  destruct (Sync.indexOf "Campus Email" (map to_string (default [] (getValues att !! 0%nat))))
    as [aColCampus|] eqn:Hca; [|exact Hnone].
  clear Hnone. cbn [default].
  destruct (attendeeLoop_effect authorized vendor aColEvent aColCampus
              (Campaign.byCampus
                 (Sync.indexOf "Campus Email"
                    (map to_string (default [] (getValues db !! 0%nat))))
                 (drop 1 (getValues db)))
              (Sync.indexOf "SMS Opt-In" (map to_string (default [] (getValues db !! 0%nat))))
              (Sync.indexOf "Phone #" (map to_string (default [] (getValues db !! 0%nat))))
              eventId body (drop 1 (getValues att)) 1 [] w)
    as (rec & Ho & _ & Hs & Hnd & Hin). cbn zeta in *.
  exists rec. split; [exact Ho|]. split; [exact Hs|]. split; [exact Hnd|].
  intros ce c H. destruct (Hin ce c H) as (_ & Hby & Hopt & Hphone & a & Ha & Hevent & Hmail).
  exists att, db, a. split; [reflexivity|]. split; [reflexivity|]. split; [exact Ha|].
  cbn zeta. rewrite Hev, Hca. repeat (split; [assumption|]). exact Hphone.
Qed.

(** ** The synchronisation script: the values it stores *)

Lemma truthy_text (s : string) : truthy (VStr s) = negb (is_empty_string s).
Proof. reflexivity. Qed.

(** X18.  [normalizeFieldValue_] gives a value that it does not change
    when it is given it again, for every database column; for the opt-in
    column it gives [Yes] or the empty string, and for the two email
    columns a text in lower case without white space around it. *)
Theorem normalizeFieldValue_normal_form (dbKey : string) (v : value) :
  Sync.normalizeFieldValue_ dbKey (Sync.normalizeFieldValue_ dbKey v)
  = Sync.normalizeFieldValue_ dbKey v
  /\ (dbKey = "SMS Opt-In" ->
      Sync.normalizeFieldValue_ dbKey v = VStr (if truthy v then "Yes" else ""))
  /\ (dbKey = "Email" \/ dbKey = "Campus Email" ->
      exists s, Sync.normalizeFieldValue_ dbKey v = VStr s /\ toLowerCase (trim s) = s).
Proof.
  split; [|split].
  - destruct (truthy v) eqn:Hv.
    2:{ unfold Sync.normalizeFieldValue_. rewrite Hv. reflexivity. }
    destruct (bool_decide (dbKey = "Email") || bool_decide (dbKey = "Campus Email")) eqn:Hmail.
    + assert (Hphone : bool_decide (dbKey = "Phone #") = false).
      { apply bool_decide_eq_false. intros ->. discriminate Hmail. }
      assert (Hopt : bool_decide (dbKey = "SMS Opt-In") = false).
      { apply bool_decide_eq_false. intros ->. discriminate Hmail. }
      assert (Hn : Sync.normalizeFieldValue_ dbKey v
                   = VStr (toLowerCase (trim (to_string v)))).
      { unfold Sync.normalizeFieldValue_. rewrite Hv, Hmail, Hphone, Hopt. reflexivity. }
      rewrite Hn. unfold Sync.normalizeFieldValue_.
      rewrite Hmail, Hphone, Hopt, truthy_text.
      destruct (is_empty_string (toLowerCase (trim (to_string v)))) eqn:He; cbn [negb].
      * destruct (toLowerCase (trim (to_string v))); [reflexivity|discriminate He].
      * cbn [to_string]. rewrite <- trim_toLowerCase, toLowerCase_idem, trim_toLowerCase.
        rewrite trim_idem. reflexivity.
    + destruct (bool_decide (dbKey = "Phone #")) eqn:Hphone.
      * assert (Hopt : bool_decide (dbKey = "SMS Opt-In") = false).
        { apply bool_decide_eq_true in Hphone. subst dbKey. reflexivity. }
        assert (Hn : exists d,
                   Sync.normalizeFieldValue_ dbKey v = VStr d
                   /\ digits_only d = d
                   /\ (String.length d =? 11)%nat && startsWith "1" d = false).
        { unfold Sync.normalizeFieldValue_. rewrite Hv, Hmail, Hphone, Hopt. cbn [negb].
          eexists. split; [reflexivity|]. split.
          - apply sfilter_all_chars.
            destruct (_ && _); [apply all_chars_slice1|]; apply all_chars_sfilter.
          - destruct ((String.length (digits_only (to_string v)) =? 11)%nat
                      && startsWith "1" (digits_only (to_string v))) eqn:Hlong;
              [|exact Hlong].
            apply andb_prop in Hlong as [Hl _]. apply Nat.eqb_eq in Hl.
            destruct (digits_only (to_string v)) as [|c r]; [discriminate Hl|].
            cbn [slice1]. injection Hl as Hl. rewrite Hl. reflexivity. }
        destruct Hn as (d & Hn & Hd & Hlen). rewrite Hn.
        unfold Sync.normalizeFieldValue_. rewrite Hmail, Hphone, Hopt, truthy_text.
        destruct (is_empty_string d) eqn:He; cbn [negb].
        -- destruct d; [reflexivity|discriminate He].
        -- cbn [to_string]. rewrite Hd, Hlen. reflexivity.
      * destruct (bool_decide (dbKey = "SMS Opt-In")) eqn:Hopt.
        -- unfold Sync.normalizeFieldValue_. rewrite Hv, Hmail, Hphone, Hopt. reflexivity.
        -- assert (Hn : Sync.normalizeFieldValue_ dbKey v = v).
           { unfold Sync.normalizeFieldValue_. rewrite Hv, Hmail, Hphone, Hopt. reflexivity. }
           rewrite !Hn. reflexivity.
  - intros ->. unfold Sync.normalizeFieldValue_. destruct (truthy v); reflexivity.
  - intros Hkey. unfold Sync.normalizeFieldValue_.
    destruct (truthy v); cbn [negb]; [|exists ""; split; reflexivity].
    assert (Hmail : bool_decide (dbKey = "Email") || bool_decide (dbKey = "Campus Email")
                    = true).
    { destruct Hkey as [-> | ->]; reflexivity. }
    assert (Hphone : bool_decide (dbKey = "Phone #") = false).
    { destruct Hkey as [-> | ->]; reflexivity. }
    assert (Hopt : bool_decide (dbKey = "SMS Opt-In") = false).
    { destruct Hkey as [-> | ->]; reflexivity. }
    rewrite Hmail, Hphone, Hopt. eexists. split; [reflexivity|].
    rewrite <- trim_toLowerCase, toLowerCase_idem, trim_toLowerCase, trim_idem.
    reflexivity.
Qed.

Lemma normalizeFieldValue_normal_form_witness :
  exists s,
    Sync.normalizeFieldValue_ "Campus Email" (VStr " Ada@GSU.edu ") = VStr s
    /\ toLowerCase (trim s) = s.
Proof.
  apply (proj2 (proj2 (normalizeFieldValue_normal_form "Campus Email"
                         (VStr " Ada@GSU.edu ")))).
  right. reflexivity.
Defined.

(** ** The synchronisation script: the identity key *)

(** X19.  The name [inferMatchKey_] chooses and the value [firstNonEmpty_]
    chooses belong to the same field: the first of the given fields whose
    value is not blank.  Where no field has a value, the one returns [null]
    and the other the empty string, and the loop body skips the row. *)
Theorem match_key_and_value_agree (o : obj) (ks : list string) :
  match Sync.inferMatchKey_ o ks with
  | Some k =>
      k ∈ ks
      /\ Sync.firstNonEmpty_ (map (get o) ks) = get o k
      /\ truthy (get o k) = true
      /\ trim (to_string (get o k)) <> ""
  | None => Sync.firstNonEmpty_ (map (get o) ks) = VStr ""
  end.
Proof.
  induction ks as [|k rest IH]; cbn [Sync.inferMatchKey_ Sync.firstNonEmpty_ map];
    [reflexivity|].
  destruct (truthy (get o k) && negb (is_empty_string (trim (to_string (get o k)))))
    eqn:Hk.
  - apply andb_prop in Hk as [Ht Hb]. split; [apply list_elem_of_here|].
    split; [reflexivity|]. split; [exact Ht|].
    intros He. rewrite He in Hb. discriminate Hb.
  - destruct (Sync.inferMatchKey_ o rest) as [k'|]; [|exact IH].
    destruct IH as (Hin & Hv & Ht & Hb). split; [apply list_elem_of_further, Hin|].
    repeat split; assumption.
Qed.

(** ** The synchronisation script: the opt-in of a submission *)

Lemma get_foldl_set_other {A} (key : A -> string) (val : A -> value) (l : list A)
    (acc : obj) (k : string) :
  k ∉ key <$> l ->
  get (foldl (fun o a => set (key a) (val a) o) acc l) k = get acc k.
Proof.
  revert acc. induction l as [|a l IH]; intros acc Hk; cbn [foldl]; [reflexivity|].
  rewrite fmap_cons in Hk. apply not_elem_of_cons in Hk as [Hne Hk].
  rewrite (IH _ Hk). apply get_set_ne. congruence.
Qed.

Lemma get_foldl_set_entry {A} (key : A -> string) (val : A -> value) (l : list A)
    (acc : obj) (a : A) :
  NoDup (key <$> l) -> a ∈ l ->
  get (foldl (fun o a => set (key a) (val a) o) acc l) (key a) = val a.
Proof.
  revert acc. induction l as [|a0 l IH]; intros acc Hnd Hin.
  - apply elem_of_nil in Hin. contradiction.
  - rewrite fmap_cons in Hnd. apply NoDup_cons in Hnd as [Hfresh Hnd]. cbn [foldl].
    apply elem_of_cons in Hin as [->|Hin].
    + rewrite get_foldl_set_other by exact Hfresh. apply get_set_eq.
    + apply IH; assumption.
Qed.

(** The opt-in a response row brings, in either draft. *)
Lemma incoming_opt_in (read : obj -> obj) (row : obj) :
  read = Sync.incoming_by_aliases \/ read = Sync.incoming_by_fieldMap ->
  exists raw,
    get (read row) "SMS Opt-In" = VStr (if truthy raw then "Yes" else "")
    /\ "SMS Opt-In" ∈ keys (read row).
Proof.
  intros [-> | ->].
  - exists (VStr (Sync.getValueByHeader_ row
                    ["SMS Opt-In"; "SMS Opt In"; "Text Opt-In"; "Text Opt In"])).
    split.
    + unfold Sync.incoming_by_aliases.
      pose proof (get_foldl_set_entry fst
                    (fun kv => Sync.normalizeFieldValue_ (fst kv)
                                 (VStr (Sync.getValueByHeader_ row (snd kv))))
                    Sync.fieldAliases []
                    ("SMS Opt-In",
                     ["SMS Opt-In"; "SMS Opt In"; "Text Opt-In"; "Text Opt In"])) as H.
      cbn [fst snd] in H. rewrite H.
      * unfold Sync.normalizeFieldValue_. destruct (truthy _); reflexivity.
      * cbn. repeat (apply NoDup_cons_2;
                     [rewrite ?not_elem_of_cons; repeat split; try discriminate;
                      apply not_elem_of_nil|]).
        apply NoDup_nil_2.
      * unfold Sync.fieldAliases. do 8 apply list_elem_of_further. apply list_elem_of_here.
    + vm_compute. do 8 apply list_elem_of_further. apply list_elem_of_here.
  - exists (nullish_else (get row "SMS Opt-In") (VStr "")).
    split.
    + unfold Sync.incoming_by_fieldMap.
      pose proof (get_foldl_set_entry snd
                    (fun kv => Sync.normalizeFieldValue_ (snd kv)
                                 (nullish_else (get row (fst kv)) (VStr "")))
                    Sync.fieldMap [] ("SMS Opt-In", "SMS Opt-In")) as H.
      cbn [fst snd] in H. rewrite H.
      * unfold Sync.normalizeFieldValue_. destruct (truthy _); reflexivity.
      * cbn. repeat (apply NoDup_cons_2;
                     [rewrite ?not_elem_of_cons; repeat split; try discriminate;
                      apply not_elem_of_nil|]).
        apply NoDup_nil_2.
      * unfold Sync.fieldMap. do 8 apply list_elem_of_further. apply list_elem_of_here.
    + vm_compute. do 8 apply list_elem_of_further. apply list_elem_of_here.
Qed.

Lemma get_copy_keys (incoming : obj) (ks : list string) (acc : obj) (k : string) :
  get (foldl (fun o k => set k (get incoming k) o) acc ks) k
  = if bool_decide (k ∈ ks) then get incoming k else get acc k.
Proof.
  revert acc. induction ks as [|k0 ks IH]; intros acc; cbn [foldl].
  - rewrite bool_decide_false by apply not_elem_of_nil. reflexivity.
  - rewrite IH. destruct (decide (k = k0)) as [->|Hne].
    + rewrite (bool_decide_true (k0 ∈ k0 :: ks)) by apply list_elem_of_here.
      rewrite get_set_eq. destruct (bool_decide (k0 ∈ ks)); reflexivity.
    + rewrite get_set_ne by congruence.
      assert (Hin : bool_decide (k ∈ k0 :: ks) = bool_decide (k ∈ ks)).
      { apply bool_decide_ext. rewrite elem_of_cons. tauto. }
      rewrite Hin. reflexivity.
Qed.

(** X20.  The opt-in a submission brings is [Yes] or nothing, in either
    draft.  The record the loop body writes back for a student of the index
    carries [Yes] when the submission brings [Yes], and otherwise the opt-in
    value of the record in the index, which is the roster as it was when the
    pass began; the record it makes for a new student carries [Yes] or the
    question mark. *)
Theorem opt_in_of_a_submission (read : obj -> obj) (fr : fetch_result)
    (dbHeaders : list string) (rowNumber : nat) (o row : obj) (w : world) :
  read = Sync.incoming_by_aliases \/ read = Sync.incoming_by_fieldMap ->
  let incoming := read row in
  let yes := bool_decide (get incoming "SMS Opt-In" = VStr "Yes") in
  (get incoming "SMS Opt-In" = VStr "Yes" \/ get incoming "SMS Opt-In" = VStr "")
  /\ get (fst (Sync.updateExisting fr dbHeaders rowNumber o incoming w)) "SMS Opt-In"
     = (if yes then VStr "Yes" else get o "SMS Opt-In")
  /\ get (fst (Sync.insertNew fr dbHeaders incoming w)) "SMS Opt-In"
     = (if yes then VStr "Yes" else VStr "?").
Proof.
  intros Hread incoming yes.
  destruct (incoming_opt_in read row Hread) as (raw & Hopt & Hkey).
  fold incoming in Hopt, Hkey.
  assert (Hcases : get incoming "SMS Opt-In" = VStr "Yes" /\ yes = true
                   \/ get incoming "SMS Opt-In" = VStr "" /\ yes = false).
  { unfold yes. rewrite Hopt. destruct (truthy raw); [left|right]; split; reflexivity. }
  split; [destruct Hcases as [[H _]|[H _]]; [left|right]; exact H|].
  split.
  - unfold Sync.updateExisting. cbn [fst]. fold yes.
    destruct Hcases as [[Hget ->]|[Hget ->]]; [apply get_set_eq|].
    unfold Sync.mergeRecords_. rewrite merge_keys_get, Hget. cbn [Sync.supplied].
    rewrite andb_false_r. reflexivity.
  - unfold Sync.insertNew. cbn [fst]. fold yes.
    destruct Hcases as [[Hget ->]|[Hget ->]]; [apply get_set_eq|].
    set (copied := foldl (fun o k => set k (get incoming k) o) _ (keys incoming)).
    assert (Hc : get (if negb (truthy (get copied "Join Date"))
                      then set "Join Date" (VStr (Sync.formatDate (clock w))) copied else copied)
                   "SMS Opt-In" = VStr "").
    { assert (Hcopied : get copied "SMS Opt-In" = VStr "").
      { unfold copied. rewrite get_copy_keys, bool_decide_true by exact Hkey. exact Hget. }
      destruct (negb _); [rewrite get_set_ne by discriminate|]; exact Hcopied. }
    rewrite Hc. cbn [truthy is_empty_string negb]. apply get_set_eq.
Qed.

Lemma opt_in_of_a_submission_witness :
  get (fst (Sync.updateExisting (accepting 0%nat) (map to_string database_header) 2
              [("SMS Opt-In", VStr "No")] (Sync.incoming_by_aliases []) bare_world))
    "SMS Opt-In"
  = VStr "No".
Proof.
  apply (proj1 (proj2 (opt_in_of_a_submission Sync.incoming_by_aliases (accepting 0%nat)
                         (map to_string database_header) 2 [("SMS Opt-In", VStr "No")]
                         [] bare_world (or_introl eq_refl)))).
Defined.

(** ** The synchronisation script: the welcome message of a submission *)

Lemma welcome_outbox (fr : fetch_result) (saved : obj) (w : world) :
  outbox (Sync.welcome fr saved w)
  = outbox w
    ++ (if truthy (get saved "Phone #")
           && negb (Sms.missing_credentials w || Sms.missing_sender w)
        then [(Sms.toE164_ (get saved "Phone #"), Sync.welcome_text)] else []).
Proof.
  unfold Sync.welcome. destruct (truthy (get saved "Phone #")); cbn [andb].
  - destruct (sendSms_effect fr (Sms.toE164_ (get saved "Phone #")) Sync.welcome_text w)
      as (Ho & _). cbn zeta in Ho. rewrite Ho.
    destruct (Sms.missing_credentials w || Sms.missing_sender w); reflexivity.
  - rewrite app_nil_r. reflexivity.
Qed.

(** X21.  To one submission the loop body sends at most one message, the
    welcome text, to the phone of the record it has saved.  For a record
    of the index it is sent when the submission brings [Yes], the opt-in
    the index holds for the record does not read [yes] in any letter case,
    the record has a phone and the project is configured; for a new record
    when the submission brings [Yes], it has a phone and the project is
    configured. *)
Theorem welcome_of_a_submission (fr : fetch_result) (dbHeaders : list string)
    (rowNumber : nat) (o incoming : obj) (w : world) :
  let yes := bool_decide (get incoming "SMS Opt-In" = VStr "Yes") in
  let prev := toLowerCase (to_string (or_else (get o "SMS Opt-In") (VStr ""))) in
  let configured := negb (Sms.missing_credentials w || Sms.missing_sender w) in
  let updated := Sync.updateExisting fr dbHeaders rowNumber o incoming w in
  let created := Sync.insertNew fr dbHeaders incoming w in
  outbox (snd updated)
  = outbox w
    ++ (if yes && negb (bool_decide (prev = "yes"))
           && truthy (get (fst updated) "Phone #") && configured
        then [(Sms.toE164_ (get (fst updated) "Phone #"), Sync.welcome_text)] else [])
  /\ outbox (snd created)
     = outbox w
       ++ (if yes && truthy (get (fst created) "Phone #") && configured
           then [(Sms.toE164_ (get (fst created) "Phone #"), Sync.welcome_text)] else []).
Proof.
  cbn zeta. unfold Sync.updateExisting, Sync.insertNew. cbn [fst snd].
  split.
  - destruct (bool_decide (get incoming "SMS Opt-In" = VStr "Yes")); cbn [andb];
      [|rewrite app_nil_r; reflexivity].
    destruct (negb (bool_decide (_ = "yes"))); cbn [andb];
      [|rewrite app_nil_r; reflexivity].
    rewrite welcome_outbox. reflexivity.
  - destruct (bool_decide (get incoming "SMS Opt-In" = VStr "Yes")); cbn [andb];
      [|rewrite app_nil_r; reflexivity].
    rewrite welcome_outbox. reflexivity.
Qed.

(** ** The synchronisation script: reading a sheet and writing a record back *)

(** The object [readSheetAsObjects_] makes of a row. *)
Lemma get_object_of_row (hs : list string) (cells : row) (i : nat) (h : string)
    (c : value) :
  NoDup hs -> length hs = length cells ->
  hs !! i = Some h -> cells !! i = Some c ->
  get (foldl (fun o hv => set (fst hv) (snd hv) o) [] (zip hs cells)) h = c.
Proof.
  intros Hnd Hlen Hh Hc.
  apply (get_foldl_set_entry fst snd (zip hs cells) [] (h, c)).
  - rewrite fst_zip by lia. exact Hnd.
  - apply (list_elem_of_lookup_2 _ i). apply lookup_zip_with_Some.
    exists h, c. repeat split; assumption.
Qed.

Lemma row_of_object_of_row (hs : list string) (cells : row) :
  NoDup hs -> length hs = length cells ->
  Sync.row_of hs (foldl (fun o hv => set (fst hv) (snd hv) o) [] (zip hs cells))
  = (fun v => nullish_else v (VStr "")) <$> cells.
Proof.
  intros Hnd Hlen. unfold Sync.row_of. apply list_eq. intros i.
  change (map ?f hs) with (f <$> hs). rewrite !list_lookup_fmap.
  destruct (hs !! i) as [h|] eqn:Hh.
  - destruct (cells !! i) as [c|] eqn:Hc.
    + simpl. rewrite (get_object_of_row hs cells i h c Hnd Hlen Hh Hc). reflexivity.
    + apply lookup_ge_None in Hc. apply lookup_lt_Some in Hh. lia.
  - apply lookup_ge_None in Hh. rewrite (lookup_ge_None_2 cells i) by lia. reflexivity.
Qed.

Lemma length_getValues_row (sh : sheet) (r : nat) (cells : row) :
  sh <> [] -> getValues sh !! r = Some cells -> length cells = width sh.
Proof.
  intros Hne Hr. rewrite getValues_rows in Hr by exact Hne.
  change (map ?f sh) with (f <$> sh) in Hr. rewrite list_lookup_fmap in Hr.
  destruct (sh !! r) as [raw|] eqn:Hraw; [|discriminate Hr].
  injection Hr as <-. rewrite length_pad.
  pose proof (width_bound sh raw (list_elem_of_lookup_2 _ _ _ Hraw)). lia.
Qed.

(** The rows of the table, as rows of the sheet. *)
Lemma readSheetAsObjects_row (sh : sheet) (i : nat) (o : obj) :
  Sync.rows (Sync.readSheetAsObjects_ sh) !! i = Some o ->
  exists raw,
    sh !! S i = Some raw
    /\ length (Sync.headers (Sync.readSheetAsObjects_ sh)) = width sh
    /\ o = foldl (fun o hv => set (fst hv) (snd hv) o) []
             (zip (Sync.headers (Sync.readSheetAsObjects_ sh)) (pad (width sh) blank raw))
    /\ (length raw <= width sh)%nat.
Proof.
  unfold Sync.readSheetAsObjects_. destruct sh as [|first rest].
  { simpl. intros H. rewrite lookup_nil in H. discriminate H. }
  cbn [getValues]. cbn [map Sync.rows Sync.headers].
  change (map ?f (map ?g rest)) with (f <$> (g <$> rest)).
  rewrite !list_lookup_fmap. cbn [lookup list_lookup].
  fold (@lookup nat row (list row) _).
  destruct (rest !! i) as [raw|] eqn:Hraw; [|discriminate].
  cbn. intros [= <-]. exists raw. split; [reflexivity|].
  assert (Hw : (length raw <= width (first :: rest))%nat).
  { apply width_bound. apply list_elem_of_further. eapply list_elem_of_lookup_2, Hraw. }
  split; [|split; [reflexivity|exact Hw]].
  rewrite length_map, length_pad.
  pose proof (width_bound (first :: rest) first (list_elem_of_here _ _)). lia.
Qed.

(** X22.  A record that [readSheetAsObjects_] has read from a sheet whose
    headers differ from one another is written back by [writeBackRow_] as
    it was read: the row it is written to keeps its cells, with the empty
    string where a cell was [null] or [undefined], and no other row
    changes. *)
Theorem read_then_write_back (sh : sheet) (i : nat) (o : obj) :
  NoDup (Sync.headers (Sync.readSheetAsObjects_ sh)) ->
  Sync.rows (Sync.readSheetAsObjects_ sh) !! i = Some o ->
  forall r c,
    cell (Sync.writeBackRow_ (Sync.headers (Sync.readSheetAsObjects_ sh)) (i + 2) o sh) r c
    = if bool_decide (r = S i) then nullish_else (cell sh r c) (VStr "")
      else cell sh r c.
Proof.
  intros Hnd Hrow r c.
  destruct (readSheetAsObjects_row sh i o Hrow) as (raw & Hraw & Hlen & -> & Hw).
  set (hs := Sync.headers (Sync.readSheetAsObjects_ sh)) in *.
  assert (Hpad : length hs = length (pad (width sh) blank raw)) by (rewrite length_pad; lia).
  unfold Sync.writeBackRow_. rewrite (row_of_object_of_row hs _ Hnd Hpad).
  replace (i + 2 - 1)%nat with (S i) by lia.
  assert (Hlong : (S i < length sh)%nat) by (eapply lookup_lt_Some, Hraw).
  rewrite (pad_full (i + 2) [] sh) by lia. rewrite Hraw. cbn [default].
  rewrite (drop_ge raw) by lia. rewrite app_nil_r.
  unfold cell. destruct (decide (r = S i)) as [->|Hne].
  - rewrite bool_decide_true by reflexivity.
    rewrite list_lookup_insert_eq by exact Hlong. rewrite Hraw.
    rewrite list_lookup_fmap.
    destruct (decide (c < length raw)%nat) as [Hc|Hc].
    + unfold pad. rewrite lookup_app_l by exact Hc.
      destruct (raw !! c) as [v|] eqn:Hv; [reflexivity|].
      apply lookup_ge_None in Hv. lia.
    + rewrite (lookup_ge_None_2 raw c) by lia. cbn [default].
      destruct (pad (width sh) blank raw !! c) as [v|] eqn:Hv; [|reflexivity].
      unfold pad in Hv. rewrite lookup_app_r in Hv by lia.
      apply lookup_replicate in Hv as [-> _]. reflexivity.
  - rewrite bool_decide_false by exact Hne.
    rewrite list_lookup_insert_ne by congruence. reflexivity.
Qed.

Lemma read_then_write_back_witness :
  cell (Sync.writeBackRow_ (map to_string database_header) 2 ada_saved
          [database_header; ada_on_roster]) 1 7
  = VStr "8162379012".
Proof.
  apply (read_then_write_back [database_header; ada_on_roster] 0 ada_saved).
  - cbn. repeat (apply NoDup_cons_2;
                 [rewrite ?not_elem_of_cons; repeat split; try discriminate;
                  apply not_elem_of_nil|]).
    apply NoDup_nil_2.
  - reflexivity.
Defined.

(** ** The synchronisation script: the flag column *)

Lemma headers_setValue_end (v : value) (sh : sheet) :
  Sync.headers (Sync.readSheetAsObjects_
     (setValue 0 (length (Sync.headers (Sync.readSheetAsObjects_ sh))) v sh))
  = Sync.headers (Sync.readSheetAsObjects_ sh) ++ [to_string v].
Proof.
  destruct sh as [|first rest]; [reflexivity|].
  unfold Sync.readSheetAsObjects_ at 2 3. cbn [getValues Sync.headers map].
  rewrite length_map, length_pad.
  pose proof (width_bound (first :: rest) first (list_elem_of_here _ _)) as Hfirst.
  assert (Hrest : (width rest <= width (first :: rest))%nat).
  { unfold width. cbn [map foldr]. lia. }
  set (W := width (first :: rest)) in *.
  replace (Nat.max W (length first)) with W by lia.
  unfold setValue. rewrite (pad_full 1 [] (first :: rest)) by (cbn; lia).
  cbn [lookup list_lookup default]. cbn [insert list_insert].
  assert (Hrow : <[W := v]> (pad (S W) blank first) = pad W blank first ++ [v]).
  { unfold pad. replace (S W - length first)%nat with ((W - length first) + 1)%nat by lia.
    rewrite replicate_add. cbn [replicate]. rewrite app_assoc.
    rewrite insert_app_r_alt by (rewrite length_app, length_replicate; lia).
    rewrite length_app, length_replicate.
    replace (W - (length first + (W - length first)))%nat with 0%nat by lia.
    reflexivity. }
  change (id first) with first. rewrite Hrow.
  assert (Hwidth : width ((pad W blank first ++ [v]) :: rest) = S W).
  { unfold width. cbn [map foldr]. rewrite length_app, length_pad. cbn [length].
    fold (width rest). lia. }
  unfold Sync.readSheetAsObjects_. cbn [getValues map Sync.headers]. rewrite Hwidth.
  rewrite (pad_full (S W)) by (rewrite length_app, length_pad; cbn [length]; lia).
  rewrite map_app. reflexivity.
Qed.

(** X23.  After [ensureProcessedColumn_] the sheet has the flag column: the
    headers are as before when the column was there, and the column is the
    new last one otherwise; a second call changes nothing; and no cell
    other than the new header cell changes. *)
Theorem ensureProcessedColumn_adds_the_column (colName : string) (sh : sheet) :
  let hs := Sync.headers (Sync.readSheetAsObjects_ sh) in
  let sh' := Sync.ensureProcessedColumn_ colName sh in
  Sync.headers (Sync.readSheetAsObjects_ sh')
  = (if bool_decide (colName ∈ hs) then hs else hs ++ [colName])
  /\ Sync.ensureProcessedColumn_ colName sh' = sh'
  /\ forall r c, (r, c) <> (0%nat, length hs) -> cell sh' r c = cell sh r c.
Proof.
  intros hs sh'.
  assert (Hheaders : Sync.headers (Sync.readSheetAsObjects_ sh')
                     = if bool_decide (colName ∈ hs) then hs else hs ++ [colName]).
  { unfold sh', Sync.ensureProcessedColumn_. fold hs.
    case_bool_decide; [reflexivity|].
    apply (headers_setValue_end (VStr colName) sh). }
  split; [exact Hheaders|]. split.
  - unfold Sync.ensureProcessedColumn_ at 1. rewrite Hheaders.
    rewrite bool_decide_true; [reflexivity|].
    case_bool_decide; [assumption|]. apply elem_of_app. right.
    apply list_elem_of_singleton. reflexivity.
  - intros r c Hne. unfold sh', Sync.ensureProcessedColumn_. fold hs.
    case_bool_decide; [reflexivity|]. rewrite cell_setValue.
    destruct (decide (r = 0%nat)) as [->|Hr].
    + rewrite bool_decide_true by reflexivity.
      rewrite bool_decide_false by congruence. reflexivity.
    + rewrite bool_decide_false by exact Hr. reflexivity.
Qed.

(** ** The synchronisation script: the index of the roster *)

Lemma index_row_key (idx : gmap string (nat * obj)) (i : nat) (o : obj) :
  Sync.index_row idx (i, o)
  = match Roster.index_key o with
    | Some k => <[k := ((i + 2)%nat, o)]> idx
    | None => idx
    end.
Proof.
  unfold Sync.index_row, Roster.index_key.
  destruct (Sync.inferMatchKey_ o Sync.matchKeys); [|reflexivity].
  destruct (truthy _); reflexivity.
Qed.

Lemma buildIndex_snoc (rows : list obj) (o : obj) :
  Sync.buildIndex_ (rows ++ [o])
  = Sync.index_row (Sync.buildIndex_ rows) (length rows, o).
Proof.
  unfold Sync.buildIndex_. rewrite imap_app, foldl_app. cbn [imap foldl].
  rewrite Nat.add_0_r. reflexivity.
Qed.

(** X24.  [buildIndex_] files every record that has a key, under the sheet
    row number of the record, and of two records with one key it keeps the
    later: the index holds (n, o) under a key exactly when o is the record
    of sheet row n, has that key, and no record below it has. *)
Theorem buildIndex_keeps_the_last_row (rows : list obj) (key : string) (n : nat)
    (o : obj) :
  Sync.buildIndex_ rows !! key = Some (n, o)
  <-> exists i,
        n = (i + 2)%nat /\ rows !! i = Some o /\ Roster.index_key o = Some key
        /\ forall j o', (i < j)%nat -> rows !! j = Some o' ->
                        Roster.index_key o' <> Some key.
Proof.
  revert n o. induction rows as [|x rows IH] using rev_ind; intros n o.
  { split.
    - unfold Sync.buildIndex_. cbn. rewrite lookup_empty. discriminate.
    - intros (i & _ & Hi & _). rewrite lookup_nil in Hi. discriminate Hi. }
  rewrite buildIndex_snoc, index_row_key.
  assert (Hold : forall i o0, (i < length rows)%nat ->
            ((rows ++ [x]) !! i = Some o0 /\ Roster.index_key o0 = Some key
             /\ (forall j o', (i < j)%nat -> (rows ++ [x]) !! j = Some o' ->
                              Roster.index_key o' <> Some key))
            <-> (Roster.index_key x <> Some key
                 /\ rows !! i = Some o0 /\ Roster.index_key o0 = Some key
                 /\ forall j o', (i < j)%nat -> rows !! j = Some o' ->
                                 Roster.index_key o' <> Some key)).
  { intros i o0 Hi. rewrite lookup_app_l by exact Hi. split.
    - intros (Ho & Hk & Hlater). split; [|split; [exact Ho|split; [exact Hk|]]].
      + apply (Hlater (length rows) x Hi).
        rewrite lookup_app_r by lia. rewrite Nat.sub_diag. reflexivity.
      + intros j o' Hij Hj. apply (Hlater j o' Hij).
        rewrite lookup_app_l by (eapply lookup_lt_Some, Hj). exact Hj.
    - intros (Hx & Ho & Hk & Hlater). split; [exact Ho|split; [exact Hk|]].
      intros j o' Hij Hj. destruct (decide (j < length rows)%nat) as [Hlt|Hge].
      + rewrite lookup_app_l in Hj by exact Hlt. exact (Hlater j o' Hij Hj).
      + rewrite lookup_app_r in Hj by lia.
        destruct (j - length rows)%nat;
          [|apply lookup_lt_Some in Hj; cbn in Hj; lia].
        injection Hj as <-. exact Hx. }
  assert (Hlast : forall o0, (rows ++ [x]) !! length rows = Some o0 <-> o0 = x).
  { intros o0. rewrite lookup_app_r by lia. rewrite Nat.sub_diag. cbn.
    split; [intros [= <-]; reflexivity|intros ->; reflexivity]. }
  assert (Hnone : forall j o', (length rows < j)%nat -> (rows ++ [x]) !! j = Some o' -> False).
  { intros j o' Hj Ho. apply lookup_lt_Some in Ho. rewrite length_app in Ho. cbn in Ho. lia. }
  destruct (Roster.index_key x) as [k|] eqn:Hkx.
  - destruct (decide (k = key)) as [->|Hk].
    + rewrite lookup_insert_eq. split.
      * intros [= <- <-]. exists (length rows). split; [reflexivity|].
        split; [apply Hlast; reflexivity|]. split; [exact Hkx|].
        intros j o' Hj Ho. destruct (Hnone j o' Hj Ho).
      * intros (i & -> & Ho & Hko & Hlater).
        destruct (decide (i < length rows)%nat) as [Hlt|Hge].
        -- destruct (proj1 (Hold i o Hlt) (conj Ho (conj Hko Hlater))) as [Hx _].
           congruence.
        -- assert (i = length rows) as ->.
           { apply lookup_lt_Some in Ho. rewrite length_app in Ho. cbn in Ho. lia. }
           apply Hlast in Ho as ->. reflexivity.
    + rewrite lookup_insert_ne by exact Hk. rewrite IH. split.
      * intros (i & -> & Ho & Hko & Hlater). exists i. split; [reflexivity|].
        apply Hold; [eapply lookup_lt_Some, Ho|].
        split; [congruence|]. split; [exact Ho|]. split; [exact Hko|exact Hlater].
      * intros (i & -> & Ho & Hko & Hlater).
        destruct (decide (i < length rows)%nat) as [Hlt|Hge].
        -- exists i. split; [reflexivity|].
           apply (Hold i o Hlt). split; [exact Ho|split; [exact Hko|exact Hlater]].
        -- assert (i = length rows) as ->.
           { apply lookup_lt_Some in Ho. rewrite length_app in Ho. cbn in Ho. lia. }
           apply Hlast in Ho as ->. congruence.
  - rewrite IH. split.
    + intros (i & -> & Ho & Hko & Hlater). exists i. split; [reflexivity|].
      apply Hold; [eapply lookup_lt_Some, Ho|].
      split; [congruence|]. split; [exact Ho|]. split; [exact Hko|exact Hlater].
    + intros (i & -> & Ho & Hko & Hlater).
      destruct (decide (i < length rows)%nat) as [Hlt|Hge].
      * exists i. split; [reflexivity|].
        apply (Hold i o Hlt). split; [exact Ho|split; [exact Hko|exact Hlater]].
      * assert (i = length rows) as ->.
        { apply lookup_lt_Some in Ho. rewrite length_app in Ho. cbn in Ho. lia. }
        apply Hlast in Ho as ->. congruence.
Qed.

(** ** The synchronisation script: rows flagged as processed *)

Lemma indexOf_from_found (x : string) (l : list string) (i : nat) :
  x ∈ l -> is_Some (Sync.indexOf_from x l i).
Proof.
  revert i. induction l as [|y l IH]; intros i Hin.
  - apply elem_of_nil in Hin. destruct Hin.
  - cbn [Sync.indexOf_from]. case_bool_decide as Hy; [eexists; reflexivity|].
    apply IH. apply elem_of_cons in Hin as [->|Hin]; [congruence|exact Hin].
Qed.

Lemma putSheet_same (name : string) (sh : sheet) (w : world) :
  getSheetByName w name = Some sh -> putSheet name sh w = w.
Proof.
  intros H. destruct w as [p b c o]. unfold putSheet, getSheetByName in *.
  cbn in *. rewrite insert_id by exact H. reflexivity.
Qed.

Lemma processRows_flagged (ps : Sync.pass) (vendor : nat -> fetch_result)
    (name : string) (col : nat) (rows : list obj) (r : nat) (w : world) :
  Forall (fun row => Sync.is_processed row = true) rows ->
  Sync.processRows ps vendor name col rows r w = Sync.Done w.
Proof.
  intros Hall. revert r. induction Hall as [|row rows Hrow _ IH]; intros r.
  - reflexivity.
  - cbn [Sync.processRows]. rewrite Hrow. apply IH.
Qed.

Lemma processSheets_flagged (ps : Sync.pass) (vendor : nat -> fetch_result)
    (names : list string) (w : world) :
  Roster.all_flagged names w ->
  Sync.processSheets ps vendor names w = Sync.Done w.
Proof.
  induction names as [|name names IH]; intros Hall; [reflexivity|].
  cbn [Sync.processSheets].
  assert (Hone : Sync.processSheet ps vendor name w = Sync.Done w).
  { unfold Sync.processSheet.
    destruct (getSheetByName w name) as [sh|] eqn:Hsh; [|reflexivity].
    destruct (Hall name sh (list_elem_of_here _ _) Hsh) as [Hcol Hrows].
    unfold Sync.ensureProcessedColumn_. rewrite bool_decide_true by exact Hcol.
    rewrite (putSheet_same name sh w Hsh).
    destruct (indexOf_from_found _ _ 0 Hcol) as [c Hc].
    unfold Sync.indexOf. rewrite Hc.
    apply processRows_flagged. exact Hrows. }
  rewrite Hone. apply IH.
  intros name' sh' Hin. apply Hall. apply list_elem_of_further. exact Hin.
Qed.

(** X25.  Rows flagged as processed are not processed again: when the
    roster sheet exists and every response sheet that exists has the flag
    column and only flagged rows, a run of either draft ends without an
    error and leaves the script properties, every sheet and the vendor
    untouched. *)
Theorem flagged_rows_are_left_alone (read : obj -> obj) (names : list string)
    (vendor : nat -> fetch_result) (w : world) :
  is_Some (getSheetByName w Sync.databaseSheetName) ->
  Roster.all_flagged names w ->
  Sync.syncWith read names vendor w = Sync.Done w.
Proof.
  intros [db Hdb] Hall. unfold Sync.syncWith. rewrite Hdb.
  apply processSheets_flagged. exact Hall.
Qed.

Lemma flagged_rows_are_left_alone_witness :
  Sync.syncStudentDatabase accepting processed_submission
  = Sync.Done processed_submission.
Proof.
  apply (flagged_rows_are_left_alone Sync.incoming_by_aliases
           ["Raw Attendance Data"; "Interest Form Raw Data"] accepting
           processed_submission).
  - eexists. reflexivity.
  - intros name sh Hin Hsh.
    apply elem_of_cons in Hin as [->|Hin].
    + vm_compute in Hsh. injection Hsh as <-. split.
      * vm_compute. do 6 apply list_elem_of_further. apply list_elem_of_here.
      * apply Forall_cons_2; [vm_compute; reflexivity|apply Forall_nil_2].
    + apply list_elem_of_singleton in Hin as ->. vm_compute in Hsh. discriminate Hsh.
Defined.
